(** * Lambda-Serverless: the sandbox executor, the warm pool, the metrics
      store and the runtime comparator, embedded from the Python sources

    - [virtualization/runner.py]        : [Pool], [Runner]
    - [virtualization/gvisor_runner.py] : [Gvisor]
    - [backend/metrics.py]              : [Metrics]
    - [backend/main.py]                 : [Main], and [Handlers] further down

    Conventions of the embedding.
    - [time.time()] readings and every duration are exact rationals ([Q],
      seconds); [int(x)] is truncation toward zero.
    - The rates of the aggregation, quotients of two counts, are binary64
      floats ([PrimFloat.float]).
    - A Python [dict] with string keys is a [gmap string _].
    - A Python function is a computation in the monad [M L A]: it threads
      the process-wide [World] (the module-level [container_pools], the
      container engine, the file system, the clock) and the frame [L] of
      the function's mutable locals, and ends either with a value or with
      a raised exception, of which only [str(e)] is kept.
    - The container engine, the file system and the clock are scripted:
      the world carries, per kind of call, the list of answers the next
      calls will receive. *)

From Stdlib Require Import ZArith QArith Qround Lia List Sorted.
From Stdlib Require Import Ascii String DecimalString.
From Stdlib Require PrimFloat Uint63 FloatOps SpecFloat.
From stdpp Require Import gmap strings list fin_maps relations.

Local Open Scope string_scope.

(** ** Python values and helpers *)

Module Py.

Inductive pyval :=
| PyNone
| PyBool (b : bool)
| PyInt (z : Z)
| PyFloat (q : Q)
| PyStr (s : string).

(** [str.lower()] on ASCII text. *)
Definition lower_ascii (c : ascii) : ascii :=
  let n := nat_of_ascii c in
  if ((65 <=? n) && (n <=? 90))%nat then ascii_of_nat (n + 32) else c.

Fixpoint lower (s : string) : string :=
  match s with
  | EmptyString => EmptyString
  | String c s' => String (lower_ascii c) (lower s')
  end.

(** [str(z)] for an [int]. *)
Definition str_of_Z (z : Z) : string := NilZero.string_of_int (Z.to_int z).

(** [int(x)] for a float: truncation toward zero. *)
Definition py_int (x : Q) : Z := Z.quot (Qnum x) (Z.pos (Qden x)).

(** [a > b] on numbers. *)
Definition Qgtb (a b : Q) : bool := negb (Qle_bool a b).
Definition Qltb (a b : Q) : bool := negb (Qle_bool b a).

(** [s[:n]] *)
Definition prefix (n : nat) (s : string) : string := String.substring 0 n s.

(** [bytes], represented by the outcome of [.decode('utf-8')]: the decoded
    text, or the message of the [UnicodeDecodeError]. *)
Inductive bytes :=
| Utf8 (s : string)
| NotUtf8 (err : string).

(** truthiness of a [bytes] object: non-empty *)
Definition bytes_truthy (b : bytes) : bool :=
  match b with
  | Utf8 EmptyString => false
  | _ => true
  end.

End Py.

Import Py.

(** ** The world: pools, engine, file system, clock *)

(** An engine container handle; [container.id]. *)
Definition Container := nat.

(** An entry of a pool's ["containers"] list. *)
Record PooledContainer := {
  pc_container : Container;
  pc_created_at : Q;
  pc_id : Container;
}.

(** A value of [container_pools]. *)
Record Bucket := {
  containers : list PooledContainer;
  last_accessed : Q;
}.

(** What [container.exec_run(..., demux=True)] returns. *)
Record ExecResult := {
  exit_code : Z;
  output : option (option bytes * option bytes);
}.

(** Calls issued to the engine and the threads started, oldest first. *)
Inductive Event :=
| EvRun (image name : string) (runtime : option string) (c : Container)
| EvCopy (c : Container) (src dst : string)
| EvExec (c : Container) (cmd : string)
| EvStop (c : Container)
| EvSpawn (language image : string).

Record World := {
  container_pools : gmap string Bucket;
  clock : list Q;                           (* next readings of time.time() *)
  uuids : list string;                      (* next values of str(uuid.uuid4()) *)
  from_env_script : list (option string);   (* docker.from_env(): None = a client, Some m = raises m *)
  run_script : list (option string);        (* containers.run: None = a fresh container, Some m = raises m *)
  exec_script : list (string + ExecResult); (* exec_run: a result, or raises *)
  stop_script : list (option string);       (* container.stop *)
  fs_script : list (option string);         (* open/write, os.remove *)
  next_container : Container;               (* the engine's next fresh handle *)
  log : list Event;
}.

Definition max_pool_size : nat := 5.
Definition pool_expiry_seconds : Q := 300.

Definition set_pools (p : gmap string Bucket) (w : World) : World :=
  {| container_pools := p; clock := clock w; uuids := uuids w;
     from_env_script := from_env_script w; run_script := run_script w;
     exec_script := exec_script w; stop_script := stop_script w;
     fs_script := fs_script w; next_container := next_container w;
     log := log w |}.

Definition set_clock (c : list Q) (w : World) : World :=
  {| container_pools := container_pools w; clock := c; uuids := uuids w;
     from_env_script := from_env_script w; run_script := run_script w;
     exec_script := exec_script w; stop_script := stop_script w;
     fs_script := fs_script w; next_container := next_container w;
     log := log w |}.

Definition set_uuids (u : list string) (w : World) : World :=
  {| container_pools := container_pools w; clock := clock w; uuids := u;
     from_env_script := from_env_script w; run_script := run_script w;
     exec_script := exec_script w; stop_script := stop_script w;
     fs_script := fs_script w; next_container := next_container w;
     log := log w |}.

Definition set_from_env_script (s : list (option string)) (w : World) : World :=
  {| container_pools := container_pools w; clock := clock w; uuids := uuids w;
     from_env_script := s; run_script := run_script w;
     exec_script := exec_script w; stop_script := stop_script w;
     fs_script := fs_script w; next_container := next_container w;
     log := log w |}.

Definition set_run_script (s : list (option string)) (w : World) : World :=
  {| container_pools := container_pools w; clock := clock w; uuids := uuids w;
     from_env_script := from_env_script w; run_script := s;
     exec_script := exec_script w; stop_script := stop_script w;
     fs_script := fs_script w; next_container := next_container w;
     log := log w |}.

Definition set_exec_script (s : list (string + ExecResult)) (w : World) : World :=
  {| container_pools := container_pools w; clock := clock w; uuids := uuids w;
     from_env_script := from_env_script w; run_script := run_script w;
     exec_script := s; stop_script := stop_script w;
     fs_script := fs_script w; next_container := next_container w;
     log := log w |}.

Definition set_stop_script (s : list (option string)) (w : World) : World :=
  {| container_pools := container_pools w; clock := clock w; uuids := uuids w;
     from_env_script := from_env_script w; run_script := run_script w;
     exec_script := exec_script w; stop_script := s;
     fs_script := fs_script w; next_container := next_container w;
     log := log w |}.

Definition set_fs_script (s : list (option string)) (w : World) : World :=
  {| container_pools := container_pools w; clock := clock w; uuids := uuids w;
     from_env_script := from_env_script w; run_script := run_script w;
     exec_script := exec_script w; stop_script := stop_script w;
     fs_script := s; next_container := next_container w;
     log := log w |}.

Definition add_event (e : Event) (w : World) : World :=
  {| container_pools := container_pools w; clock := clock w; uuids := uuids w;
     from_env_script := from_env_script w; run_script := run_script w;
     exec_script := exec_script w; stop_script := stop_script w;
     fs_script := fs_script w; next_container := next_container w;
     log := log w ++ [e] |}.

Definition fresh_container (w : World) : World :=
  {| container_pools := container_pools w; clock := clock w; uuids := uuids w;
     from_env_script := from_env_script w; run_script := run_script w;
     exec_script := exec_script w; stop_script := stop_script w;
     fs_script := fs_script w; next_container := S (next_container w);
     log := log w |}.

(** ** The monad of Python computations *)

Definition M (L A : Type) : Type := L -> World -> (string + A) * L * World.

Definition ret {L A} (a : A) : M L A := fun l w => (inr a, l, w).

Definition bind {L A B} (m : M L A) (k : A -> M L B) : M L B :=
  fun l w =>
    match m l w with
    | (inr a, l', w') => k a l' w'
    | (inl e, l', w') => (inl e, l', w')
    end.

Definition raise {L A} (e : string) : M L A := fun l w => (inl e, l, w).

(** [try: body  except Exception as e: handler(e)] *)
Definition try_except {L A} (body : M L A) (handler : string -> M L A) : M L A :=
  fun l w =>
    match body l w with
    | (inr a, l', w') => (inr a, l', w')
    | (inl e, l', w') => handler e l' w'
    end.

(** the locals of the running function *)
Definition get_locals {L} : M L L := fun l w => (inr l, l, w).
Definition set_locals {L} (f : L -> L) : M L unit := fun l w => (inr tt, f l, w).

(** a call: the callee runs on the same world with locals of its own *)
Definition call {L L' A} (callee : M L' A) (l0 : L') : M L A :=
  fun l w => let '(r, _, w') := callee l0 w in (r, l, w').

(** lifting of the pure fallible functions *)
Definition lift {L A} (r : string + A) : M L A := fun l w => (r, l, w).

Declare Scope py_scope.
Delimit Scope py_scope with py.
Notation "'do' x <~ m ;;; k" := (bind m (fun x => k))
  (at level 10, x name, m at level 99, k at level 200) : py_scope.
Notation "m ;;; k" := (bind m (fun _ => k))
  (at level 100, k at level 200, right associativity) : py_scope.
Local Open Scope py_scope.

(** *** Primitive calls *)

Definition gets {L A} (f : World -> A) : M L A := fun l w => (inr (f w), l, w).
Definition modify {L} (f : World -> World) : M L unit := fun l w => (inr tt, l, f w).

(** the answer of a scripted call that may raise: [None] (also when the
    script has run out) lets it return, [Some m] makes it raise [m] *)
Definition answer (script : list (option string)) : option string :=
  match script with
  | a :: _ => a
  | [] => None
  end.

(** [time.time()]: a script that has run out reads 0. *)
Definition time_time {L} : M L Q :=
  fun l w => (inr (hd 0%Q (clock w)), l, set_clock (tl (clock w)) w).

(** [str(uuid.uuid4())] *)
Definition uuid4 {L} : M L string :=
  fun l w => (inr (hd "" (uuids w)), l, set_uuids (tl (uuids w)) w).

(** [docker.from_env()] *)
Definition docker_from_env {L} : M L unit :=
  fun l w =>
    let w1 := set_from_env_script (tl (from_env_script w)) w in
    match answer (from_env_script w) with
    | Some e => (inl e, l, w1)
    | None => (inr tt, l, w1)
    end.

(** [client.containers.run(image, command="sleep infinity", detach=True,
    name=name, remove=True, working_dir="/app"[, runtime=...])]: the
    engine hands out a fresh container, or raises *)
Definition containers_run {L} (image name : string) (runtime : option string)
  : M L Container :=
  fun l w =>
    let w1 := set_run_script (tl (run_script w)) w in
    match answer (run_script w) with
    | Some e => (inl e, l, w1)
    | None =>
        let c := next_container w1 in
        (inr c, l, add_event (EvRun image name runtime c) (fresh_container w1))
    end.

(** [container.stop(timeout=1)]: the call is logged, then may raise. *)
Definition container_stop {L} (c : Container) : M L unit :=
  fun l w =>
    let w1 := set_stop_script (tl (stop_script w)) (add_event (EvStop c) w) in
    match answer (stop_script w) with
    | Some e => (inl e, l, w1)
    | None => (inr tt, l, w1)
    end.

(** [container.exec_run(cmd, ...)]; a script that has run out answers
    exit code 0 with no output. *)
Definition container_exec_run {L} (c : Container) (cmd : string) : M L ExecResult :=
  fun l w =>
    let w1 := set_exec_script (tl (exec_script w)) (add_event (EvExec c cmd) w) in
    match hd (inr {| exit_code := 0; output := None |}) (exec_script w) with
    | inl e => (inl e, l, w1)
    | inr r => (inr r, l, w1)
    end.

(** a file-system call that may raise: [open(...).write(...)], [os.remove] *)
Definition fs_call {L} : M L unit :=
  fun l w =>
    let w1 := set_fs_script (tl (fs_script w)) w in
    match answer (fs_script w) with
    | Some e => (inl e, l, w1)
    | None => (inr tt, l, w1)
    end.

(** [os.system("docker cp src c:dst")]: returns a status, never raises *)
Definition os_system_docker_cp {L} (src : string) (c : Container) (dst : string)
  : M L unit :=
  modify (add_event (EvCopy c src dst)).

(** [threading.Thread(target=add_container_to_pool, args=...).start()] *)
Definition thread_start {L} (language image : string) : M L unit :=
  modify (add_event (EvSpawn language image)).

(** [bytes.decode('utf-8')] *)
Definition decode {L} (b : bytes) : M L string :=
  match b with
  | Utf8 s => ret s
  | NotUtf8 e => raise e
  end.

(** ** runner.py: the warm pool *)

Module Pool.

(** [get_image_for_language] *)
Definition get_image_for_language (language : string) : string + string :=
  if String.eqb (lower language) "python" then inr "python:3.9-slim"
  else if String.eqb (lower language) "javascript" || String.eqb (lower language) "js"
       then inr "node:16-alpine"
  else inl ("Unsupported language: " ++ language).

Definition pool_key_of (language : string) : string := language ++ "_pool".

(** [container_pools[pool_key] = b] *)
Definition store_bucket {L} (pool_key : string) (b : Bucket) : M L unit :=
  modify (fun w => set_pools (<[pool_key := b]> (container_pools w)) w).

(** the [with pool_lock:] block of [add_container_to_pool] *)
Definition add_container_locked {L} (pool_key : string) (container : Container)
  : M L unit :=
  do pools <~ gets container_pools ;;;
  match pools !! pool_key with
  | Some b =>
      if (length (containers b) <? max_pool_size)%nat then
        do t1 <~ time_time ;;;
        do t2 <~ time_time ;;;
        store_bucket pool_key
          {| containers := containers b ++
               [{| pc_container := container; pc_created_at := t1; pc_id := container |}];
             last_accessed := t2 |}
      else
        container_stop container
  | None => ret tt
  end.

(** [add_container_to_pool]; its locals are not observed afterwards *)
Definition add_container_to_pool (language image : string) : M unit unit :=
  let pool_key := pool_key_of language in
  docker_from_env ;;;
  try_except
    (do u <~ uuid4 ;;;
     let container_name := "function-" ++ language ++ "-" ++ prefix 8 u in
     do container <~ containers_run image container_name None ;;;
     add_container_locked pool_key container)
    (fun e => ret tt).

(** the [with pool_lock:] block of [initialize_container_pool] *)
Definition initialize_locked {L} (pool_key : string) : M L unit :=
  do pools <~ gets container_pools ;;;
  match pools !! pool_key with
  | None =>
      do t <~ time_time ;;;
      store_bucket pool_key {| containers := []; last_accessed := t |}
  | Some _ => ret tt
  end.

(** [initialize_container_pool] *)
Definition initialize_container_pool (language : string) : M unit unit :=
  do image <~ lift (get_image_for_language language) ;;;
  let pool_key := pool_key_of language in
  initialize_locked pool_key ;;;
  call (add_container_to_pool language image) tt ;;;
  call (add_container_to_pool language image) tt.

(** [get_container_from_pool]: the whole body holds the lock *)
Definition get_container_from_pool (language : string) : M unit (option Container) :=
  let pool_key := pool_key_of language in
  do pools <~ gets container_pools ;;;
  match pools !! pool_key with
  | None => ret None
  | Some b =>
      match containers b with
      | [] => ret None
      | container_data :: rest =>
          do t <~ time_time ;;;
          store_bucket pool_key {| containers := rest; last_accessed := t |} ;;;
          do image <~ lift (get_image_for_language language) ;;;
          thread_start language image ;;;
          ret (Some (pc_container container_data))
      end
  end.

(** the inner loop of [clean_expired_pools]: stop every container of a
    pool, swallowing the engine's errors *)
Fixpoint stop_all {L} (cs : list PooledContainer) : M L unit :=
  match cs with
  | [] => ret tt
  | cd :: cs' =>
      try_except (container_stop (pc_container cd)) (fun e => ret tt) ;;;
      stop_all cs'
  end.

(** the first loop of [clean_expired_pools], over [container_pools.items()] *)
Fixpoint expired_pools {L} (current_time : Q) (items : list (string * Bucket))
  : M L (list string) :=
  match items with
  | [] => ret []
  | (pool_key, pool_data) :: items' =>
      if Qgtb (current_time - last_accessed pool_data) pool_expiry_seconds then
        stop_all (containers pool_data) ;;;
        do to_remove <~ expired_pools current_time items' ;;;
        ret (pool_key :: to_remove)
      else expired_pools current_time items'
  end.

(** [for pool_key in to_remove: del container_pools[pool_key]] *)
Definition delete_pools (to_remove : list string) (pools : gmap string Bucket)
  : gmap string Bucket :=
  foldr (fun k p => delete k p) pools to_remove.

(** the [with pool_lock:] block of [clean_expired_pools] *)
Definition clean_locked {L} (current_time : Q) : M L unit :=
  do pools <~ gets container_pools ;;;
  do to_remove <~ expired_pools current_time (map_to_list pools) ;;;
  modify (fun w => set_pools (delete_pools to_remove (container_pools w)) w).

(** [clean_expired_pools] *)
Definition clean_expired_pools : M unit unit :=
  do current_time <~ time_time ;;;
  clean_locked current_time.

End Pool.

(** ** The result of an execution, shared by both runners *)

Module Exec.

(** The dict a runner returns; [metrics] is the metrics dict. *)
Record Result := {
  status : string;
  stdout : string;
  stderr : string;
  r_exit_code : Z;
  metrics : gmap string pyval;
}.

Definition with_metrics (m : gmap string pyval) (r : Result) : Result :=
  {| status := status r; stdout := stdout r; stderr := stderr r;
     r_exit_code := r_exit_code r; metrics := m |}.

(** The mutable locals of a runner that its [except] block reads. *)
Record Frame := {
  f_container : option Container;
  f_metrics : gmap string pyval;
}.

Definition empty_frame : Frame := {| f_container := None; f_metrics := ∅ |}.

End Exec.

Import Exec.

(** [container = c] *)
Definition assign_container (c : option Container) : M Frame unit :=
  set_locals (fun fr => {| f_container := c; f_metrics := f_metrics fr |}).

(** [metrics[k] = v] *)
Definition assign_metric (k : string) (v : pyval) : M Frame unit :=
  set_locals (fun fr => {| f_container := f_container fr;
                           f_metrics := <[k := v]> (f_metrics fr) |}).

(** [int((t1 - t0) * 1000)] *)
Definition elapsed_ms (t0 t1 : Q) : Z := py_int ((t1 - t0) * 1000).

(** [b.decode('utf-8') if b else ""] *)
Definition decode_or_empty {L} (b : option bytes) : M L string :=
  match b with
  | Some b => if bytes_truthy b then decode b else ret ""
  | None => ret ""
  end.

(** [stdout, stderr = exec_result.output] when the output is truthy,
    else [b"", b""] *)
Definition demux (r : ExecResult) : option bytes * option bytes :=
  match output r with
  | Some (o, e) => (o, e)
  | None => (Some (Utf8 ""), Some (Utf8 ""))
  end.

(** Reading a name that no branch has bound. *)
Definition unbound_exec_cmd : string :=
  "local variable 'exec_cmd' referenced before assignment".

(** A computation started on fresh locals: its outcome and the world it leaves. *)
Definition run {L A} (m : M L A) (l0 : L) (w : World) : (string + A) * World :=
  let '(r, _, w') := m l0 w in (r, w').

(** ** runner.py: [run_in_docker] *)

Module Runner.
Import Pool.

Definition initial_metrics (start_time : Q) (language : string) (warm : bool)
  : gmap string pyval :=
  list_to_map
    [("start_time", PyFloat start_time);
     ("runtime", PyStr "docker");
     ("language", PyStr language);
     ("execution_time_ms", PyInt 0);
     ("initialization_time_ms", PyInt 0);
     ("total_time_ms", PyInt 0);
     ("warm_start", PyBool warm);
     ("error", PyNone)].

(** the [client.containers.run(...)] of lines 163-172 and 175-184 *)
Definition create_container (language : string) : M Frame Container :=
  do image <~ lift (get_image_for_language language) ;;;
  do u <~ uuid4 ;;;
  let container_name := "function-" ++ language ++ "-" ++ prefix 8 u in
  do c <~ containers_run image container_name None ;;;
  assign_container (Some c) ;;;
  ret c.

(** the condition of line 267 *)
Definition keeps_container (warm : bool) (execution_time : Q) (timeout exit_code : Z)
  : bool :=
  (warm && negb warm) || (warm && Qltb execution_time (inject_Z timeout) && (exit_code =? 0)%Z).

(** lines 154-184: the container of the execution, from the pool or created *)
Definition acquire_container (language : string) (warm : bool) : M Frame Container :=
  if warm then
    do pooled <~ call (get_container_from_pool language) tt ;;;
    assign_container pooled ;;;
    match pooled with
    | Some c => ret c
    | None =>
        call (initialize_container_pool language) tt ;;;
        create_container language
    end
  else create_container language.

(** lines 190-218: the code is written to a local file, copied into the
    container and the local file removed; returns [execution_id] and
    [exec_cmd] *)
Definition stage_code (code language : string) (container : Container)
  : M Frame (string * string) :=
  do execution_id <~ uuid4 ;;;
  if String.eqb (lower language) "python" then
    let filename := "/tmp/function_" ++ execution_id ++ ".py" in
    fs_call ;;;
    os_system_docker_cp filename container ("/app/function_" ++ execution_id ++ ".py") ;;;
    fs_call ;;;
    ret (execution_id, "python /app/function_" ++ execution_id ++ ".py")
  else if String.eqb (lower language) "javascript" || String.eqb (lower language) "js" then
    let filename := "/tmp/function_" ++ execution_id ++ ".js" in
    fs_call ;;;
    os_system_docker_cp filename container ("/app/function_" ++ execution_id ++ ".js") ;;;
    fs_call ;;;
    ret (execution_id, "node /app/function_" ++ execution_id ++ ".js")
  else raise unbound_exec_cmd.

(** lines 243-260: the status of the execution *)
Definition classify (stdout stderr : string) (exit_code : Z) (execution_time : Q)
    (timeout : Z) : M Frame Result :=
  if Qgtb execution_time (inject_Z timeout) then
    assign_metric "error" (PyStr "timeout") ;;;
    ret {| status := "timeout"; stdout := stdout;
           stderr := "Function execution timed out after " ++ str_of_Z timeout ++ " seconds";
           r_exit_code := -1; metrics := ∅ |}
  else
    (if (exit_code =? 0)%Z then ret tt
     else assign_metric "error" (PyStr ("exit_code_" ++ str_of_Z exit_code))) ;;;
    ret {| status := if (exit_code =? 0)%Z then "success" else "error";
           stdout := stdout; stderr := stderr;
           r_exit_code := exit_code; metrics := ∅ |}.

Definition rm_cmd (execution_id : string) : string :=
  "rm -f /app/function_" ++ execution_id ++ ".*".

(** lines 266-276: what becomes of the container *)
Definition release_container (container : Container) (execution_id : string)
    (warm : bool) (execution_time : Q) (timeout exit_code : Z) : M Frame unit :=
  if keeps_container warm execution_time timeout exit_code then
    do _ <~ container_exec_run container (rm_cmd execution_id) ;;;
    ret tt
  else container_stop container.

(** lines 220-280: the execution proper, from [exec_start_time] to [return] *)
Definition execute_and_release (container : Container) (execution_id exec_cmd : string)
    (timeout : Z) (warm : bool) (start_time : Q) : M Frame Result :=
  do exec_start_time <~ time_time ;;;
  do exec_result <~ container_exec_run container exec_cmd ;;;
  let exit_code := exit_code exec_result in
  do stdout <~ decode_or_empty (fst (demux exec_result)) ;;;
  do stderr <~ decode_or_empty (snd (demux exec_result)) ;;;
  do exec_end_time <~ time_time ;;;
  let execution_time := (exec_end_time - exec_start_time)%Q in
  assign_metric "execution_time_ms" (PyInt (py_int (execution_time * 1000))) ;;;
  do result <~ classify stdout stderr exit_code execution_time timeout ;;;
  do end_time <~ time_time ;;;
  assign_metric "total_time_ms" (PyInt (elapsed_ms start_time end_time)) ;;;
  release_container container execution_id warm execution_time timeout exit_code ;;;
  do fr <~ get_locals ;;;
  ret (with_metrics (f_metrics fr) result).

(** the body of the [try] *)
Definition run_in_docker_try (code language : string) (timeout : Z) (warm : bool)
    (start_time : Q) : M Frame Result :=
  do container <~ acquire_container language warm ;;;
  do init_end_time <~ time_time ;;;
  assign_metric "initialization_time_ms" (PyInt (elapsed_ms start_time init_end_time)) ;;;
  do staged <~ stage_code code language container ;;;
  execute_and_release container (fst staged) (snd staged) timeout warm start_time.

(** the [except Exception as e] block *)
Definition run_in_docker_except (warm : bool) (start_time : Q) (e : string)
  : M Frame Result :=
  do fr <~ get_locals ;;;
  match f_container fr with
  | Some c => if negb warm then try_except (container_stop c) (fun _ => ret tt) else ret tt
  | None => ret tt
  end ;;;
  do end_time <~ time_time ;;;
  assign_metric "total_time_ms" (PyInt (elapsed_ms start_time end_time)) ;;;
  assign_metric "error" (PyStr e) ;;;
  do fr <~ get_locals ;;;
  ret {| status := "error"; stdout := "";
         stderr := "Error executing function: " ++ e;
         r_exit_code := -1; metrics := f_metrics fr |}.

(** [run_in_docker(code, language, timeout, warm)] *)
Definition run_in_docker (code language : string) (timeout : Z) (warm : bool)
  : M Frame Result :=
  do start_time <~ time_time ;;;
  docker_from_env ;;;
  assign_container None ;;;
  set_locals (fun fr => {| f_container := f_container fr;
                           f_metrics := initial_metrics start_time language warm |}) ;;;
  try_except (run_in_docker_try code language timeout warm start_time)
             (run_in_docker_except warm start_time).

End Runner.

(** ** gvisor_runner.py: [run_in_gvisor] *)

Module Gvisor.

(** the module's own copy of [get_image_for_language] *)
Definition get_image_for_language (language : string) : string + string :=
  if String.eqb (lower language) "python" then inr "python:3.9-slim"
  else if String.eqb (lower language) "javascript" || String.eqb (lower language) "js"
       then inr "node:16-alpine"
  else inl ("Unsupported language: " ++ language).

Definition initial_metrics (start_time : Q) (language : string) : gmap string pyval :=
  list_to_map
    [("start_time", PyFloat start_time);
     ("runtime", PyStr "gvisor");
     ("language", PyStr language);
     ("execution_time_ms", PyInt 0);
     ("initialization_time_ms", PyInt 0);
     ("total_time_ms", PyInt 0);
     ("error", PyNone)].

(** lines 43-56: the container of the execution, always created *)
Definition create_container (language : string) : M Frame Container :=
  do image <~ lift (get_image_for_language language) ;;;
  do u <~ uuid4 ;;;
  let container_name := "gvisor-function-" ++ prefix 8 u in
  do c <~ containers_run image container_name (Some "runsc") ;;;
  assign_container (Some c) ;;;
  ret c.

(** lines 62-96: staging; returns [exec_cmd] *)
Definition stage_code (code language : string) (container : Container)
  : M Frame string :=
  do execution_id <~ uuid4 ;;;
  if String.eqb (lower language) "python" then
    let filename := "function_" ++ execution_id ++ ".py" in
    fs_call ;;;
    os_system_docker_cp ("/tmp/" ++ filename) container "/app/" ;;;
    fs_call ;;;
    ret ("python /app/" ++ filename)
  else if String.eqb (lower language) "javascript" || String.eqb (lower language) "js" then
    let filename := "function_" ++ execution_id ++ ".js" in
    fs_call ;;;
    os_system_docker_cp ("/tmp/" ++ filename) container "/app/" ;;;
    fs_call ;;;
    ret ("node /app/" ++ filename)
  else raise unbound_exec_cmd.

(** lines 121-138: the status of the execution *)
Definition classify (stdout stderr : string) (exit_code : Z) (execution_time : Q)
    (timeout : Z) : M Frame Result :=
  if Qgtb execution_time (inject_Z timeout) then
    assign_metric "error" (PyStr "timeout") ;;;
    ret {| status := "timeout"; stdout := stdout;
           stderr := "Function execution timed out after " ++ str_of_Z timeout ++ " seconds";
           r_exit_code := -1; metrics := ∅ |}
  else
    (if (exit_code =? 0)%Z then ret tt
     else assign_metric "error" (PyStr ("exit_code_" ++ str_of_Z exit_code))) ;;;
    ret {| status := if (exit_code =? 0)%Z then "success" else "error";
           stdout := stdout; stderr := stderr;
           r_exit_code := exit_code; metrics := ∅ |}.

(** lines 98-149: the execution proper, from [exec_start_time] to [return] *)
Definition execute_and_stop (container : Container) (exec_cmd : string)
    (timeout : Z) (start_time : Q) : M Frame Result :=
  do exec_start_time <~ time_time ;;;
  do exec_result <~ container_exec_run container exec_cmd ;;;
  let exit_code := exit_code exec_result in
  do stdout <~ decode_or_empty (fst (demux exec_result)) ;;;
  do stderr <~ decode_or_empty (snd (demux exec_result)) ;;;
  do exec_end_time <~ time_time ;;;
  let execution_time := (exec_end_time - exec_start_time)%Q in
  assign_metric "execution_time_ms" (PyInt (py_int (execution_time * 1000))) ;;;
  do result <~ classify stdout stderr exit_code execution_time timeout ;;;
  do end_time <~ time_time ;;;
  assign_metric "total_time_ms" (PyInt (elapsed_ms start_time end_time)) ;;;
  container_stop container ;;;
  do fr <~ get_locals ;;;
  ret (with_metrics (f_metrics fr) result).

(** the body of the [try] *)
Definition run_in_gvisor_try (code language : string) (timeout : Z) (start_time : Q)
  : M Frame Result :=
  do container <~ create_container language ;;;
  do init_end_time <~ time_time ;;;
  assign_metric "initialization_time_ms" (PyInt (elapsed_ms start_time init_end_time)) ;;;
  do exec_cmd <~ stage_code code language container ;;;
  execute_and_stop container exec_cmd timeout start_time.

Definition run_in_gvisor_except (start_time : Q) (e : string) : M Frame Result :=
  do end_time <~ time_time ;;;
  assign_metric "total_time_ms" (PyInt (elapsed_ms start_time end_time)) ;;;
  assign_metric "error" (PyStr e) ;;;
  do fr <~ get_locals ;;;
  ret {| status := "error"; stdout := "";
         stderr := "Error executing function: " ++ e;
         r_exit_code := -1; metrics := f_metrics fr |}.

(** [run_in_gvisor(code, language, timeout)] *)
Definition run_in_gvisor (code language : string) (timeout : Z) : M Frame Result :=
  do start_time <~ time_time ;;;
  docker_from_env ;;;
  set_locals (fun fr => {| f_container := f_container fr;
                           f_metrics := initial_metrics start_time language |}) ;;;
  try_except (run_in_gvisor_try code language timeout start_time)
             (run_in_gvisor_except start_time).

End Gvisor.

(** ** backend/metrics.py: the metrics store *)

Module Metrics.

(** A row of [execution_metrics]. Every column but the key is nullable;
    [timestamp] is in seconds. *)
Record ExecutionMetric := {
  id : nat;
  function_name : string;
  runtime : option string;
  language : option string;
  cold_start : bool;
  timestamp : Z;
  initialization_time_ms : option Z;
  execution_time_ms : option Z;
  total_time_ms : option Z;
  status : string;
  error_message : option string;
}.

(** [d.get(k, default)] *)
Definition dict_get (d : gmap string pyval) (k : string) (default : pyval) : pyval :=
  match d !! k with
  | Some v => v
  | None => default
  end.

(** What the typed columns keep of a Python value. The runners only put
    ints, strings, booleans and [None] in the metrics dict. *)
Definition to_integer (v : pyval) : option Z :=
  match v with
  | PyInt z => Some z
  | PyBool b => Some (Z.b2z b)
  | PyFloat q => Some (py_int q)
  | PyNone | PyStr _ => None
  end.

Definition to_string (v : pyval) : option string :=
  match v with
  | PyStr s => Some s
  | _ => None
  end.

Definition to_boolean (v : pyval) : bool :=
  match v with
  | PyBool b => b
  | PyInt z => negb (z =? 0)%Z
  | PyFloat q => negb (Qeq_bool q 0)
  | PyStr s => negb (String.eqb s "")
  | PyNone => false
  end.

(** [save_execution_metrics(db, function_name, result)]: the row is appended
    with the next key and the time of the insert. A [Result] always has its
    ['metrics'] and ['status'] keys. *)
Definition save_execution_metrics (db : list ExecutionMetric) (now : Z)
    (function_name : string) (result : Result) : list ExecutionMetric :=
  let metrics := Exec.metrics result in
  db ++ [{| id := S (length db);
            function_name := function_name;
            runtime := to_string (dict_get metrics "runtime" (PyStr "docker"));
            language := to_string (dict_get metrics "language" (PyStr "unknown"));
            cold_start := to_boolean (dict_get metrics "cold_start" (PyBool true));
            timestamp := now;
            initialization_time_ms := to_integer (dict_get metrics "initialization_time_ms" (PyInt 0));
            execution_time_ms := to_integer (dict_get metrics "execution_time_ms" (PyInt 0));
            total_time_ms := to_integer (dict_get metrics "total_time_ms" (PyInt 0));
            status := Exec.status result;
            error_message := to_string (dict_get metrics "error" PyNone) |}].

(** The aggregation object. The keys of [extras] are missing from the
    zero-filled record; [None] inside is JSON [null]. *)
Record Extras := {
  p95_execution_time_ms : option Z;
  p99_execution_time_ms : option Z;
  stdev_execution_time_ms : option Q;   (* its square: the sample variance *)
  runtime_breakdown_docker : nat;
  runtime_breakdown_gvisor : nat;
}.

Record Aggregate := {
  count : nat;
  avg_execution_time_ms : Q;
  avg_total_time_ms : Q;
  success_rate : PrimFloat.float;
  error_rate : PrimFloat.float;
  timeout_rate : PrimFloat.float;
  cold_start_percentage : PrimFloat.float;
  extras : option Extras;
}.

(** [sum(1 for m in ms if p(m))] *)
Definition count_if {A} (p : A -> bool) (ms : list A) : nat := length (filter (fun m => p m = true) ms).

Definition Zsum (l : list Z) : Z := foldr Z.add 0%Z l.

(** [statistics.mean]: exact; raises on no data *)
Definition mean (l : list Z) : string + Q :=
  match l with
  | [] => inl "mean requires at least one data point"
  | _ => inr (inject_Z (Zsum l) / inject_Z (Z.of_nat (length l)))%Q
  end.

(** [statistics.mean(l) if l else 0] *)
Definition mean_or_zero (l : list Z) : Q :=
  match mean l with
  | inr m => m
  | inl _ => 0%Q
  end.

(** the square of [statistics.stdev]: the sample variance *)
Definition variance (l : list Z) : Q :=
  let m := mean_or_zero l in
  (foldr Qplus 0 (map (fun x => (inject_Z x - m) * (inject_Z x - m)) l)
   / inject_Z (Z.of_nat (length l) - 1))%Q.

(** [sorted] on ints *)
Fixpoint insert_sorted (x : Z) (l : list Z) : list Z :=
  match l with
  | [] => [x]
  | y :: l' => if (x <=? y)%Z then x :: l else y :: insert_sorted x l'
  end.

Definition sorted (l : list Z) : list Z := foldr insert_sorted [] l.

(** [int(n * q)] for [q] = [pct]/100 *)
Definition percentile_index (n : nat) (pct : Z) : nat :=
  Z.to_nat (py_int (inject_Z (Z.of_nat n) * (pct # 100))).

(** [l[i]] *)
Definition index (l : list Z) (i : nat) : string + Z :=
  match l !! i with
  | Some x => inr x
  | None => inl "list index out of range"
  end.

(** [float(n)] of a count: a binary64 float, exact below 2^53 *)
Definition float_of_nat (n : nat) : PrimFloat.float :=
  PrimFloat.of_uint63 (Uint63.of_Z (Z.of_nat n)).

(** [a / b if b > 0 else 0] on counts: the true division of two ints is a
    binary64 float, the quotient rounded to nearest *)
Definition rate (a b : nat) : PrimFloat.float :=
  if (0 <? b)%nat then PrimFloat.div (float_of_nat a) (float_of_nat b)
  else PrimFloat.zero.

(** the rows kept by the filters of the query; [now] is the time of the
    query, in seconds *)
Definition window_seconds (time_range : string) : option Z :=
  if String.eqb time_range "1h" then Some 3600%Z
  else if String.eqb time_range "24h" then Some 86400%Z
  else if String.eqb time_range "7d" then Some 604800%Z
  else if String.eqb time_range "30d" then Some 2592000%Z
  else None.

Definition query (db : list ExecutionMetric) (now : Z) (function_name : option string)
    (time_range : string) : list ExecutionMetric :=
  let by_name :=
    match function_name with
    | Some (String c n) => filter (fun m => Metrics.function_name m = String c n) db
    | _ => db
    end in
  match window_seconds time_range with
  | Some s => filter (fun m => (now - s <= timestamp m)%Z) by_name
  | None => by_name
  end.

Definition zero_record : Aggregate :=
  {| count := 0; avg_execution_time_ms := 0; avg_total_time_ms := 0;
     success_rate := PrimFloat.zero; error_rate := PrimFloat.zero;
     timeout_rate := PrimFloat.zero; cold_start_percentage := PrimFloat.zero;
     extras := None |}.

(** the aggregation of the rows the query returned *)
Definition aggregate_rows (metrics : list ExecutionMetric) : string + Aggregate :=
  match metrics with
  | [] => inr zero_record
  | _ =>
    let total_count := length metrics in
    let success_count := count_if (fun m => String.eqb (status m) "success") metrics in
    let error_count := count_if (fun m => String.eqb (status m) "error") metrics in
    let timeout_count := count_if (fun m => String.eqb (status m) "timeout") metrics in
    let cold_start_count := count_if cold_start metrics in
    let execution_times := omap execution_time_ms metrics in
    let total_times := omap total_time_ms metrics in
    let avg_execution_time := mean_or_zero execution_times in
    let avg_total_time := mean_or_zero total_times in
    let enough := (2 <=? length execution_times)%nat in
    (* the percentiles and the deviation, when there is enough data *)
    let percentiles : string + option (Z * Z) :=
      if enough then
        match index (sorted execution_times) (percentile_index (length execution_times) 95) with
        | inl e => inl e
        | inr p95 =>
            match index (sorted execution_times) (percentile_index (length execution_times) 99) with
            | inl e => inl e
            | inr p99 => inr (Some (p95, p99))
            end
        end
      else inr None in
    match percentiles with
    | inl e => inl e
    | inr ps =>
      inr {| count := total_count;
             avg_execution_time_ms := avg_execution_time;
             avg_total_time_ms := avg_total_time;
             success_rate := rate success_count total_count;
             error_rate := rate error_count total_count;
             timeout_rate := rate timeout_count total_count;
             cold_start_percentage := rate cold_start_count total_count;
             extras := Some
               {| p95_execution_time_ms := fst <$> ps;
                  p99_execution_time_ms := snd <$> ps;
                  stdev_execution_time_ms :=
                    if enough then Some (variance execution_times) else None;
                  runtime_breakdown_docker :=
                    count_if (fun m => bool_decide (runtime m = Some "docker")) metrics;
                  runtime_breakdown_gvisor :=
                    count_if (fun m => bool_decide (runtime m = Some "gvisor")) metrics |} |}
    end
  end.

(** [get_aggregated_metrics(db, function_name, time_range)] *)
Definition get_aggregated_metrics (db : list ExecutionMetric) (now : Z)
    (function_name : option string) (time_range : string) : string + Aggregate :=
  aggregate_rows (query db now function_name time_range).

End Metrics.

(** ** backend/main.py: execute and compare *)

Module Main.

(** A row of [functions]. *)
Record Function := {
  name : string;
  language : string;
  code : string;
  timeout : Z;
}.

(** The database session handed to the request handlers: their frame. *)
Record Db := {
  functions : list Function;
  execution_metrics : list Metrics.ExecutionMetric;
}.

(** [FunctionExecuteParams] *)
Record FunctionExecuteParams := {
  runtime : string;
  warm_start : bool;
}.

Definition default_params : FunctionExecuteParams :=
  {| runtime := "docker"; warm_start := true |}.

(** [datetime.utcnow()], on the scripted clock, in whole seconds *)
Definition utcnow {L} : M L Z :=
  do t <~ time_time ;;;
  ret (Qfloor t).

(** [db.query(Function).filter(Function.name == name).first()] *)
Definition query_function (name : string) : M Db (option Function) :=
  do db <~ get_locals ;;;
  ret (head (filter (fun f => Main.name f = name) (functions db))).

Definition not_found : string := "404: Function not found".

(** [save_execution_metrics(db, name, result)] on the session *)
Definition save_execution_metrics (name : string) (result : Result) : M Db unit :=
  do now <~ utcnow ;;;
  set_locals (fun db =>
    {| functions := functions db;
       execution_metrics :=
         Metrics.save_execution_metrics (execution_metrics db) now name result |}).

(** the response of [POST /functions/execute/{name}] *)
Record ExecuteResponse := {
  resp_function_name : string;
  resp_language : string;
  resp_runtime : string;
  resp_result : Result;
}.

(** [execute_function(name, params, db)] *)
Definition execute_function (name : string) (params : option FunctionExecuteParams)
  : M Db ExecuteResponse :=
  let params := match params with Some p => p | None => default_params end in
  do func <~ query_function name ;;;
  match func with
  | None => raise not_found
  | Some func =>
      try_except
        (do result <~
           (if String.eqb (runtime params) "gvisor"
            then call (Gvisor.run_in_gvisor (code func) (language func) (timeout func))
                      empty_frame
            else call (Runner.run_in_docker (code func) (language func) (timeout func)
                         (warm_start params)) empty_frame) ;;;
         save_execution_metrics name result ;;;
         ret {| resp_function_name := name; resp_language := language func;
                resp_runtime := runtime params; resp_result := result |})
        (fun e => raise ("500: Execution error: " ++ e))
  end.

(** the per-runtime block of the comparison *)
Record Stats := {
  avg_init_time_ms : Q;
  avg_exec_time_ms : Q;
  avg_total_time_ms : Q;
  min_total_time_ms : Z;
  max_total_time_ms : Z;
  success_rate : Q;
}.

Record Difference := {
  init_time : Q;
  exec_time : Q;
  total_time : Q;
}.

Record Comparison := {
  iterations : nat;
  docker : Stats;
  gvisor : Stats;
  difference_percent : Difference;
  recommendation : string;
}.

(** [str(e)] of the [ZeroDivisionError] of a true division by zero *)
Definition zero_division : string := "division by zero".

(** [a / b] *)
Definition py_div (a b : Q) : string + Q :=
  if Qeq_bool b 0 then inl zero_division else inr (a / b)%Q.

(** [r['metrics'][k]], a number *)
Definition metric_of (k : string) (r : Result) : string + Z :=
  match Exec.metrics r !! k with
  | Some v =>
      match Metrics.to_integer v with
      | Some z => inr z
      | None => inl ("unsupported operand: " ++ k)
      end
  | None => inl k   (* KeyError *)
  end.

Fixpoint collect {A B} (f : A -> string + B) (l : list A) : string + list B :=
  match l with
  | [] => inr []
  | x :: l' =>
      match f x with
      | inl e => inl e
      | inr y =>
          match collect f l' with
          | inl e => inl e
          | inr ys => inr (y :: ys)
          end
      end
  end.

(** [min(l)], [max(l)]; they raise on an empty list *)
Definition py_min (l : list Z) : string + Z :=
  match l with
  | [] => inl "min() arg is an empty sequence"
  | x :: l' => inr (foldr Z.min x l')
  end.

Definition py_max (l : list Z) : string + Z :=
  match l with
  | [] => inl "max() arg is an empty sequence"
  | x :: l' => inr (foldr Z.max x l')
  end.

(** sequencing of the pure fallible steps *)
Definition and_then {A B} (r : string + A) (k : A -> string + B) : string + B :=
  match r with
  | inl e => inl e
  | inr a => k a
  end.

(** [docker_stats] / [gvisor_stats] *)
Definition stats_of (results : list Result) (iterations : nat) : string + Stats :=
  and_then (collect (metric_of "initialization_time_ms") results) (fun init_times =>
  and_then (collect (metric_of "execution_time_ms") results) (fun exec_times =>
  and_then (collect (metric_of "total_time_ms") results) (fun total_times =>
  and_then (Metrics.mean init_times) (fun avg_init =>
  and_then (Metrics.mean exec_times) (fun avg_exec =>
  and_then (Metrics.mean total_times) (fun avg_total =>
  and_then (py_min total_times) (fun min_total =>
  and_then (py_max total_times) (fun max_total =>
  and_then (py_div (inject_Z (Z.of_nat
              (Metrics.count_if (fun r => String.eqb (status r) "success") results)))
              (inject_Z (Z.of_nat iterations))) (fun rate =>
  inr {| avg_init_time_ms := avg_init; avg_exec_time_ms := avg_exec;
         avg_total_time_ms := avg_total; min_total_time_ms := min_total;
         max_total_time_ms := max_total; success_rate := rate |}))))))))).

(** [(g - d) / d * 100] *)
Definition percent_difference (g d : Q) : string + Q :=
  and_then (py_div (g - d) d) (fun x => inr (x * 100)%Q).

(** lines 188-229: the statistics and the comparison *)
Definition comparison_of (docker_results gvisor_results : list Result) (iterations : nat)
  : string + Comparison :=
  and_then (stats_of docker_results iterations) (fun docker_stats =>
  and_then (stats_of gvisor_results iterations) (fun gvisor_stats =>
  and_then (percent_difference (avg_init_time_ms gvisor_stats) (avg_init_time_ms docker_stats))
    (fun d_init =>
  and_then (percent_difference (avg_exec_time_ms gvisor_stats) (avg_exec_time_ms docker_stats))
    (fun d_exec =>
  and_then (percent_difference (avg_total_time_ms gvisor_stats) (avg_total_time_ms docker_stats))
    (fun d_total =>
  inr {| iterations := iterations;
         docker := docker_stats;
         gvisor := gvisor_stats;
         difference_percent :=
           {| init_time := d_init; exec_time := d_exec; total_time := d_total |};
         recommendation :=
           if Qltb (avg_total_time_ms docker_stats) (avg_total_time_ms gvisor_stats)
           then "docker" else "gvisor" |}))))).

(** [for i in range(iterations)] over the default runtime *)
Fixpoint docker_loop (func : Function) (function_name : string) (indices : list nat)
  : M Db (list Result) :=
  match indices with
  | [] => ret []
  | i :: indices' =>
      do result <~ call (Runner.run_in_docker (code func) (language func) (timeout func)
                           (0 <? i)%nat) empty_frame ;;;
      save_execution_metrics function_name result ;;;
      do rest <~ docker_loop func function_name indices' ;;;
      ret (result :: rest)
  end.

(** [for i in range(iterations)] over the hardened runtime *)
Fixpoint gvisor_loop (func : Function) (function_name : string) (indices : list nat)
  : M Db (list Result) :=
  match indices with
  | [] => ret []
  | i :: indices' =>
      do result <~ call (Gvisor.run_in_gvisor (code func) (language func) (timeout func))
                        empty_frame ;;;
      save_execution_metrics function_name result ;;;
      do rest <~ gvisor_loop func function_name indices' ;;;
      ret (result :: rest)
  end.

(** [compare_runtimes(function_name, iterations, db)] *)
Definition compare_runtimes (function_name : string) (iterations : nat)
  : M Db Comparison :=
  do func <~ query_function function_name ;;;
  match func with
  | None => raise not_found
  | Some func =>
      do docker_results <~ docker_loop func function_name (seq 0 iterations) ;;;
      do gvisor_results <~ gvisor_loop func function_name (seq 0 iterations) ;;;
      lift (comparison_of docker_results gvisor_results iterations)
  end.

End Main.

(** * The properties stated of the platform *)

(** ** The metrics store *)

Module MetricsProps.
Import Metrics.

(** the timing columns of the row are not NULL *)
Definition timed (m : ExecutionMetric) : Prop :=
  is_Some (execution_time_ms m) ∧ is_Some (total_time_ms m).

(** the status column holds one of the three classifications *)
Definition classified (m : ExecutionMetric) : Prop :=
  status m = "success" ∨ status m = "error" ∨ status m = "timeout".

(** The tables the platform can hold: rows are only ever appended by
    [save_execution_metrics], from the result of one of the two runners
    (main.py, lines 105-112 and 177-186). *)
Inductive recorded : list ExecutionMetric -> Prop :=
| recorded_empty : recorded []
| recorded_docker db now name code language timeout warm fr w r fr' w' :
    recorded db ->
    Runner.run_in_docker code language timeout warm fr w = (inr r, fr', w') ->
    recorded (save_execution_metrics db now name r)
| recorded_gvisor db now name code language timeout fr w r fr' w' :
    recorded db ->
    Gvisor.run_in_gvisor code language timeout fr w = (inr r, fr', w') ->
    recorded (save_execution_metrics db now name r).

(** [floor(n * pct / 100)] *)
Definition floor_index (n : nat) (pct : Z) : nat := Z.to_nat (Z.of_nat n * pct / 100).

Definition row (ms total : Z) (st : string) (ts : Z) : ExecutionMetric :=
  {| id := 1; function_name := "f"; runtime := Some "docker"; language := Some "python";
     cold_start := true; timestamp := ts; initialization_time_ms := Some 5%Z;
     execution_time_ms := Some ms; total_time_ms := Some total; status := st;
     error_message := None |}.








End MetricsProps.

(** ** The warm pool *)

Module PoolProps.
Import Pool.

(** every bucket holds at most [max_pool_size] idle containers *)
Definition pool_bounded (w : World) : Prop :=
  forall pool_key b, container_pools w !! pool_key = Some b ->
    (length (containers b) <= max_pool_size)%nat.

(** The process as the threads make it move. The pools are only read and
    written inside the four [with pool_lock:] blocks, which exclude one
    another, so each block is one step, taken by any thread with any
    arguments; whatever runs outside the lock (the engine, the file
    system, the clock, other locals) leaves [container_pools] as it is. *)
Inductive pool_step : World -> World -> Prop :=
| step_add pool_key c w :
    pool_step w (add_container_locked pool_key c tt w).2
| step_initialize pool_key w :
    pool_step w (initialize_locked pool_key tt w).2
| step_get language w :
    pool_step w (get_container_from_pool language tt w).2
| step_clean current_time w :
    pool_step w (clean_locked current_time tt w).2
| step_unlocked w w' :
    container_pools w' = container_pools w ->
    pool_step w w'.

(** the worlds the process can be in: it starts with [container_pools = {}] *)
Definition reachable (w : World) : Prop :=
  exists w0, container_pools w0 = ∅ /\ rtc pool_step w0 w.

(** every run of the computation is a sequence of steps *)
Definition traces {L A} (m : M L A) : Prop :=
  forall l w, rtc pool_step w (m l w).2.

(** the computation leaves the pools as they are *)
Definition pools_stable {L A} (m : M L A) : Prop :=
  forall l w, container_pools (m l w).2 = container_pools w.

(** the process at start-up, with an engine that never fails *)
Definition boot_world : World :=
  {| container_pools := ∅; clock := []; uuids := [];
     from_env_script := []; run_script := []; exec_script := [];
     stop_script := []; fs_script := []; next_container := 0; log := [] |}.

(** the python pool filled by five replenishments *)
Definition full_world : World :=
  let add w := (add_container_to_pool "python" "python:3.9-slim" tt w).2 in
  add (add (add (add (add (initialize_locked "python_pool" tt boot_world).2)))).

End PoolProps.

(** ** The runners *)

Module RunnerProps.

(** The metrics block is populated: the tags and the start time are there,
    the three timings are ints, the error tag is present (possibly [None]);
    no runner ever writes a ['cold_start'] key. *)
Definition populated (runtime language : string) (m : gmap string pyval) : Prop :=
  m !! "runtime" = Some (PyStr runtime) /\
  m !! "language" = Some (PyStr language) /\
  (exists t, m !! "start_time" = Some (PyFloat t)) /\
  (exists z, m !! "initialization_time_ms" = Some (PyInt z)) /\
  (exists z, m !! "execution_time_ms" = Some (PyInt z)) /\
  (exists z, m !! "total_time_ms" = Some (PyInt z)) /\
  is_Some (m !! "error") /\
  m !! "cold_start" = None.

(** the measured duration of the exec that starts in world [w]: the
    difference of the next two clock readings *)
Definition execution_time_at (w : World) : Q :=
  (hd 0 (tl (clock w)) - hd 0 (clock w))%Q.

(** the answer the engine gives to the exec that starts in world [w] *)
Definition exec_answer_at (w : World) : string + ExecResult :=
  hd (inr {| exit_code := 0; output := None |}) (exec_script w).

(** the language tag is in no profile *)
Definition unsupported (language : string) : Prop :=
  lower language <> "python" /\ lower language <> "javascript" /\ lower language <> "js".

(** the locals and the world in which [run_in_docker] enters its [try],
    once [docker.from_env()] has returned *)
Definition docker_entry_frame (language : string) (warm : bool) (w : World) : Frame :=
  {| f_container := None;
     f_metrics := Runner.initial_metrics (hd 0%Q (clock w)) language warm |}.

Definition gvisor_entry_frame (language : string) (l : Frame) (w : World) : Frame :=
  {| f_container := f_container l;
     f_metrics := Gvisor.initial_metrics (hd 0%Q (clock w)) language |}.

Definition entry_world (w : World) : World :=
  set_from_env_script (tl (from_env_script w)) (set_clock (tl (clock w)) w).

(** The statements of the [try] body of the default runner that come
    before the exec: the acquisition of the container, the reading of
    [init_end_time] and the staging of the code (runner.py, lines 152-218). *)
Definition docker_prelude (code language : string) (warm : bool) (start_time : Q)
  : M Frame (Container * (string * string)) :=
  do container <~ Runner.acquire_container language warm ;;;
  do init_end_time <~ time_time ;;;
  assign_metric "initialization_time_ms" (PyInt (elapsed_ms start_time init_end_time)) ;;;
  do staged <~ Runner.stage_code code language container ;;;
  ret (container, staged).

(** the same for the hardened runner (gvisor_runner.py, lines 41-96) *)
Definition gvisor_prelude (code language : string) (start_time : Q)
  : M Frame (Container * string) :=
  do container <~ Gvisor.create_container language ;;;
  do init_end_time <~ time_time ;;;
  assign_metric "initialization_time_ms" (PyInt (elapsed_ms start_time init_end_time)) ;;;
  do exec_cmd <~ Gvisor.stage_code code language container ;;;
  ret (container, exec_cmd).

(** The world in which the exec of a run begins, for the run whose [try]
    starts with the locals [l] in the world [w]: the next two clock
    readings of that world are the run's [exec_start_time] and
    [exec_end_time], and the head of its exec script is the engine's answer
    to the run's exec. *)
Definition docker_exec_world (code language : string) (warm : bool) (start_time : Q)
    (l : Frame) (w : World) : World :=
  (docker_prelude code language warm start_time l w).2.

Definition gvisor_exec_world (code language : string) (start_time : Q)
    (l : Frame) (w : World) : World :=
  (gvisor_prelude code language start_time l w).2.



Definition docker_exec_world_of_run (code language : string) (warm : bool) (w : World)
  : World :=
  docker_exec_world code language warm (hd 0%Q (clock w))
    (docker_entry_frame language warm w) (entry_world w).
(** a world with no pool, one exec answer and a clock that reads 0, 1, 2,
    then [exec_end] when the exec has returned, then a second later *)
Definition cold_world (exec_end : Q) (exit : Z) : World :=
  {| container_pools := ∅;
     clock := [0; 1; 2; exec_end; exec_end + 1]%Q;
     uuids := ["1b9d6bcd-bbfd-4b2d"; "9b1deb4d-3b7d-4bad"];
     from_env_script := []; run_script := [];
     exec_script := [inr {| exit_code := exit;
                            output := Some (Some (Utf8 "Hello, World!"), None) |}];
     stop_script := []; fs_script := []; next_container := 0; log := [] |}.

(** the same, with the engine unreachable *)
Definition daemon_down_world : World :=
  {| container_pools := ∅; clock := [0; 1]%Q; uuids := [];
     from_env_script := [Some "Error while fetching server API version"];
     run_script := []; exec_script := []; stop_script := []; fs_script := [];
     next_container := 0; log := [] |}.

(** a world whose python pool holds the idle container 7 *)
Definition pooled_world : World :=
  {| container_pools :=
       {[ "python_pool" :=
            {| containers := [{| pc_container := 7; pc_created_at := 0; pc_id := 7 |}];
               last_accessed := 0 |} ]};
     clock := [10; 11; 12; 13; 14; 15]%Q;
     uuids := ["1b9d6bcd-bbfd-4b2d"; "9b1deb4d-3b7d-4bad"];
     from_env_script := []; run_script := [];
     exec_script := [inr {| exit_code := 0;
                            output := Some (Some (Utf8 "Hello, World!"), None) |}];
     stop_script := []; fs_script := []; next_container := 8; log := [] |}.

(** the table after one cold execution of a hello-world function *)
Definition sample_db : list Metrics.ExecutionMetric :=
  match Runner.run_in_docker "print('Hello, World!')" "python" 30 false empty_frame
          (cold_world 3 0) with
  | (inr r, _, _) => Metrics.save_execution_metrics [] 100 "hello" r
  | _ => []
  end.

(** the cold world in which the engine fails the stop of the container *)
Definition stop_fails_world : World :=
  set_stop_script [Some "500 Server Error: cannot stop container"] (cold_world 3 0).



End RunnerProps.

(** ** The comparator *)

Module MainProps.




End MainProps.

(** * Further properties of the code *)

(** ** The warm pool, operation by operation *)

Module PoolOps.
Import Pool.

(** [n] successive checkouts, as [run_in_docker] makes them *)
Fixpoint checkouts (language : string) (n : nat) : M unit (list (option Container)) :=
  match n with
  | O => ret []
  | S n' =>
      do c <~ get_container_from_pool language ;;;
      do cs <~ checkouts language n' ;;;
      ret (c :: cs)
  end.

(** the bucket has outlived the expiry at the time of the sweep *)
Definition expired (current_time : Q) (b : Bucket) : bool :=
  Qgtb (current_time - last_accessed b) pool_expiry_seconds.

(** the stop calls the sweep issues for a bucket *)
Definition stops_of (b : Bucket) : list Event :=
  map (fun cd => EvStop (pc_container cd)) (containers b).

(** a world with two buckets, the python one idle for 400 s *)
Definition stale_world : World :=
  {| container_pools :=
       <["python_pool" :=
           {| containers := [{| pc_container := 1; pc_created_at := 0; pc_id := 1 |};
                             {| pc_container := 2; pc_created_at := 1; pc_id := 2 |}];
              last_accessed := 100 |}]>
       {[ "js_pool" :=
            {| containers := [{| pc_container := 3; pc_created_at := 450; pc_id := 3 |}];
               last_accessed := 450 |} ]};
     clock := [500; 501]%Q; uuids := [];
     from_env_script := []; run_script := []; exec_script := [];
     stop_script := [Some "No such container"]; fs_script := [];
     next_container := 4; log := [] |}.

End PoolOps.

(** ** The runners, path by path *)

Module RunnerPaths.

(** a world in which the engine creates the container and then fails the exec *)
Definition exec_fails_world : World :=
  {| container_pools := ∅;
     clock := [0; 1; 2; 3; 4]%Q;
     uuids := ["1b9d6bcd-bbfd-4b2d"; "9b1deb4d-3b7d-4bad"];
     from_env_script := []; run_script := [];
     exec_script := [inl "409 Conflict: container is not running"];
     stop_script := []; fs_script := []; next_container := 0; log := [] |}.

(** the language has a profile *)
Definition supported (language : string) : Prop :=
  lower language = "python" \/ lower language = "javascript" \/ lower language = "js".

(** what a forward step leaves of the engine's scripts *)
Definition engine_after (w w1 : World) (evs : list Event) : Prop :=
  log w1 = (log w ++ evs)%list /\ fs_script w1 = fs_script w /\
  exec_script w1 = exec_script w /\ stop_script w1 = stop_script w.

End RunnerPaths.

(** ** The request handlers, path by path *)

Module MainPaths.
Import Main.

(** no row of [functions] carries the name *)
Definition unknown (name : string) (db : Db) : Prop :=
  Forall (fun f => Main.name f <> name) (functions db).

(** the runner that serves a request: anything but ["gvisor"] goes to the
    default runtime (lines 101-108) *)
Definition serving_runtime (params : option FunctionExecuteParams) : string :=
  let params := match params with Some p => p | None => default_params end in
  if String.eqb (runtime params) "gvisor" then "gvisor" else "docker".

(** a row written for [name] by the runner [rt] *)
Definition row_of (name rt : string) (m : Metrics.ExecutionMetric) : Prop :=
  Metrics.function_name m = name /\ Metrics.runtime m = Some rt.

(** a table with one hello-world function *)
Definition hello_db : Db :=
  {| functions := [{| name := "hello"; language := "python";
                      code := "print('Hello, World!')"; timeout := 30 |}];
     execution_metrics := [] |}.

(** a request for a runtime the platform does not know *)
Definition podman_params : FunctionExecuteParams :=
  {| runtime := "podman"; warm_start := false |}.

(** a world in which two cold runs of each runtime succeed *)
Definition comparison_world : World :=
  {| container_pools := ∅;
     clock := [0; 1; 2; 3; 4; 5;  10; 11; 12; 13; 14; 15; 16; 17; 18; 19; 20; 21; 22; 23;
               30; 31; 32; 33; 34; 35;  40; 41; 42; 43; 44; 45]%Q;
     uuids := [];
     from_env_script := []; run_script := [];
     exec_script := [];
     stop_script := []; fs_script := []; next_container := 0; log := [] |}.

End MainPaths.

(** ** Reading the metrics back *)

Module MetricsReads.
Import Metrics.

(** the execution times the aggregation works on *)
Definition execution_times (rows : list ExecutionMetric) : list Z :=
  omap execution_time_ms rows.

(** [ORDER BY timestamp DESC]; rows of equal timestamp are left in the
    order of the table *)
Fixpoint insert_desc (m : ExecutionMetric) (l : list ExecutionMetric)
  : list ExecutionMetric :=
  match l with
  | [] => [m]
  | x :: l' => if (timestamp x <? timestamp m)%Z then m :: l else x :: insert_desc m l'
  end.

Definition order_by_timestamp_desc (l : list ExecutionMetric) : list ExecutionMetric :=
  foldr insert_desc [] l.

(** [get_metrics_for_function(db, function_name, limit)], lines 55-76: the
    rows of the function, newest first, cut at [limit]; the dict built for
    each row copies its columns *)
Definition get_metrics_for_function (db : list ExecutionMetric) (function_name : string)
    (limit : nat) : list ExecutionMetric :=
  take limit
    (order_by_timestamp_desc (filter (fun m => Metrics.function_name m = function_name) db)).

(** five rows of one function at the times 1..5, and one of another *)
Definition history : list ExecutionMetric :=
  [MetricsProps.row 10 20 "success" 3; MetricsProps.row 11 21 "success" 1;
   MetricsProps.row 12 22 "error" 5;
   {| id := 4; function_name := "g"; runtime := Some "gvisor"; language := Some "python";
      cold_start := true; timestamp := 9; initialization_time_ms := Some 5%Z;
      execution_time_ms := Some 7%Z; total_time_ms := Some 12%Z; status := "success";
      error_message := None |};
   MetricsProps.row 13 23 "success" 4; MetricsProps.row 14 24 "timeout" 2].

End MetricsReads.

(** ** backend/main.py: the handlers of the function table *)

Module Handlers.
Import Main.

(** [str(e)] of the [IntegrityError] raised by the UNIQUE constraint on
    [functions.name] (database.py, line 17); the echo of the SQL statement
    is left out *)
Definition integrity_error : string :=
  "(sqlite3.IntegrityError) UNIQUE constraint failed: functions.name".

(** the row [.filter(Function.name == name).first()] finds *)
Definition stored (name : string) (fs : list Function) : option Function :=
  head (filter (fun f => Main.name f = name) fs).

(** the table without the first row of that name *)
Fixpoint remove_first (name : string) (fs : list Function) : list Function :=
  match fs with
  | [] => []
  | f :: fs' => if decide (Main.name f = name) then fs' else f :: remove_first name fs'
  end.

(** the table with the first row of that name overwritten *)
Fixpoint replace_first (name : string) (updated : Function) (fs : list Function)
  : list Function :=
  match fs with
  | [] => []
  | f :: fs' =>
      if decide (Main.name f = name) then updated :: fs'
      else f :: replace_first name updated fs'
  end.

Definition set_functions (fs : list Function) : M Db unit :=
  set_locals (fun db => {| functions := fs; execution_metrics := execution_metrics db |}).

(** [db.add(db_func); db.commit()]: the insert fails on a name that is taken *)
Definition add_and_commit (f : Function) : M Db unit :=
  do db <~ get_locals ;;;
  if bool_decide (Main.name f ∈ map Main.name (functions db)) then raise integrity_error
  else set_functions (functions db ++ [f]).

(** [create_function(func, db)], lines 42-52; [db.rollback()] drops the
    pending insert *)
Definition create_function (func : Function) : M Db string :=
  try_except (add_and_commit func ;;; ret "Function saved")
             (fun e => raise ("500: Database error: " ++ e)).

(** [list_functions(db)], lines 54-57 *)
Definition list_functions : M Db (list Function) :=
  do db <~ get_locals ;;;
  ret (functions db).

(** [get_function(name, db)], lines 59-64 *)
Definition get_function (name : string) : M Db Function :=
  do func <~ query_function name ;;;
  match func with
  | None => raise not_found
  | Some func => ret func
  end.

(** [setattr(func, field, value)] for the four fields, then [db.commit()]:
    the update fails when another row holds the new name; the exception is
    not caught and the session is closed without a commit *)
Definition set_fields_and_commit (name : string) (updated : Function) : M Db unit :=
  do db <~ get_locals ;;;
  if bool_decide (Main.name updated ∈ map Main.name (remove_first name (functions db)))
  then raise integrity_error
  else set_functions (replace_first name updated (functions db)).

(** [update_function(name, updated, db)], lines 66-74 *)
Definition update_function (name : string) (updated : Function) : M Db string :=
  do func <~ query_function name ;;;
  match func with
  | None => raise not_found
  | Some _ =>
      set_fields_and_commit name updated ;;;
      ret "Function updated"
  end.

(** [delete_function(name, db)], lines 76-83 *)
Definition delete_function (name : string) : M Db string :=
  do func <~ query_function name ;;;
  match func with
  | None => raise not_found
  | Some _ =>
      do db <~ get_locals ;;;
      set_functions (remove_first name (functions db)) ;;;
      ret "Function deleted"
  end.

(** [get_function_metrics(name, limit, db)], lines 126-138 *)
Definition get_function_metrics (name : string) (limit : nat)
  : M Db (list Metrics.ExecutionMetric) :=
  do func <~ query_function name ;;;
  match func with
  | None => raise not_found
  | Some _ =>
      do db <~ get_locals ;;;
      ret (MetricsReads.get_metrics_for_function (execution_metrics db) name limit)
  end.

(** the table holds each name once *)
Definition unique_names (db : Db) : Prop := NoDup (map Main.name (functions db)).

(** a table of two functions with some history *)
Definition two_functions : Db :=
  {| functions := [{| name := "hello"; language := "python";
                      code := "print('hello world')"; timeout := 30 |};
                   {| name := "f"; language := "javascript";
                      code := "console.log(1)"; timeout := 10 |}];
     execution_metrics := MetricsReads.history |}.

Definition hello_updated : Function :=
  {| name := "hello"; language := "python"; code := "print('updated')"; timeout := 60 |}.

End Handlers.

(** * Theorems *)

(** ** The metrics store *)

Module MetricsFacts.
Import Metrics MetricsProps.

Lemma insert_sorted_length x l : length (insert_sorted x l) = S (length l).
Proof.
  induction l as [|y l IH]; simpl; [done|].
  destruct (x <=? y)%Z; simpl; [done|]. by rewrite IH.
Qed.

Lemma sorted_length l : length (sorted l) = length l.
Proof.
  induction l as [|x l IH]; simpl; [done|].
  by rewrite insert_sorted_length, IH.
Qed.

Lemma insert_sorted_perm x l : Permutation (insert_sorted x l) (x :: l).
Proof.
  induction l as [|y l IH]; simpl; [done|].
  destruct (x <=? y)%Z; [done|].
  rewrite IH. apply perm_swap.
Qed.

Lemma sorted_perm l : Permutation (sorted l) l.
Proof.
  induction l as [|x l IH]; simpl; [done|].
  by rewrite insert_sorted_perm, IH.
Qed.

Lemma insert_sorted_ordered x l :
  Sorted Z.le l -> Sorted Z.le (insert_sorted x l).
Proof.
  induction l as [|y l IH]; intros Hs; simpl.
  - repeat constructor.
  - destruct (x <=? y)%Z eqn:Hxy.
    + constructor; [done|]. constructor. lia.
    + inversion Hs as [|? ? Hs' Hhd]; subst.
      constructor; [by apply IH|].
      destruct l as [|z l]; simpl.
      * constructor. lia.
      * destruct (x <=? z)%Z; constructor; [lia|].
        inversion Hhd; subst. done.
  Qed.

Lemma sorted_ordered l : Sorted Z.le (sorted l).
Proof.
  induction l as [|x l IH]; simpl; [constructor|].
  by apply insert_sorted_ordered.
Qed.

Lemma percentile_index_floor n pct :
  (0 <= pct)%Z -> percentile_index n pct = floor_index n pct.
Proof.
  intros Hp. unfold percentile_index, floor_index, py_int. simpl.
  change (Z.pos (1 * 100)) with 100%Z. f_equal.
  apply Z.quot_div_nonneg; lia.
Qed.

Lemma floor_index_lt n pct :
  (0 < n)%nat -> (0 <= pct < 100)%Z -> (floor_index n pct < n)%nat.
Proof.
  intros Hn Hp. unfold floor_index.
  assert (Z.of_nat n * pct / 100 < Z.of_nat n)%Z.
  { apply Z.div_lt_upper_bound; nia. }
  assert (0 <= Z.of_nat n * pct / 100)%Z by (apply Z.div_pos; nia).
  lia.
Qed.

Lemma index_in_bounds l i :
  (i < length l)%nat -> exists x, index l i = inr x /\ l !! i = Some x.
Proof.
  intros Hi. unfold index.
  destruct (lookup_lt_is_Some_2 l i Hi) as [x Hx].
  exists x. by rewrite Hx.
Qed.


(** the aggregation never raises: both lookups are in bounds whenever they
    are made *)
Lemma aggregate_rows_total rows : exists a, aggregate_rows rows = inr a.
Proof.
  unfold aggregate_rows. destruct rows as [|m rows]; [by eexists|].
  set (times := omap execution_time_ms (m :: rows)).
  destruct (2 <=? length times)%nat eqn:Hn; [|by eexists].
  apply Nat.leb_le in Hn.
  destruct (index_in_bounds (sorted times) (percentile_index (length times) 95))
    as (p95 & -> & _).
  { rewrite sorted_length, percentile_index_floor by lia. apply floor_index_lt; lia. }
  destruct (index_in_bounds (sorted times) (percentile_index (length times) 99))
    as (p99 & -> & _).
  { rewrite sorted_length, percentile_index_floor by lia. apply floor_index_lt; lia. }
  by eexists.
Qed.

(** C10. For every list of n >= 2 execution times, the indices int(n * 0.95)
    and int(n * 0.99) are strictly below n, both lookups into the sorted list
    return an element, and the aggregation of rows with these execution
    times does not raise. *)
Theorem percentile_lookups_in_bounds (times : list Z) :
  (2 <= length times)%nat ->
  (percentile_index (length times) 95 < length times)%nat /\
  (percentile_index (length times) 99 < length times)%nat /\
  (exists p95 p99,
      index (sorted times) (percentile_index (length times) 95) = inr p95 /\
      index (sorted times) (percentile_index (length times) 99) = inr p99) /\
  (forall rows, omap execution_time_ms rows = times ->
      exists a, aggregate_rows rows = inr a).
Proof.
  intros Hn.
  assert (H95 : (percentile_index (length times) 95 < length times)%nat).
  { rewrite percentile_index_floor by lia. apply floor_index_lt; lia. }
  assert (H99 : (percentile_index (length times) 99 < length times)%nat).
  { rewrite percentile_index_floor by lia. apply floor_index_lt; lia. }
  split; [done|]. split; [done|]. split.
  - destruct (index_in_bounds (sorted times) (percentile_index (length times) 95))
      as (p95 & E95 & _); [by rewrite sorted_length|].
    destruct (index_in_bounds (sorted times) (percentile_index (length times) 99))
      as (p99 & E99 & _); [by rewrite sorted_length|].
    by exists p95, p99.
  - intros rows _. apply aggregate_rows_total.
Qed.

Lemma percentile_lookups_in_bounds_witness :
  (2 <= length [30; 10; 20]%Z)%nat /\
  (percentile_index (length [30; 10; 20]%Z) 95 < length [30; 10; 20]%Z)%nat.
Proof.
  split; [simpl; lia|].
  apply (percentile_lookups_in_bounds [30; 10; 20]%Z). simpl; lia.
Defined.





Lemma count_if_le {A} (p : A -> bool) l : (count_if p l <= length l)%nat.
Proof. unfold count_if. apply length_filter. Qed.







End MetricsFacts.

(** ** The monad *)

Module MonadFacts.

Lemma bind_inv {L A B} (m : M L A) (k : A -> M L B) l w r l' w' :
  bind m k l w = (r, l', w') ->
  (exists e, m l w = (inl e, l', w') /\ r = inl e) \/
  (exists a l1 w1, m l w = (inr a, l1, w1) /\ k a l1 w1 = (r, l', w')).
Proof.
  unfold bind. destruct (m l w) as [[[e|a] l1] w1]; intros H.
  - left. exists e. by inversion H.
  - right. by exists a, l1, w1.
Qed.

Lemma bind_inr {L A B} (m : M L A) (k : A -> M L B) l w b l' w' :
  bind m k l w = (inr b, l', w') ->
  exists a l1 w1, m l w = (inr a, l1, w1) /\ k a l1 w1 = (inr b, l', w').
Proof.
  intros H. apply bind_inv in H as [(e & _ & He)|H]; [done|exact H].
Qed.

Lemma try_except_inv {L A} (body : M L A) (h : string -> M L A) l w r l' w' :
  try_except body h l w = (r, l', w') ->
  (exists a, body l w = (inr a, l', w') /\ r = inr a) \/
  (exists e l1 w1, body l w = (inl e, l1, w1) /\ h e l1 w1 = (r, l', w')).
Proof.
  unfold try_except. destruct (body l w) as [[[e|a] l1] w1]; intros H.
  - right. by exists e, l1, w1.
  - left. exists a. by inversion H.
Qed.

(** the computation leaves the locals as they are *)
Definition frame_stable {L A} (m : M L A) : Prop :=
  forall l w, (m l w).1.2 = l.

(** the computation keeps a property of the locals *)
Definition frame_inv {L A} (I : L -> Prop) (m : M L A) : Prop :=
  forall l w, I l -> I (m l w).1.2.

Lemma frame_stable_inv {L A} (I : L -> Prop) (m : M L A) :
  frame_stable m -> frame_inv I m.
Proof. intros Hm l w Hl. by rewrite Hm. Qed.

Lemma frame_inv_ret {L A} (I : L -> Prop) (a : A) : frame_inv I (ret a).
Proof. by intros l w. Qed.

Lemma frame_inv_raise {L A} (I : L -> Prop) e : frame_inv I (@raise L A e).
Proof. by intros l w. Qed.

Lemma frame_inv_bind {L A B} (I : L -> Prop) (m : M L A) (k : A -> M L B) :
  frame_inv I m -> (forall a, frame_inv I (k a)) -> frame_inv I (bind m k).
Proof.
  intros Hm Hk l w Hl. unfold bind. specialize (Hm l w Hl).
  destruct (m l w) as [[[e|a] l1] w1]; simpl in *; [done|].
  by apply Hk.
Qed.

Lemma frame_inv_try {L A} (I : L -> Prop) (m : M L A) (h : string -> M L A) :
  frame_inv I m -> (forall e, frame_inv I (h e)) -> frame_inv I (try_except m h).
Proof.
  intros Hm Hh l w Hl. unfold try_except. specialize (Hm l w Hl).
  destruct (m l w) as [[[e|a] l1] w1]; simpl in *; [|done].
  by apply Hh.
Qed.

Lemma frame_inv_set_locals {L} (I : L -> Prop) (f : L -> L) :
  (forall l, I l -> I (f l)) -> frame_inv I (set_locals f).
Proof. intros Hf l w Hl. by apply Hf. Qed.

Lemma frame_stable_call {L L' A} (callee : M L' A) (l0 : L') :
  frame_stable (@call L L' A callee l0).
Proof. intros l w. unfold call. by destruct (callee l0 w) as [[r l1] w1]. Qed.

Lemma frame_stable_lift {L A} (r : string + A) : frame_stable (@lift L A r).
Proof. by intros l w. Qed.

Lemma frame_stable_gets {L A} (f : World -> A) : frame_stable (@gets L A f).
Proof. by intros l w. Qed.

Lemma frame_stable_modify {L} (f : World -> World) : frame_stable (@modify L f).
Proof. by intros l w. Qed.

Lemma frame_stable_get_locals {L} : frame_stable (@get_locals L).
Proof. by intros l w. Qed.

Lemma frame_stable_time {L} : frame_stable (@time_time L).
Proof. by intros l w. Qed.

Lemma frame_stable_uuid4 {L} : frame_stable (@uuid4 L).
Proof. by intros l w. Qed.

Lemma frame_stable_from_env {L} : frame_stable (@docker_from_env L).
Proof. intros l w. unfold docker_from_env. by destruct (answer _). Qed.

Lemma frame_stable_run {L} image name rt : frame_stable (@containers_run L image name rt).
Proof. intros l w. unfold containers_run. by destruct (answer _). Qed.

Lemma frame_stable_stop {L} c : frame_stable (@container_stop L c).
Proof. intros l w. unfold container_stop. by destruct (answer _). Qed.

Lemma frame_stable_exec {L} c cmd : frame_stable (@container_exec_run L c cmd).
Proof. intros l w. unfold container_exec_run. by destruct (hd _ _). Qed.

Lemma frame_stable_fs {L} : frame_stable (@fs_call L).
Proof. intros l w. unfold fs_call. by destruct (answer _). Qed.

Lemma frame_stable_cp {L} src c dst : frame_stable (@os_system_docker_cp L src c dst).
Proof. by intros l w. Qed.

Lemma frame_stable_decode {L} b : frame_stable (@decode_or_empty L b).
Proof.
  intros l w. unfold decode_or_empty, decode.
  destruct b as [[s|e]|]; simpl; [by destruct s| |]; done.
Qed.

(** [decode_or_empty] touches neither the locals nor the world *)
Lemma decode_or_empty_pure {L} (b : option bytes) (l : L) w r l' w' :
  decode_or_empty b l w = (r, l', w') -> l' = l /\ w' = w.
Proof.
  unfold decode_or_empty, decode.
  destruct b as [[s|e]|]; simpl; [destruct s| |]; by inversion 1.
Qed.

Lemma frame_inv_assign_container (P : gmap string pyval -> Prop) c :
  frame_inv (fun fr => P (f_metrics fr)) (assign_container c).
Proof. by intros l w Hl. Qed.

Lemma frame_inv_assign_metric (P : gmap string pyval -> Prop) k v :
  (forall m, P m -> P (<[k := v]> m)) ->
  frame_inv (fun fr => P (f_metrics fr)) (assign_metric k v).
Proof. intros HP l w Hl. by apply HP. Qed.

(** the primitive calls, when they return *)
Lemma time_time_inv {L} (l : L) w r l' w' :
  time_time l w = (r, l', w') ->
  r = inr (hd 0%Q (clock w)) /\ l' = l /\ w' = set_clock (tl (clock w)) w.
Proof. by inversion 1. Qed.

Lemma uuid4_inv {L} (l : L) w r l' w' :
  uuid4 l w = (r, l', w') ->
  r = inr (hd "" (uuids w)) /\ l' = l /\ w' = set_uuids (tl (uuids w)) w.
Proof. by inversion 1. Qed.

Lemma exec_run_inr {L} c cmd (l : L) w res l' w' :
  container_exec_run c cmd l w = (inr res, l', w') ->
  hd (inr {| exit_code := 0; output := None |}) (exec_script w) = inr res /\ l' = l /\
  w' = set_exec_script (tl (exec_script w)) (add_event (EvExec c cmd) w).
Proof.
  unfold container_exec_run. destruct (hd _ _) as [e|r0]; by inversion 1.
Qed.

Lemma stop_inr {L} c (l : L) w u l' w' :
  container_stop c l w = (inr u, l', w') ->
  answer (stop_script w) = None /\ l' = l /\
  w' = set_stop_script (tl (stop_script w)) (add_event (EvStop c) w).
Proof.
  unfold container_stop. destruct (answer _) as [e|]; by inversion 1.
Qed.

Lemma run_inr {L} image name rt (l : L) w c l' w' :
  containers_run image name rt l w = (inr c, l', w') ->
  answer (run_script w) = None /\ c = next_container w /\ l' = l /\
  w' = add_event (EvRun image name rt c)
         (fresh_container (set_run_script (tl (run_script w)) w)).
Proof.
  unfold containers_run. destruct (answer _) as [e|]; by inversion 1.
Qed.

End MonadFacts.

Create HintDb frame.

#[export] Hint Resolve
  MonadFacts.frame_stable_call MonadFacts.frame_stable_lift
  MonadFacts.frame_stable_gets MonadFacts.frame_stable_modify
  MonadFacts.frame_stable_get_locals MonadFacts.frame_stable_time
  MonadFacts.frame_stable_uuid4 MonadFacts.frame_stable_from_env
  MonadFacts.frame_stable_run MonadFacts.frame_stable_stop
  MonadFacts.frame_stable_exec MonadFacts.frame_stable_fs
  MonadFacts.frame_stable_cp MonadFacts.frame_stable_decode : frame.

(** The rules are applied along the structure of the computation. *)
Ltac frame_inv_step :=
  lazymatch goal with
  | |- MonadFacts.frame_inv _ (bind _ _) => apply MonadFacts.frame_inv_bind; [|intros ?]
  | |- MonadFacts.frame_inv _ (try_except _ _) => apply MonadFacts.frame_inv_try; [|intros ?]
  | |- MonadFacts.frame_inv _ (assign_container _) =>
      apply MonadFacts.frame_inv_assign_container
  | |- MonadFacts.frame_inv _ (assign_metric _ _) =>
      apply MonadFacts.frame_inv_assign_metric
  | |- MonadFacts.frame_inv _ (ret _) => apply MonadFacts.frame_inv_ret
  | |- MonadFacts.frame_inv _ (raise _) => apply MonadFacts.frame_inv_raise
  | |- MonadFacts.frame_inv _ (if ?b then _ else _) => destruct b
  | |- MonadFacts.frame_inv _ (match ?x with _ => _ end) => destruct x
  | |- MonadFacts.frame_inv _ _ =>
      first [ apply MonadFacts.frame_stable_inv; solve [auto with frame] ]
  end.

(** ** The runners *)

Module RunnerFacts.
Import MonadFacts RunnerProps.

Lemma populated_initial_docker t language warm :
  populated "docker" language (Runner.initial_metrics t language warm).
Proof.
  unfold populated, Runner.initial_metrics.
  repeat split; try (eexists; reflexivity); reflexivity.
Qed.

Lemma populated_initial_gvisor t language :
  populated "gvisor" language (Gvisor.initial_metrics t language).
Proof.
  unfold populated, Gvisor.initial_metrics.
  repeat split; try (eexists; reflexivity); reflexivity.
Qed.

Lemma populated_timing rt lang k z m :
  k = "initialization_time_ms" \/ k = "execution_time_ms" \/ k = "total_time_ms" ->
  populated rt lang m -> populated rt lang (<[k := PyInt z]> m).
Proof.
  unfold populated. intros Hk (?&?&?&?&?&?&?&?).
  destruct Hk as [-> | [-> | ->]]; simplify_map_eq; repeat split; eauto.
Qed.

Lemma populated_error rt lang e m :
  populated rt lang m -> populated rt lang (<["error" := PyStr e]> m).
Proof.
  unfold populated. intros (?&?&?&?&?&?&?&?).
  simplify_map_eq; repeat split; eauto.
Qed.

Ltac populated_side :=
  intros; first [ apply populated_error; assumption
                | apply populated_timing; [tauto | assumption] ].

Lemma docker_try_populated code language timeout warm start_time :
  frame_inv (fun fr => populated "docker" language (f_metrics fr))
    (Runner.run_in_docker_try code language timeout warm start_time).
Proof.
  unfold Runner.run_in_docker_try, Runner.acquire_container, Runner.create_container,
    Runner.stage_code, Runner.execute_and_release, Runner.classify,
    Runner.release_container.
  repeat frame_inv_step; populated_side.
Qed.

Lemma docker_except_populated language warm start_time e :
  frame_inv (fun fr => populated "docker" language (f_metrics fr))
    (Runner.run_in_docker_except warm start_time e).
Proof.
  unfold Runner.run_in_docker_except.
  repeat frame_inv_step; populated_side.
Qed.

Lemma gvisor_try_populated code language timeout start_time :
  frame_inv (fun fr => populated "gvisor" language (f_metrics fr))
    (Gvisor.run_in_gvisor_try code language timeout start_time).
Proof.
  unfold Gvisor.run_in_gvisor_try, Gvisor.create_container,
    Gvisor.stage_code, Gvisor.execute_and_stop, Gvisor.classify.
  repeat frame_inv_step; populated_side.
Qed.

Lemma gvisor_except_populated language start_time e :
  frame_inv (fun fr => populated "gvisor" language (f_metrics fr))
    (Gvisor.run_in_gvisor_except start_time e).
Proof.
  unfold Gvisor.run_in_gvisor_except.
  repeat frame_inv_step; populated_side.
Qed.

(** one statement of a [do] block that returned *)
Ltac bind_step H Hm :=
  apply bind_inr in H as (? & ? & ? & Hm & H).

Lemma assign_metric_inv k v (l : Frame) w r l' w' :
  assign_metric k v l w = (r, l', w') ->
  r = inr tt /\ w' = w /\ f_container l' = f_container l /\
  f_metrics l' = <[k := v]> (f_metrics l).
Proof. by inversion 1. Qed.

Lemma docker_classify_inv out err exit execution_time timeout l w r l' w' :
  Runner.classify out err exit execution_time timeout l w = (r, l', w') ->
  w' = w /\ f_container l' = f_container l /\
  exists res, r = inr res /\
  if Qgtb execution_time (inject_Z timeout)
  then status res = "timeout" /\ r_exit_code res = (-1)%Z /\
       f_metrics l' = <["error" := PyStr "timeout"]> (f_metrics l)
  else r_exit_code res = exit /\ stdout res = out /\ stderr res = err /\
       if (exit =? 0)%Z
       then status res = "success" /\ f_metrics l' = f_metrics l
       else status res = "error" /\
            f_metrics l' = <["error" := PyStr ("exit_code_" ++ str_of_Z exit)]> (f_metrics l).
Proof.
  unfold Runner.classify.
  destruct (Qgtb _ _); [|destruct (exit =? 0)%Z]; inversion 1; subst; simpl;
    (split; [done|]); (split; [done|]); eexists; (split; [reflexivity|]); done.
Qed.

Lemma release_inv c id warm execution_time timeout exit (l : Frame) w u l' w' :
  Runner.release_container c id warm execution_time timeout exit l w = (inr u, l', w') ->
  l' = l /\ container_pools w' = container_pools w /\
  next_container w' = next_container w /\
  log w' = (log w ++
    [if Runner.keeps_container warm execution_time timeout exit
     then EvExec c (Runner.rm_cmd id) else EvStop c])%list.
Proof.
  unfold Runner.release_container.
  destruct (Runner.keeps_container _ _ _ _); intros H.
  - bind_step H Hm. apply exec_run_inr in Hm as (_ & -> & ->).
    inversion H; subst. done.
  - apply stop_inr in H as (_ & -> & ->). done.
Qed.

(** the execution proper, when it returns: what was measured, how it was
    classified and what became of the container *)
Lemma execute_and_release_inv c id cmd timeout warm start l w r l' w' :
  Runner.execute_and_release c id cmd timeout warm start l w = (inr r, l', w') ->
  exists res,
    exec_answer_at w = inr res /\
    f_container l' = f_container l /\
    container_pools w' = container_pools w /\
    next_container w' = next_container w /\
    log w' = (log w ++
      [EvExec c cmd;
       if Runner.keeps_container warm (execution_time_at w) timeout (exit_code res)
       then EvExec c (Runner.rm_cmd id) else EvStop c])%list /\
    metrics r = f_metrics l' /\
    metrics r !! "execution_time_ms" = Some (PyInt (py_int (execution_time_at w * 1000))) /\
    if Qgtb (execution_time_at w) (inject_Z timeout)
    then status r = "timeout" /\ r_exit_code r = (-1)%Z /\
         metrics r !! "error" = Some (PyStr "timeout")
    else r_exit_code r = exit_code res /\
         if (exit_code res =? 0)%Z
         then status r = "success" /\ metrics r !! "error" = f_metrics l !! "error"
         else status r = "error" /\
              metrics r !! "error" =
                Some (PyStr ("exit_code_" ++ str_of_Z (exit_code res))).
Proof.
  unfold Runner.execute_and_release. intros H.
  bind_step H Ht0. apply time_time_inv in Ht0 as (Et0 & -> & ->).
  inversion Et0; subst; clear Et0.
  bind_step H Hx. apply exec_run_inr in Hx as (Hres & -> & ->).
  bind_step H Ho. apply decode_or_empty_pure in Ho as [-> ->].
  bind_step H He. apply decode_or_empty_pure in He as [-> ->].
  bind_step H Ht1. apply time_time_inv in Ht1 as (Et1 & -> & ->).
  inversion Et1; subst; clear Et1.
  bind_step H Ha. apply assign_metric_inv in Ha as (_ & -> & Hc1 & Hm1).
  bind_step H Hcl. apply docker_classify_inv in Hcl as (-> & Hc2 & res & Er & Hcl).
  inversion Er; subst; clear Er.
  bind_step H Ht2. apply time_time_inv in Ht2 as (Et2 & -> & ->).
  inversion Et2; subst; clear Et2.
  bind_step H Hb. apply assign_metric_inv in Hb as (_ & -> & Hc3 & Hm3).
  bind_step H Hr. apply release_inv in Hr as (-> & Hp & Hn & Hl).
  bind_step H Hg. inversion Hg; subst; clear Hg.
  inversion H; subst; clear H.
  match goal with x : ExecResult |- _ => exists x end.
  simpl in *. unfold exec_answer_at, execution_time_at.
  split; [done|]. split; [congruence|]. split; [done|]. split; [done|].
  split; [by rewrite Hl, <- app_assoc|].
  split; [done|].
  rewrite Hm3.
  destruct (Qgtb _ _).
  - destruct Hcl as (? & ? & Hm2). rewrite Hm2, Hm1. by simplify_map_eq.
  - destruct Hcl as (? & _ & _ & Hcl). destruct (_ =? _)%Z.
    + destruct Hcl as (? & Hm2). rewrite Hm2, Hm1. by simplify_map_eq.
    + destruct Hcl as (? & Hm2). rewrite Hm2, Hm1. by simplify_map_eq.
Qed.

Lemma gvisor_classify_inv out err exit execution_time timeout l w r l' w' :
  Gvisor.classify out err exit execution_time timeout l w = (r, l', w') ->
  w' = w /\ f_container l' = f_container l /\
  exists res, r = inr res /\
  if Qgtb execution_time (inject_Z timeout)
  then status res = "timeout" /\ r_exit_code res = (-1)%Z /\
       f_metrics l' = <["error" := PyStr "timeout"]> (f_metrics l)
  else r_exit_code res = exit /\ stdout res = out /\ stderr res = err /\
       if (exit =? 0)%Z
       then status res = "success" /\ f_metrics l' = f_metrics l
       else status res = "error" /\
            f_metrics l' = <["error" := PyStr ("exit_code_" ++ str_of_Z exit)]> (f_metrics l).
Proof.
  unfold Gvisor.classify.
  destruct (Qgtb _ _); [|destruct (exit =? 0)%Z]; inversion 1; subst; simpl;
    (split; [done|]); (split; [done|]); eexists; (split; [reflexivity|]); done.
Qed.

Lemma execute_and_stop_inv c cmd timeout start l w r l' w' :
  Gvisor.execute_and_stop c cmd timeout start l w = (inr r, l', w') ->
  exists res,
    exec_answer_at w = inr res /\
    f_container l' = f_container l /\
    container_pools w' = container_pools w /\
    next_container w' = next_container w /\
    log w' = (log w ++ [EvExec c cmd; EvStop c])%list /\
    metrics r = f_metrics l' /\
    metrics r !! "execution_time_ms" = Some (PyInt (py_int (execution_time_at w * 1000))) /\
    if Qgtb (execution_time_at w) (inject_Z timeout)
    then status r = "timeout" /\ r_exit_code r = (-1)%Z /\
         metrics r !! "error" = Some (PyStr "timeout")
    else r_exit_code r = exit_code res /\
         if (exit_code res =? 0)%Z
         then status r = "success" /\ metrics r !! "error" = f_metrics l !! "error"
         else status r = "error" /\
              metrics r !! "error" =
                Some (PyStr ("exit_code_" ++ str_of_Z (exit_code res))).
Proof.
  unfold Gvisor.execute_and_stop. intros H.
  bind_step H Ht0. apply time_time_inv in Ht0 as (Et0 & -> & ->).
  inversion Et0; subst; clear Et0.
  bind_step H Hx. apply exec_run_inr in Hx as (Hres & -> & ->).
  bind_step H Ho. apply decode_or_empty_pure in Ho as [-> ->].
  bind_step H He. apply decode_or_empty_pure in He as [-> ->].
  bind_step H Ht1. apply time_time_inv in Ht1 as (Et1 & -> & ->).
  inversion Et1; subst; clear Et1.
  bind_step H Ha. apply assign_metric_inv in Ha as (_ & -> & Hc1 & Hm1).
  bind_step H Hcl. apply gvisor_classify_inv in Hcl as (-> & Hc2 & res & Er & Hcl).
  inversion Er; subst; clear Er.
  bind_step H Ht2. apply time_time_inv in Ht2 as (Et2 & -> & ->).
  inversion Et2; subst; clear Et2.
  bind_step H Hb. apply assign_metric_inv in Hb as (_ & -> & Hc3 & Hm3).
  bind_step H Hr. apply stop_inr in Hr as (_ & -> & ->).
  bind_step H Hg. inversion Hg; subst; clear Hg.
  inversion H; subst; clear H.
  match goal with x : ExecResult |- _ => exists x end.
  simpl in *. unfold exec_answer_at, execution_time_at.
  split; [done|]. split; [congruence|]. split; [done|]. split; [done|].
  split; [by rewrite <- app_assoc|].
  split; [done|].
  rewrite Hm3.
  destruct (Qgtb _ _).
  - destruct Hcl as (? & ? & Hm2). rewrite Hm2, Hm1. by simplify_map_eq.
  - destruct Hcl as (? & _ & _ & Hcl). destruct (_ =? _)%Z.
    + destruct Hcl as (? & Hm2). rewrite Hm2, Hm1. by simplify_map_eq.
    + destruct Hcl as (? & Hm2). rewrite Hm2, Hm1. by simplify_map_eq.
Qed.

(** a [try] body that returned did so from its execution phase *)
Lemma docker_try_inr code language timeout warm start l w r l' w' :
  Runner.run_in_docker_try code language timeout warm start l w = (inr r, l', w') ->
  exists c id cmd lx wx,
    Runner.execute_and_release c id cmd timeout warm start lx wx = (inr r, l', w').
Proof.
  unfold Runner.run_in_docker_try. intros H.
  bind_step H H1. bind_step H H2. bind_step H H3. bind_step H H4.
  eauto 10.
Qed.

Lemma gvisor_try_inr code language timeout start l w r l' w' :
  Gvisor.run_in_gvisor_try code language timeout start l w = (inr r, l', w') ->
  exists c cmd lx wx,
    Gvisor.execute_and_stop c cmd timeout start lx wx = (inr r, l', w').
Proof.
  unfold Gvisor.run_in_gvisor_try. intros H.
  bind_step H H1. bind_step H H2. bind_step H H3. bind_step H H4.
  eauto 10.
Qed.

Lemma Qgtb_true a b : Qgtb a b = true <-> (b < a)%Q.
Proof.
  unfold Qgtb. rewrite negb_true_iff, <- not_true_iff_false, Qle_bool_iff.
  split; [apply Qnot_le_lt | apply Qlt_not_le].
Qed.

Lemma Qgtb_false a b : Qgtb a b = false <-> (a <= b)%Q.
Proof.
  unfold Qgtb. rewrite negb_false_iff. apply Qle_bool_iff.
Qed.

Lemma Qltb_true a b : Qltb a b = true <-> (a < b)%Q.
Proof. apply Qgtb_true. Qed.

(** the [try] body is its prelude followed by the execution proper *)
Lemma docker_try_split code language timeout warm start l w :
  Runner.run_in_docker_try code language timeout warm start l w =
  match docker_prelude code language warm start l w with
  | (inr (c, staged), lx, wx) =>
      Runner.execute_and_release c (fst staged) (snd staged) timeout warm start lx wx
  | (inl e, lx, wx) => (inl e, lx, wx)
  end.
Proof.
  unfold Runner.run_in_docker_try, docker_prelude, bind.
  destruct (Runner.acquire_container language warm l w) as [[[e|c] l1] w1]; [done|].
  unfold time_time, assign_metric, set_locals, ret.
  by destruct (Runner.stage_code code language c _ _) as [[[e|st] l2] w2].
Qed.

Lemma gvisor_try_split code language timeout start l w :
  Gvisor.run_in_gvisor_try code language timeout start l w =
  match gvisor_prelude code language start l w with
  | (inr (c, exec_cmd), lx, wx) => Gvisor.execute_and_stop c exec_cmd timeout start lx wx
  | (inl e, lx, wx) => (inl e, lx, wx)
  end.
Proof.
  unfold Gvisor.run_in_gvisor_try, gvisor_prelude, bind.
  destruct (Gvisor.create_container language l w) as [[[e|c] l1] w1]; [done|].
  unfold time_time, assign_metric, set_locals, ret.
  by destruct (Gvisor.stage_code code language c _ _) as [[[e|st] l2] w2].
Qed.

(** a [try] body that returned ran its exec in the exec world of the run *)
Lemma docker_try_returned code language timeout warm start l w r l' w' :
  Runner.run_in_docker_try code language timeout warm start l w = (inr r, l', w') ->
  exists c id cmd lx,
    Runner.execute_and_release c id cmd timeout warm start lx
      (docker_exec_world code language warm start l w) = (inr r, l', w').
Proof.
  rewrite docker_try_split. unfold docker_exec_world.
  destruct (docker_prelude _ _ _ _ _ _) as [[[e|[c staged]] lx] wx]; [done|].
  simpl. eauto.
Qed.

Lemma gvisor_try_returned code language timeout start l w r l' w' :
  Gvisor.run_in_gvisor_try code language timeout start l w = (inr r, l', w') ->
  exists c cmd lx,
    Gvisor.execute_and_stop c cmd timeout start lx
      (gvisor_exec_world code language start l w) = (inr r, l', w').
Proof.
  rewrite gvisor_try_split. unfold gvisor_exec_world.
  destruct (gvisor_prelude _ _ _ _ _) as [[[e|[c cmd]] lx] wx]; [done|].
  simpl. eauto.
Qed.

(** what the execution proper decides, read off the world it starts in *)
Lemma docker_decision c id cmd timeout warm start lx wx r l' w' :
  Runner.execute_and_release c id cmd timeout warm start lx wx = (inr r, l', w') ->
  metrics r !! "execution_time_ms" = Some (PyInt (py_int (execution_time_at wx * 1000))) /\
  (status r = "timeout" <-> (inject_Z timeout < execution_time_at wx)%Q) /\
  exists res, exec_answer_at wx = inr res /\
    ((execution_time_at wx <= inject_Z timeout)%Q ->
       (status r = "success" <-> exit_code res = 0%Z) /\
       r_exit_code r = exit_code res /\
       (exit_code res <> 0%Z ->
          status r = "error" /\
          metrics r !! "error" = Some (PyStr ("exit_code_" ++ str_of_Z (exit_code res))))) /\
    ((inject_Z timeout < execution_time_at wx)%Q ->
       status r = "timeout" /\ r_exit_code r = (-1)%Z /\
       metrics r !! "error" = Some (PyStr "timeout")).
Proof.
  intros H.
  destruct (execute_and_release_inv _ _ _ _ _ _ _ _ _ _ _ H)
    as (res & Hres & _ & _ & _ & _ & _ & Hms & Hcl).
  split; [done|].
  destruct (Qgtb _ _) eqn:Hgt.
  - apply Qgtb_true in Hgt. destruct Hcl as (Hs & Hx & He).
    split; [by rewrite Hs|]. exists res. split; [done|]. split; [|done].
    intros Hle. exfalso. by apply (Qlt_not_le _ _ Hgt).
  - apply Qgtb_false in Hgt. destruct Hcl as (Hx & Hcl).
    assert (Hs : status r <> "timeout").
    { destruct (_ =? _)%Z; destruct Hcl as (-> & _); done. }
    split.
    { split; [done|]. intros Hlt. exfalso. by apply (Qlt_not_le _ _ Hlt). }
    exists res. split; [done|]. split.
    2:{ intros Hlt. exfalso. by apply (Qlt_not_le _ _ Hlt). }
    intros _. split; [|split; [done|]].
    + destruct (_ =? _)%Z eqn:Hz; destruct Hcl as (Hst & _); rewrite Hst.
      * by apply Z.eqb_eq in Hz.
      * apply Z.eqb_neq in Hz. split; [done|]. intros. done.
    + intros Hnz. apply Z.eqb_neq in Hnz. by rewrite Hnz in Hcl.
Qed.

Lemma gvisor_decision c cmd timeout start lx wx r l' w' :
  Gvisor.execute_and_stop c cmd timeout start lx wx = (inr r, l', w') ->
  metrics r !! "execution_time_ms" = Some (PyInt (py_int (execution_time_at wx * 1000))) /\
  (status r = "timeout" <-> (inject_Z timeout < execution_time_at wx)%Q) /\
  exists res, exec_answer_at wx = inr res /\
    ((execution_time_at wx <= inject_Z timeout)%Q ->
       (status r = "success" <-> exit_code res = 0%Z) /\
       r_exit_code r = exit_code res /\
       (exit_code res <> 0%Z ->
          status r = "error" /\
          metrics r !! "error" = Some (PyStr ("exit_code_" ++ str_of_Z (exit_code res))))) /\
    ((inject_Z timeout < execution_time_at wx)%Q ->
       status r = "timeout" /\ r_exit_code r = (-1)%Z /\
       metrics r !! "error" = Some (PyStr "timeout")).
Proof.
  intros H.
  destruct (execute_and_stop_inv _ _ _ _ _ _ _ _ _ H)
    as (res & Hres & _ & _ & _ & _ & _ & Hms & Hcl).
  split; [done|].
  destruct (Qgtb _ _) eqn:Hgt.
  - apply Qgtb_true in Hgt. destruct Hcl as (Hs & Hx & He).
    split; [by rewrite Hs|]. exists res. split; [done|]. split; [|done].
    intros Hle. exfalso. by apply (Qlt_not_le _ _ Hgt).
  - apply Qgtb_false in Hgt. destruct Hcl as (Hx & Hcl).
    assert (Hs : status r <> "timeout").
    { destruct (_ =? _)%Z; destruct Hcl as (-> & _); done. }
    split.
    { split; [done|]. intros Hlt. exfalso. by apply (Qlt_not_le _ _ Hlt). }
    exists res. split; [done|]. split.
    2:{ intros Hlt. exfalso. by apply (Qlt_not_le _ _ Hlt). }
    intros _. split; [|split; [done|]].
    + destruct (_ =? _)%Z eqn:Hz; destruct Hcl as (Hst & _); rewrite Hst.
      * by apply Z.eqb_eq in Hz.
      * apply Z.eqb_neq in Hz. split; [done|]. intros. done.
    + intros Hnz. apply Z.eqb_neq in Hnz. by rewrite Hnz in Hcl.
Qed.

(** C5, as amended. For an execution that returns from its [try] body, in
    the world in which its exec begins the engine answers the exec with some
    [res], and the next two clock readings give the measured time. If the
    measured time is within the timeout, the status is success exactly when
    the exit code of [res] is 0, the exit code is reported, and a non-zero
    code n gives status error with the error tag exit_code_n; if the
    measured time exceeds the timeout, the status is timeout with exit code
    -1 and error tag timeout. Both runners. An execution whose [try] body
    raises after the exec, as when the stop of the container fails, is not
    classified this way. *)
Theorem classification_of_completed_runs :
  (forall code language timeout warm start l w r l' w',
     Runner.run_in_docker_try code language timeout warm start l w = (inr r, l', w') ->
     exists res,
       exec_answer_at (docker_exec_world code language warm start l w) = inr res /\
       ((execution_time_at (docker_exec_world code language warm start l w)
           <= inject_Z timeout)%Q ->
          (status r = "success" <-> exit_code res = 0%Z) /\
          r_exit_code r = exit_code res /\
          (exit_code res <> 0%Z ->
             status r = "error" /\
             metrics r !! "error" =
               Some (PyStr ("exit_code_" ++ str_of_Z (exit_code res))))) /\
       ((inject_Z timeout
           < execution_time_at (docker_exec_world code language warm start l w))%Q ->
          status r = "timeout" /\ r_exit_code r = (-1)%Z /\
          metrics r !! "error" = Some (PyStr "timeout"))) /\
  (forall code language timeout start l w r l' w',
     Gvisor.run_in_gvisor_try code language timeout start l w = (inr r, l', w') ->
     exists res,
       exec_answer_at (gvisor_exec_world code language start l w) = inr res /\
       ((execution_time_at (gvisor_exec_world code language start l w)
           <= inject_Z timeout)%Q ->
          (status r = "success" <-> exit_code res = 0%Z) /\
          r_exit_code r = exit_code res /\
          (exit_code res <> 0%Z ->
             status r = "error" /\
             metrics r !! "error" =
               Some (PyStr ("exit_code_" ++ str_of_Z (exit_code res))))) /\
       ((inject_Z timeout
           < execution_time_at (gvisor_exec_world code language start l w))%Q ->
          status r = "timeout" /\ r_exit_code r = (-1)%Z /\
          metrics r !! "error" = Some (PyStr "timeout"))).
Proof.
  split.
  - intros code language timeout warm start l w r l' w' H.
    apply docker_try_returned in H as (c & id & cmd & lx & H).
    by apply docker_decision in H as (_ & _ & H).
  - intros code language timeout start l w r l' w' H.
    apply gvisor_try_returned in H as (c & cmd & lx & H).
    by apply gvisor_decision in H as (_ & _ & H).
Qed.

Lemma classification_of_completed_runs_witness :
  exists r l' w' res,
    Runner.run_in_docker_try "print('Hello, World!')" "python" 30 false 0
      (docker_entry_frame "python" false (cold_world 3 1))
      (entry_world (cold_world 3 1)) = (inr r, l', w') /\
    exec_answer_at (docker_exec_world "print('Hello, World!')" "python" false 0
                      (docker_entry_frame "python" false (cold_world 3 1))
                      (entry_world (cold_world 3 1))) = inr res /\
    exit_code res = 1%Z /\ status r = "error" /\
    metrics r !! "error" = Some (PyStr "exit_code_1").
Proof.
  destruct (Runner.run_in_docker_try "print('Hello, World!')" "python" 30 false 0
              (docker_entry_frame "python" false (cold_world 3 1))
              (entry_world (cold_world 3 1))) as [[[e|r] l'] w'] eqn:E;
    [vm_compute in E; discriminate|].
  destruct (proj1 classification_of_completed_runs _ _ _ _ _ _ _ _ _ _ E)
    as (res & Hres & Hwithin & _).
  assert (Hx : exit_code res = 1%Z).
  { vm_compute in Hres. by injection Hres as <-. }
  destruct Hwithin as (_ & _ & Herr).
  { vm_compute. discriminate. }
  exists r, l', w', res. split; [reflexivity|]. split; [exact Hres|].
  split; [exact Hx|].
  destruct Herr as [Hs He]; [by rewrite Hx|].
  split; [exact Hs|]. by rewrite He, Hx.
Defined.

(** C5, as stated, fails: in [stop_fails_world] the exec of a cold run
    exits with code 0 after 1 s against a timeout of 30 s, then
    [container.stop] raises, and the runner returns status error. *)
Lemma stop_failure_turns_success_into_error :
  ~ (forall code language timeout warm l w r l' w' res,
       Runner.run_in_docker code language timeout warm l w = (inr r, l', w') ->
       exec_answer_at (docker_exec_world_of_run code language warm w) = inr res ->
       (execution_time_at (docker_exec_world_of_run code language warm w)
        <= inject_Z timeout)%Q ->
       (status r = "success" <-> exit_code res = 0%Z)).
Proof.
  intros H.
  destruct (Runner.run_in_docker "print('Hello, World!')" "python" 30 false
              empty_frame stop_fails_world) as [[[e|r] l'] w'] eqn:E;
    [vm_compute in E; discriminate|].
  assert (Hs : status r = "error").
  { vm_compute in E. by injection E as <- _ _. }
  specialize (H _ _ _ _ _ _ _ _ _
                {| exit_code := 0; output := Some (Some (Utf8 "Hello, World!"), None) |}
                E eq_refl).
  destruct H as [_ H]; [vm_compute; discriminate|].
  rewrite Hs in H. by specialize (H eq_refl).
Qed.

(** ** The two exits of a runner *)

Lemma run_in_docker_unfold code language timeout warm l w :
  Runner.run_in_docker code language timeout warm l w =
  match answer (from_env_script w) with
  | Some e => (inl e, l, entry_world w)
  | None =>
      try_except (Runner.run_in_docker_try code language timeout warm (hd 0%Q (clock w)))
                 (Runner.run_in_docker_except warm (hd 0%Q (clock w)))
                 (docker_entry_frame language warm w) (entry_world w)
  end.
Proof.
  unfold Runner.run_in_docker, bind, time_time, docker_from_env. simpl.
  by destruct (answer _).
Qed.

Lemma run_in_gvisor_unfold code language timeout l w :
  Gvisor.run_in_gvisor code language timeout l w =
  match answer (from_env_script w) with
  | Some e => (inl e, l, entry_world w)
  | None =>
      try_except (Gvisor.run_in_gvisor_try code language timeout (hd 0%Q (clock w)))
                 (Gvisor.run_in_gvisor_except (hd 0%Q (clock w)))
                 (gvisor_entry_frame language l w) (entry_world w)
  end.
Proof.
  unfold Gvisor.run_in_gvisor, bind, time_time, docker_from_env. simpl.
  by destruct (answer _).
Qed.

(** the [except] block always returns, with the error result *)
Lemma docker_except_inv warm start e l w :
  exists res l' w',
    Runner.run_in_docker_except warm start e l w = (inr res, l', w') /\
    status res = "error" /\ stdout res = "" /\
    stderr res = "Error executing function: " ++ e /\
    r_exit_code res = (-1)%Z /\
    metrics res = f_metrics l' /\
    f_metrics l' =
      <["error" := PyStr e]>
        (<["total_time_ms" := PyInt (elapsed_ms start (hd 0%Q (clock w)))]> (f_metrics l)) /\
    container_pools w' = container_pools w /\
    next_container w' = next_container w /\
    log w' = (log w ++ match f_container l with
                       | Some c => if warm then [] else [EvStop c]
                       | None => []
                       end)%list.
Proof.
  unfold Runner.run_in_docker_except, bind, get_locals, try_except, container_stop,
    time_time, assign_metric, set_locals, ret.
  destruct (f_container l) as [c|] eqn:Hc; [destruct warm|]; simpl;
    try destruct (answer (stop_script w)); simpl;
    eexists _, _, _; (split; [reflexivity|]); simpl;
    rewrite ?app_nil_r; repeat split; done.
Qed.

Lemma gvisor_except_inv start e l w :
  exists res l' w',
    Gvisor.run_in_gvisor_except start e l w = (inr res, l', w') /\
    status res = "error" /\ stdout res = "" /\
    stderr res = "Error executing function: " ++ e /\
    r_exit_code res = (-1)%Z /\
    metrics res = f_metrics l' /\
    f_metrics l' =
      <["error" := PyStr e]>
        (<["total_time_ms" := PyInt (elapsed_ms start (hd 0%Q (clock w)))]> (f_metrics l)) /\
    container_pools w' = container_pools w /\
    next_container w' = next_container w /\
    log w' = log w.
Proof.
  unfold Gvisor.run_in_gvisor_except, bind, get_locals, time_time, assign_metric,
    set_locals, ret. simpl.
  eexists _, _, _. split; [reflexivity|]. simpl. repeat split; done.
Qed.

Lemma pool_image_unsupported language :
  unsupported language ->
  Pool.get_image_for_language language = inl ("Unsupported language: " ++ language).
Proof.
  intros (H1 & H2 & H3). unfold Pool.get_image_for_language.
  apply String.eqb_neq in H1, H2, H3. by rewrite H1, H2, H3.
Qed.

Lemma gvisor_image_unsupported language :
  unsupported language ->
  Gvisor.get_image_for_language language = inl ("Unsupported language: " ++ language).
Proof.
  intros (H1 & H2 & H3). unfold Gvisor.get_image_for_language.
  apply String.eqb_neq in H1, H2, H3. by rewrite H1, H2, H3.
Qed.

(** an unsupported language makes the [try] body raise before any engine
    call, with the metrics untouched *)
Lemma docker_try_unsupported code language timeout warm start l w :
  unsupported language ->
  exists lx wx,
    Runner.run_in_docker_try code language timeout warm start l w =
      (inl ("Unsupported language: " ++ language), lx, wx) /\
    f_metrics lx = f_metrics l /\ (warm = false -> f_container lx = f_container l) /\
    log wx = log w /\ next_container wx = next_container w.
Proof.
  intros Hu. apply pool_image_unsupported in Hu.
  unfold Runner.run_in_docker_try, Runner.acquire_container, Runner.create_container,
    Pool.get_container_from_pool, Pool.initialize_container_pool.
  destruct warm.
  - unfold bind, call, gets, lift, time_time, Pool.store_bucket, modify, assign_container,
      set_locals. simpl.
    destruct (container_pools w !! Pool.pool_key_of language) as [b|];
      [destruct (containers b)|]; simpl; rewrite Hu; simpl;
      eexists _, _; (split; [reflexivity|]); done.
  - unfold bind, lift. rewrite Hu. eexists _, _. split; [reflexivity|]. done.
Qed.

Lemma gvisor_try_unsupported code language timeout start l w :
  unsupported language ->
  Gvisor.run_in_gvisor_try code language timeout start l w =
    (inl ("Unsupported language: " ++ language), l, w).
Proof.
  intros Hu. apply gvisor_image_unsupported in Hu.
  unfold Gvisor.run_in_gvisor_try, Gvisor.create_container, bind, lift.
  by rewrite Hu.
Qed.

(** C8, as amended. Once [docker.from_env()] has handed out a client, the
    runner always returns a result with a populated metrics block, whatever
    fails afterwards: every exception [e] raised inside the [try] gives
    status error, exit code -1, empty stdout, the stderr
    "Error executing function: e" and the error tag [e]; for an unsupported
    language the timings init and exec are 0, no engine call is made and no
    container is created. Both runners. *)
Theorem failures_in_try_are_returned :
  (forall code language timeout warm l w,
     answer (from_env_script w) = None ->
     exists r l' w',
       Runner.run_in_docker code language timeout warm l w = (inr r, l', w') /\
       populated "docker" language (metrics r) /\
       (forall e lx wx,
          Runner.run_in_docker_try code language timeout warm (hd 0%Q (clock w))
            (docker_entry_frame language warm w) (entry_world w) = (inl e, lx, wx) ->
          status r = "error" /\ r_exit_code r = (-1)%Z /\ stdout r = "" /\
          stderr r = "Error executing function: " ++ e /\
          metrics r !! "error" = Some (PyStr e)) /\
       (unsupported language ->
          status r = "error" /\ r_exit_code r = (-1)%Z /\
          stderr r = "Error executing function: Unsupported language: " ++ language /\
          metrics r !! "error" = Some (PyStr ("Unsupported language: " ++ language)) /\
          metrics r !! "initialization_time_ms" = Some (PyInt 0) /\
          metrics r !! "execution_time_ms" = Some (PyInt 0) /\
          log w' = log w /\ next_container w' = next_container w)) /\
  (forall code language timeout l w,
     answer (from_env_script w) = None ->
     exists r l' w',
       Gvisor.run_in_gvisor code language timeout l w = (inr r, l', w') /\
       populated "gvisor" language (metrics r) /\
       (forall e lx wx,
          Gvisor.run_in_gvisor_try code language timeout (hd 0%Q (clock w))
            (gvisor_entry_frame language l w) (entry_world w) = (inl e, lx, wx) ->
          status r = "error" /\ r_exit_code r = (-1)%Z /\ stdout r = "" /\
          stderr r = "Error executing function: " ++ e /\
          metrics r !! "error" = Some (PyStr e)) /\
       (unsupported language ->
          status r = "error" /\ r_exit_code r = (-1)%Z /\
          stderr r = "Error executing function: Unsupported language: " ++ language /\
          metrics r !! "error" = Some (PyStr ("Unsupported language: " ++ language)) /\
          metrics r !! "initialization_time_ms" = Some (PyInt 0) /\
          metrics r !! "execution_time_ms" = Some (PyInt 0) /\
          log w' = log w /\ next_container w' = next_container w)).
Proof.
  split.
  - intros code language timeout warm l w Hans.
    rewrite run_in_docker_unfold, Hans. unfold try_except.
    pose proof (docker_try_populated code language timeout warm (hd 0%Q (clock w))
                  (docker_entry_frame language warm w) (entry_world w)
                  (populated_initial_docker _ _ _)) as Hpop.
    destruct (Runner.run_in_docker_try _ _ _ _ _ _ _) as [[[e|r] lx] wx] eqn:E;
      simpl in Hpop.
    + destruct (docker_except_inv warm (hd 0%Q (clock w)) e lx wx)
        as (res & l' & w' & -> & Hs & Ho & He & Hx & Hm & Hm' & _ & Hn & Hl).
      exists res, l', w'. split; [done|].
      assert (Hpop' : populated "docker" language (metrics res)).
      { rewrite Hm, Hm'. apply populated_error, populated_timing; [tauto|done]. }
      split; [done|]. split.
      * intros e' lx' wx' E'. inversion E'; subst.
        rewrite Hm, Hm'. by simplify_map_eq.
      * intros Hu.
        destruct (docker_try_unsupported code language timeout warm (hd 0%Q (clock w))
                    (docker_entry_frame language warm w) (entry_world w) Hu)
          as (lu & wu & Eu & Hmu & Hcu & Hlu & Hnu).
        rewrite E in Eu. inversion Eu; subst.
        assert (Hnone : f_container lu = None).
        { destruct warm; [|by apply Hcu].
          clear -E Hu. apply pool_image_unsupported in Hu.
          revert E. unfold Runner.run_in_docker_try, Runner.acquire_container,
            Pool.get_container_from_pool, Pool.initialize_container_pool.
          unfold bind, call, gets, lift, time_time, Pool.store_bucket, modify,
            assign_container, set_locals. simpl.
          destruct (container_pools w !! Pool.pool_key_of language) as [b|];
            [destruct (containers b)|]; simpl; rewrite Hu; simpl;
            by inversion 1. }
        rewrite Hnone in Hl. rewrite app_nil_r in Hl.
        rewrite Hm, Hm', Hmu. simpl.
        simpl in Hlu, Hnu.
        repeat split; try done; try (by simplify_map_eq); congruence.
    + exists r, lx, wx. split; [done|].
      apply docker_try_inr in E as E'. destruct E' as (c & id & cmd & ly & wy & E').
      apply execute_and_release_inv in E' as (res & _ & _ & _ & _ & _ & Hm & _).
      split; [by rewrite Hm|]. split; [intros; discriminate|].
      intros Hu.
      destruct (docker_try_unsupported code language timeout warm (hd 0%Q (clock w))
                  (docker_entry_frame language warm w) (entry_world w) Hu)
        as (lu & wu & Eu & _).
      rewrite E in Eu. discriminate.
  - intros code language timeout l w Hans.
    rewrite run_in_gvisor_unfold, Hans. unfold try_except.
    pose proof (gvisor_try_populated code language timeout (hd 0%Q (clock w))
                  (gvisor_entry_frame language l w) (entry_world w)
                  (populated_initial_gvisor _ _)) as Hpop.
    destruct (Gvisor.run_in_gvisor_try _ _ _ _ _ _) as [[[e|r] lx] wx] eqn:E;
      simpl in Hpop.
    + destruct (gvisor_except_inv (hd 0%Q (clock w)) e lx wx)
        as (res & l' & w' & -> & Hs & Ho & He & Hx & Hm & Hm' & _ & Hn & Hl).
      exists res, l', w'. split; [done|].
      assert (Hpop' : populated "gvisor" language (metrics res)).
      { rewrite Hm, Hm'. apply populated_error, populated_timing; [tauto|done]. }
      split; [done|]. split.
      * intros e' lx' wx' E'. inversion E'; subst.
        rewrite Hm, Hm'. by simplify_map_eq.
      * intros Hu. rewrite gvisor_try_unsupported in E by done.
        inversion E; subst.
        rewrite Hm, Hm'. simpl.
        repeat split; try done; by simplify_map_eq.
    + exists r, lx, wx. split; [done|].
      apply gvisor_try_inr in E as E'. destruct E' as (c & cmd & ly & wy & E').
      apply execute_and_stop_inv in E' as (res & _ & _ & _ & _ & _ & Hm & _).
      split; [by rewrite Hm|]. split; [intros; discriminate|].
      intros Hu. rewrite gvisor_try_unsupported in E by done. discriminate.
Qed.

Lemma failures_in_try_are_returned_witness :
  answer (from_env_script (cold_world 3 0)) = None /\
  exists r l' w',
    Runner.run_in_docker "puts 1" "ruby" 30 true empty_frame (cold_world 3 0)
      = (inr r, l', w') /\
    populated "docker" "ruby" (metrics r).
Proof.
  split; [reflexivity|].
  destruct (proj1 failures_in_try_are_returned "puts 1" "ruby" 30%Z true empty_frame
              (cold_world 3 0) eq_refl) as (r & l' & w' & E & Hp & _).
  exists r, l', w'. split; [exact E | exact Hp].
Defined.

(** C8, as stated, fails: [docker.from_env()] is called before the [try],
    and with the engine unreachable its exception leaves the runner. *)
Lemma from_env_failure_propagates :
  ~ (forall code language timeout warm l w,
       exists r l' w',
         Runner.run_in_docker code language timeout warm l w = (inr r, l', w')).
Proof.
  intros H.
  destruct (H "print(1)" "python" 30%Z true empty_frame daemon_down_world)
    as (r & l' & w' & E).
  vm_compute in E. discriminate.
Qed.

(** every return of a runner: from the [try] body or from the [except] block *)
Lemma run_in_docker_inr code language timeout warm l w r l' w' :
  Runner.run_in_docker code language timeout warm l w = (inr r, l', w') ->
  populated "docker" language (metrics r) /\
  (Runner.run_in_docker_try code language timeout warm (hd 0%Q (clock w))
     (docker_entry_frame language warm w) (entry_world w) = (inr r, l', w') \/
   (status r = "error" /\ r_exit_code r = (-1)%Z /\
    exists e lx wx,
      Runner.run_in_docker_try code language timeout warm (hd 0%Q (clock w))
        (docker_entry_frame language warm w) (entry_world w) = (inl e, lx, wx) /\
      Runner.run_in_docker_except warm (hd 0%Q (clock w)) e lx wx = (inr r, l', w'))).
Proof.
  rewrite run_in_docker_unfold. destruct (answer _); [done|].
  unfold try_except.
  pose proof (docker_try_populated code language timeout warm (hd 0%Q (clock w))
                (docker_entry_frame language warm w) (entry_world w)
                (populated_initial_docker _ _ _)) as Hpop.
  destruct (Runner.run_in_docker_try _ _ _ _ _ _ _) as [[[e|r0] lx] wx] eqn:E;
    simpl in Hpop; intros H.
  - destruct (docker_except_inv warm (hd 0%Q (clock w)) e lx wx)
      as (res & l1 & w1 & E1 & Hs & _ & _ & Hx & Hm & Hm' & _).
    rewrite E1 in H. inversion H; subst. split.
    + rewrite Hm, Hm'. apply populated_error, populated_timing; [tauto|done].
    + right. eauto 10.
  - inversion H; subst. split; [|by left].
    apply docker_try_inr in E as (c & id & cmd & ly & wy & E').
    apply execute_and_release_inv in E' as (res & _ & _ & _ & _ & _ & Hm & _).
    by rewrite Hm.
Qed.

Lemma run_in_gvisor_inr code language timeout l w r l' w' :
  Gvisor.run_in_gvisor code language timeout l w = (inr r, l', w') ->
  populated "gvisor" language (metrics r) /\
  (Gvisor.run_in_gvisor_try code language timeout (hd 0%Q (clock w))
     (gvisor_entry_frame language l w) (entry_world w) = (inr r, l', w') \/
   (status r = "error" /\ r_exit_code r = (-1)%Z /\
    exists e lx wx,
      Gvisor.run_in_gvisor_try code language timeout (hd 0%Q (clock w))
        (gvisor_entry_frame language l w) (entry_world w) = (inl e, lx, wx) /\
      Gvisor.run_in_gvisor_except (hd 0%Q (clock w)) e lx wx = (inr r, l', w'))).
Proof.
  rewrite run_in_gvisor_unfold. destruct (answer _); [done|].
  unfold try_except.
  pose proof (gvisor_try_populated code language timeout (hd 0%Q (clock w))
                (gvisor_entry_frame language l w) (entry_world w)
                (populated_initial_gvisor _ _)) as Hpop.
  destruct (Gvisor.run_in_gvisor_try _ _ _ _ _ _) as [[[e|r0] lx] wx] eqn:E;
    simpl in Hpop; intros H.
  - destruct (gvisor_except_inv (hd 0%Q (clock w)) e lx wx)
      as (res & l1 & w1 & E1 & Hs & _ & _ & Hx & Hm & Hm' & _).
    rewrite E1 in H. inversion H; subst. split.
    + rewrite Hm, Hm'. apply populated_error, populated_timing; [tauto|done].
    + right. eauto 10.
  - inversion H; subst. split; [|by left].
    apply gvisor_try_inr in E as (c & cmd & ly & wy & E').
    apply execute_and_stop_inv in E' as (res & _ & _ & _ & _ & _ & Hm & _).
    by rewrite Hm.
Qed.

(** truncation toward zero against an integer bound *)
Lemma quot_le_bound n d k : (0 < d -> n <= k * d -> n ÷ d <= k)%Z.
Proof.
  intros Hd Hn. destruct (Z_le_gt_dec 0 n) as [Hpos|Hneg].
  - rewrite Z.quot_div_nonneg by lia. apply Z.div_le_upper_bound; lia.
  - replace n with (- (- n))%Z by lia.
    rewrite Z.quot_opp_l, Z.quot_div_nonneg by lia.
    destruct (Z_le_gt_dec 0 k) as [Hk|Hk].
    + assert (0 <= - n / d)%Z by (apply Z.div_pos; lia). lia.
    + assert (- k <= - n / d)%Z by (apply Z.div_le_lower_bound; nia). lia.
Qed.

Lemma quot_ge_bound n d k : (0 < d -> k * d <= n -> k <= n ÷ d)%Z.
Proof.
  intros Hd Hn. destruct (Z_le_gt_dec 0 n) as [Hpos|Hneg].
  - rewrite Z.quot_div_nonneg by lia. apply Z.div_le_lower_bound; lia.
  - replace n with (- (- n))%Z by lia.
    rewrite Z.quot_opp_l, Z.quot_div_nonneg by lia.
    assert (- n / d <= - k)%Z by (apply Z.div_le_upper_bound; nia). lia.
Qed.

Lemma py_int_le q k : (q <= inject_Z k)%Q -> (py_int q <= k)%Z.
Proof.
  destruct q as [n d]. unfold Qle, py_int. simpl. intros H.
  apply quot_le_bound; lia.
Qed.

Lemma py_int_ge q k : (inject_Z k <= q)%Q -> (k <= py_int q)%Z.
Proof.
  destruct q as [n d]. unfold Qle, py_int. simpl. intros H.
  apply quot_ge_bound; lia.
Qed.

Lemma ms_within t timeout :
  (t <= inject_Z timeout)%Q -> (py_int (t * 1000) <= timeout * 1000)%Z.
Proof.
  intros H. apply py_int_le. rewrite inject_Z_mult.
  apply Qmult_le_compat_r; [done|]. by unfold Qle.
Qed.

Lemma ms_exceeded t timeout :
  (inject_Z timeout < t)%Q -> (timeout * 1000 <= py_int (t * 1000))%Z.
Proof.
  intros H. apply py_int_ge. rewrite inject_Z_mult.
  apply Qmult_le_compat_r; [by apply Qlt_le_weak|]. by unfold Qle.
Qed.

(** the status and the measured time of a [try] body that returned *)
(** C1, as amended. The status is decided on the measured time in seconds,
    before it is truncated to milliseconds. So for every result of a runner
    the stored execution_time_ms satisfies: status timeout implies
    execution_time_ms >= timeout*1000, and status success implies
    execution_time_ms <= timeout*1000 (success is never reported for an
    execution that took longer than the timeout). For every result returned
    from the [try] body, with the time measured between the two clock
    readings around the run's own exec: execution_time_ms is that time in
    truncated milliseconds, the status is timeout exactly when that time
    exceeds the timeout, and execution_time_ms > timeout*1000 implies status
    timeout. Both runners. *)
Theorem timeout_status_amended :
  (forall code language timeout warm l w r l' w',
     Runner.run_in_docker code language timeout warm l w = (inr r, l', w') ->
     exists ms, metrics r !! "execution_time_ms" = Some (PyInt ms) /\
       (status r = "timeout" -> timeout * 1000 <= ms)%Z /\
       (status r = "success" -> ms <= timeout * 1000)%Z) /\
  (forall code language timeout l w r l' w',
     Gvisor.run_in_gvisor code language timeout l w = (inr r, l', w') ->
     exists ms, metrics r !! "execution_time_ms" = Some (PyInt ms) /\
       (status r = "timeout" -> timeout * 1000 <= ms)%Z /\
       (status r = "success" -> ms <= timeout * 1000)%Z) /\
  (forall code language timeout warm start l w r l' w',
     Runner.run_in_docker_try code language timeout warm start l w = (inr r, l', w') ->
     metrics r !! "execution_time_ms" =
       Some (PyInt (py_int (execution_time_at
                              (docker_exec_world code language warm start l w) * 1000))) /\
     (status r = "timeout" <->
        (inject_Z timeout
           < execution_time_at (docker_exec_world code language warm start l w))%Q) /\
     (timeout * 1000
        < py_int (execution_time_at (docker_exec_world code language warm start l w) * 1000)
      -> status r = "timeout")%Z) /\
  (forall code language timeout start l w r l' w',
     Gvisor.run_in_gvisor_try code language timeout start l w = (inr r, l', w') ->
     metrics r !! "execution_time_ms" =
       Some (PyInt (py_int (execution_time_at
                              (gvisor_exec_world code language start l w) * 1000))) /\
     (status r = "timeout" <->
        (inject_Z timeout
           < execution_time_at (gvisor_exec_world code language start l w))%Q) /\
     (timeout * 1000
        < py_int (execution_time_at (gvisor_exec_world code language start l w) * 1000)
      -> status r = "timeout")%Z).
Proof.
  split; [|split; [|split]].
  - intros code language timeout warm l w r l' w' H.
    apply run_in_docker_inr in H as (Hpop & [H|(Hs & _)]).
    + apply docker_try_returned in H as (c & id & cmd & lx & H).
      apply docker_decision in H as (Hms & Ht & res & _ & Hin & _).
      eexists. split; [exact Hms|]. split.
      * intros Hst. apply ms_exceeded. by apply Ht.
      * intros Hst. apply ms_within. apply Qnot_lt_le. intros Hlt.
        apply Ht in Hlt. congruence.
    + destruct Hpop as (_ & _ & _ & _ & (ms & Hms) & _).
      exists ms. split; [done|]. rewrite Hs. split; done.
  - intros code language timeout l w r l' w' H.
    apply run_in_gvisor_inr in H as (Hpop & [H|(Hs & _)]).
    + apply gvisor_try_returned in H as (c & cmd & lx & H).
      apply gvisor_decision in H as (Hms & Ht & res & _ & Hin & _).
      eexists. split; [exact Hms|]. split.
      * intros Hst. apply ms_exceeded. by apply Ht.
      * intros Hst. apply ms_within. apply Qnot_lt_le. intros Hlt.
        apply Ht in Hlt. congruence.
    + destruct Hpop as (_ & _ & _ & _ & (ms & Hms) & _).
      exists ms. split; [done|]. rewrite Hs. split; done.
  - intros code language timeout warm start l w r l' w' H.
    apply docker_try_returned in H as (c & id & cmd & lx & H).
    apply docker_decision in H as (Hms & Ht & _).
    split; [done|]. split; [done|]. intros Hlt. apply Ht.
    apply Qnot_le_lt. intros Hle. apply ms_within in Hle. lia.
  - intros code language timeout start l w r l' w' H.
    apply gvisor_try_returned in H as (c & cmd & lx & H).
    apply gvisor_decision in H as (Hms & Ht & _).
    split; [done|]. split; [done|]. intros Hlt. apply Ht.
    apply Qnot_le_lt. intros Hle. apply ms_within in Hle. lia.
Qed.

Lemma timeout_status_amended_witness :
  exists r l' w',
    Runner.run_in_docker_try "import time; time.sleep(40)" "python" 30 false 0
      (docker_entry_frame "python" false (cold_world (320005 # 10000) 0))
      (entry_world (cold_world (320005 # 10000) 0)) = (inr r, l', w') /\
    execution_time_at
      (docker_exec_world "import time; time.sleep(40)" "python" false 0
         (docker_entry_frame "python" false (cold_world (320005 # 10000) 0))
         (entry_world (cold_world (320005 # 10000) 0))) = (300005 # 10000)%Q /\
    status r = "timeout" /\
    metrics r !! "execution_time_ms" = Some (PyInt 30000).
Proof.
  destruct (Runner.run_in_docker_try "import time; time.sleep(40)" "python" 30 false 0
              (docker_entry_frame "python" false (cold_world (320005 # 10000) 0))
              (entry_world (cold_world (320005 # 10000) 0)))
    as [[[e|r] l'] w'] eqn:E; [vm_compute in E; discriminate|].
  destruct (proj1 (proj2 (proj2 timeout_status_amended)) _ _ _ _ _ _ _ _ _ _ E)
    as (Hms & Ht & _).
  exists r, l', w'. split; [reflexivity|]. split; [vm_compute; reflexivity|].
  split; [apply Ht; vm_compute; reflexivity|].
  rewrite Hms. vm_compute. reflexivity.
Defined.

(** C1, as stated, fails: an exec measured at 30.0005 s against a timeout of
    30 s is classified timeout, and its execution_time_ms is 30000, which
    does not exceed 30 * 1000. *)
Lemma timeout_boundary_counterexample :
  ~ (forall code language timeout warm l w r l' w' ms,
       Runner.run_in_docker code language timeout warm l w = (inr r, l', w') ->
       metrics r !! "execution_time_ms" = Some (PyInt ms) ->
       (status r = "timeout" <-> (timeout * 1000 < ms)%Z)).
Proof.
  intros H.
  destruct (Runner.run_in_docker "import time; time.sleep(40)" "python" 30 false
              empty_frame (cold_world (320005 # 10000) 0)) as [[[e|r] l'] w'] eqn:E;
    [vm_compute in E; discriminate|].
  pose proof E as E'. vm_compute in E'. inversion E'; subst; clear E'.
  specialize (H _ _ _ _ _ _ _ _ _ 30000%Z E eq_refl).
  simpl in H. destruct H as [H _]. specialize (H eq_refl). lia.
Qed.

End RunnerFacts.

(** ** The rows the platform records *)

Module RecordFacts.
Import Metrics MetricsProps MetricsFacts RunnerProps RunnerFacts.

Lemma docker_status code language timeout warm l w r l' w' :
  Runner.run_in_docker code language timeout warm l w = (inr r, l', w') ->
  Exec.status r = "success" \/ Exec.status r = "error" \/ Exec.status r = "timeout".
Proof.
  intros H. apply run_in_docker_inr in H as (_ & [H|(Hs & _)]); [|tauto].
  apply docker_try_inr in H as (c & id & cmd & lx & wx & H).
  apply execute_and_release_inv in H as (res & _ & _ & _ & _ & _ & _ & _ & Hcl).
  destruct (Qgtb _ _); [tauto|]. destruct Hcl as (_ & Hcl).
  destruct (_ =? _)%Z; tauto.
Qed.

Lemma gvisor_status code language timeout l w r l' w' :
  Gvisor.run_in_gvisor code language timeout l w = (inr r, l', w') ->
  Exec.status r = "success" \/ Exec.status r = "error" \/ Exec.status r = "timeout".
Proof.
  intros H. apply run_in_gvisor_inr in H as (_ & [H|(Hs & _)]); [|tauto].
  apply gvisor_try_inr in H as (c & cmd & lx & wx & H).
  apply execute_and_stop_inv in H as (res & _ & _ & _ & _ & _ & _ & _ & Hcl).
  destruct (Qgtb _ _); [tauto|]. destruct Hcl as (_ & Hcl).
  destruct (_ =? _)%Z; tauto.
Qed.

(** the row saved from a result with a populated metrics block *)
Lemma saved_row rt lang db now name r :
  populated rt lang (Exec.metrics r) ->
  exists m, save_execution_metrics db now name r = (db ++ [m])%list /\
    status m = Exec.status r /\ timed m /\ cold_start m = true /\
    runtime m = Some rt.
Proof.
  intros (Hrt & _ & _ & _ & (e & He) & (t & Ht) & _ & Hc).
  eexists. split; [reflexivity|]. simpl.
  unfold timed, dict_get. simpl. rewrite He, Ht, Hc, Hrt. simpl.
  repeat split; eauto.
Qed.

(** what holds of every row the platform records *)
Lemma recorded_rows db :
  recorded db ->
  Forall (fun m => classified m /\ timed m /\ cold_start m = true) db.
Proof.
  induction 1 as [|db now name code language timeout warm fr w r fr' w' _ IH H
                  |db now name code language timeout fr w r fr' w' _ IH H].
  - constructor.
  - pose proof (docker_status _ _ _ _ _ _ _ _ _ H) as Hs.
    apply run_in_docker_inr in H as (Hp & _).
    destruct (saved_row _ _ db now name r Hp) as (m & -> & Hm & Ht & Hc & _).
    apply Forall_app. split; [done|]. constructor; [|done].
    unfold classified. rewrite Hm. done.
  - pose proof (gvisor_status _ _ _ _ _ _ _ _ H) as Hs.
    apply run_in_gvisor_inr in H as (Hp & _).
    destruct (saved_row _ _ db now name r Hp) as (m & -> & Hm & Ht & Hc & _).
    apply Forall_app. split; [done|]. constructor; [|done].
    unfold classified. rewrite Hm. done.
Qed.



Lemma recorded_sample_db : recorded sample_db.
Proof.
  unfold sample_db.
  destruct (Runner.run_in_docker _ _ _ _ _ _) as [[[e|r] l'] w'] eqn:E.
  - constructor.
  - eapply recorded_docker; [constructor | exact E].
Defined.






(** C3, on the code. No runner writes a ['cold_start'] key (they write
    ['warm_start']), and [save_execution_metrics] reads ['cold_start'] with
    the default [True]: every recorded row has cold_start = true. In
    particular the warm run below takes the idle container 7 from the pool,
    creates no container, and is recorded as a cold start. *)
Theorem warm_reuse_is_recorded_as_cold_start :
  (forall db, recorded db -> Forall (fun m => cold_start m = true) db) /\
  exists r l' w',
    Runner.run_in_docker "print('Hello, World!')" "python" 30 true empty_frame
      pooled_world = (inr r, l', w') /\
    Exec.status r = "success" /\
    Exec.metrics r !! "warm_start" = Some (PyBool true) /\
    log w' =
      [EvSpawn "python" "python:3.9-slim";
       EvCopy 7 "/tmp/function_1b9d6bcd-bbfd-4b2d.py"
                "/app/function_1b9d6bcd-bbfd-4b2d.py";
       EvExec 7 "python /app/function_1b9d6bcd-bbfd-4b2d.py";
       EvExec 7 "rm -f /app/function_1b9d6bcd-bbfd-4b2d.*"] /\
    Forall (fun m => cold_start m = true)
           (save_execution_metrics [] 100 "hello" r).
Proof.
  split.
  - intros db Hrec. eapply Forall_impl; [exact (recorded_rows db Hrec)|].
    by intros m (_ & _ & ?).
  - destruct (Runner.run_in_docker _ _ _ _ _ pooled_world) as [[[e|r] l'] w'] eqn:E;
      [vm_compute in E; discriminate|].
    exists r, l', w'. split; [done|].
    vm_compute in E. inversion E; subst; clear E.
    repeat split; try reflexivity. by repeat constructor.
Qed.

Lemma warm_reuse_is_recorded_as_cold_start_witness :
  recorded sample_db /\ Forall (fun m => cold_start m = true) sample_db.
Proof.
  split; [exact recorded_sample_db|].
  exact (proj1 warm_reuse_is_recorded_as_cold_start sample_db recorded_sample_db).
Defined.

End RecordFacts.

(** ** The comparator *)

Module MainFacts.
Import Main MainProps.

Lemma and_then_inr {A B} (r : string + A) (k : A -> string + B) b :
  and_then r k = inr b -> exists a, r = inr a /\ k a = inr b.
Proof. destruct r as [e|a]; simpl; [done|]. eauto. Qed.










End MainFacts.

(** ** The warm pool *)

Module PoolFacts.
Import Pool PoolProps MonadFacts.

(** *** Computations that leave the pools alone *)

Lemma stable_ret {L A} (a : A) : pools_stable (@ret L A a).
Proof. by intros l w. Qed.

Lemma stable_raise {L A} e : pools_stable (@raise L A e).
Proof. by intros l w. Qed.

Lemma stable_lift {L A} (r : string + A) : pools_stable (@lift L A r).
Proof. by intros l w. Qed.

Lemma stable_gets {L A} (f : World -> A) : pools_stable (@gets L A f).
Proof. by intros l w. Qed.

Lemma stable_get_locals {L} : pools_stable (@get_locals L).
Proof. by intros l w. Qed.

Lemma stable_set_locals {L} (f : L -> L) : pools_stable (set_locals f).
Proof. by intros l w. Qed.

Lemma stable_assign_container c : pools_stable (assign_container c).
Proof. by intros l w. Qed.

Lemma stable_assign_metric k v : pools_stable (assign_metric k v).
Proof. by intros l w. Qed.

Lemma stable_time {L} : pools_stable (@time_time L).
Proof. by intros l w. Qed.

Lemma stable_uuid4 {L} : pools_stable (@uuid4 L).
Proof. by intros l w. Qed.

Lemma stable_from_env {L} : pools_stable (@docker_from_env L).
Proof. intros l w. unfold docker_from_env. by destruct (answer _). Qed.

Lemma stable_run {L} image name rt : pools_stable (@containers_run L image name rt).
Proof. intros l w. unfold containers_run. by destruct (answer _). Qed.

Lemma stable_stop {L} c : pools_stable (@container_stop L c).
Proof. intros l w. unfold container_stop. by destruct (answer _). Qed.

Lemma stable_exec {L} c cmd : pools_stable (@container_exec_run L c cmd).
Proof. intros l w. unfold container_exec_run. by destruct (hd _ _). Qed.

Lemma stable_fs {L} : pools_stable (@fs_call L).
Proof. intros l w. unfold fs_call. by destruct (answer _). Qed.

Lemma stable_cp {L} src c dst : pools_stable (@os_system_docker_cp L src c dst).
Proof. by intros l w. Qed.

Lemma stable_thread_start {L} language image : pools_stable (@thread_start L language image).
Proof. by intros l w. Qed.

Lemma stable_decode {L} b : pools_stable (@decode_or_empty L b).
Proof.
  intros l w. destruct (decode_or_empty b l w) as [[r l'] w'] eqn:E.
  apply decode_or_empty_pure in E as [_ ->]. done.
Qed.

Lemma stable_bind {L A B} (m : M L A) (k : A -> M L B) :
  pools_stable m -> (forall a, pools_stable (k a)) -> pools_stable (bind m k).
Proof.
  intros Hm Hk l w. unfold bind. specialize (Hm l w).
  destruct (m l w) as [[[e|a] l1] w1]; simpl in *; [done|].
  by rewrite Hk.
Qed.

Lemma stable_try {L A} (m : M L A) (h : string -> M L A) :
  pools_stable m -> (forall e, pools_stable (h e)) -> pools_stable (try_except m h).
Proof.
  intros Hm Hh l w. unfold try_except. specialize (Hm l w).
  destruct (m l w) as [[[e|a] l1] w1]; simpl in *; [|done].
  by rewrite Hh.
Qed.

Lemma stable_stop_all {L} cs : pools_stable (@stop_all L cs).
Proof.
  induction cs as [|cd cs IH]; simpl; [apply stable_ret|].
  apply stable_bind; [|done].
  apply stable_try; [apply stable_stop|intros; apply stable_ret].
Qed.

Lemma stable_expired_pools {L} t items : pools_stable (@expired_pools L t items).
Proof.
  induction items as [|[k b] items IH]; simpl; [apply stable_ret|].
  destruct (Qgtb _ _); [|done].
  apply stable_bind; [apply stable_stop_all|intros _].
  apply stable_bind; [done|intros; apply stable_ret].
Qed.

(** *** The four locked blocks keep the bound *)

Lemma bounded_insert w pool_key b :
  pool_bounded w -> (length (containers b) <= max_pool_size)%nat ->
  forall k b', <[pool_key := b]> (container_pools w) !! k = Some b' ->
    (length (containers b') <= max_pool_size)%nat.
Proof.
  intros Hw Hb k b'. rewrite lookup_insert. case_decide; [|apply Hw].
  by inversion 1; subst.
Qed.

Lemma add_locked_bounded {L} pool_key c (l : L) w :
  pool_bounded w -> pool_bounded (add_container_locked pool_key c l w).2.
Proof.
  intros Hw. unfold add_container_locked, bind, gets. simpl.
  destruct (container_pools w !! pool_key) as [b|] eqn:Hb; [|done].
  destruct (length (containers b) <? max_pool_size)%nat eqn:Hlt.
  - apply Nat.ltb_lt in Hlt. simpl. intros k b'. simpl.
    apply bounded_insert; [done|]. simpl. rewrite length_app. simpl. lia.
  - intros k b'. rewrite stable_stop. apply Hw.
Qed.

Lemma initialize_locked_bounded {L} pool_key (l : L) w :
  pool_bounded w -> pool_bounded (initialize_locked pool_key l w).2.
Proof.
  intros Hw. unfold initialize_locked, bind, gets. simpl.
  destruct (container_pools w !! pool_key) as [b|] eqn:Hb; [done|].
  simpl. intros k b'. simpl. apply bounded_insert; [done|]. simpl. lia.
Qed.

Lemma get_container_bounded language l w :
  pool_bounded w -> pool_bounded (get_container_from_pool language l w).2.
Proof.
  intros Hw. unfold get_container_from_pool, bind, gets. simpl.
  destruct (container_pools w !! pool_key_of language) as [b|] eqn:Hb; [|done].
  destruct (containers b) as [|cd rest] eqn:Hc; [done|].
  simpl. unfold lift.
  assert (Hrest : (length rest <= max_pool_size)%nat).
  { specialize (Hw _ _ Hb). rewrite Hc in Hw. simpl in Hw. lia. }
  destruct (get_image_for_language language) as [e|image]; simpl;
    intros k b'; simpl; by apply bounded_insert.
Qed.

Lemma delete_pools_lookup ks (p : gmap string Bucket) k b :
  delete_pools ks p !! k = Some b -> p !! k = Some b.
Proof.
  induction ks as [|k' ks IH]; simpl; [done|].
  intros H. apply lookup_delete_Some in H as [_ H]. by apply IH.
Qed.

Lemma clean_locked_bounded {L} t (l : L) w :
  pool_bounded w -> pool_bounded (clean_locked t l w).2.
Proof.
  intros Hw. unfold clean_locked, bind, gets. simpl.
  pose proof (@stable_expired_pools L t (map_to_list (container_pools w)) l w) as Hs.
  destruct (expired_pools t _ l w) as [[[e|ks] l1] w1]; simpl in *.
  - intros k b. rewrite Hs. apply Hw.
  - intros k b H. simpl in H. rewrite Hs in H.
    apply delete_pools_lookup in H. by apply (Hw k).
Qed.

Lemma step_bounded w w' : pool_step w w' -> pool_bounded w -> pool_bounded w'.
Proof.
  destruct 1 as [pool_key c w|pool_key w|language w|t w|w w' Hp]; intros Hw.
  - by apply add_locked_bounded.
  - by apply initialize_locked_bounded.
  - by apply get_container_bounded.
  - by apply clean_locked_bounded.
  - intros k b. rewrite Hp. apply Hw.
Qed.

Lemma steps_bounded w w' : rtc pool_step w w' -> pool_bounded w -> pool_bounded w'.
Proof. induction 1; eauto using step_bounded. Qed.

Lemma reachable_bounded w : reachable w -> pool_bounded w.
Proof.
  intros (w0 & H0 & Hsteps). apply (steps_bounded w0); [done|].
  intros k b. by rewrite H0, lookup_empty.
Qed.

(** *** Every run of the code is a sequence of steps *)

Lemma traces_of_stable {L A} (m : M L A) : pools_stable m -> traces m.
Proof. intros Hm l w. apply rtc_once, step_unlocked, Hm. Qed.

Lemma traces_bind {L A B} (m : M L A) (k : A -> M L B) :
  traces m -> (forall a, traces (k a)) -> traces (bind m k).
Proof.
  intros Hm Hk l w. unfold bind. specialize (Hm l w).
  destruct (m l w) as [[[e|a] l1] w1]; simpl in *; [done|].
  etrans; [exact Hm|apply Hk].
Qed.

Lemma traces_try {L A} (m : M L A) (h : string -> M L A) :
  traces m -> (forall e, traces (h e)) -> traces (try_except m h).
Proof.
  intros Hm Hh l w. unfold try_except. specialize (Hm l w).
  destruct (m l w) as [[[e|a] l1] w1]; simpl in *; [|done].
  etrans; [exact Hm|apply Hh].
Qed.

Lemma traces_call {L L' A} (callee : M L' A) (l0 : L') :
  traces callee -> traces (@call L L' A callee l0).
Proof.
  intros Hc l w. unfold call. specialize (Hc l0 w).
  by destruct (callee l0 w) as [[r l1] w1].
Qed.

Lemma traces_add_locked pool_key c : traces (@add_container_locked unit pool_key c).
Proof. intros [] w. apply rtc_once, step_add. Qed.

Lemma traces_initialize_locked pool_key : traces (@initialize_locked unit pool_key).
Proof. intros [] w. apply rtc_once, step_initialize. Qed.

Lemma traces_get_container language : traces (get_container_from_pool language).
Proof. intros [] w. apply rtc_once, step_get. Qed.

Lemma traces_clean_locked t : traces (@clean_locked unit t).
Proof. intros [] w. apply rtc_once, step_clean. Qed.

End PoolFacts.

Create HintDb stable.

#[export] Hint Resolve
  PoolFacts.stable_ret PoolFacts.stable_raise PoolFacts.stable_lift
  PoolFacts.stable_gets PoolFacts.stable_get_locals PoolFacts.stable_set_locals
  PoolFacts.stable_assign_container PoolFacts.stable_assign_metric
  PoolFacts.stable_time PoolFacts.stable_uuid4 PoolFacts.stable_from_env
  PoolFacts.stable_run PoolFacts.stable_stop PoolFacts.stable_exec
  PoolFacts.stable_fs PoolFacts.stable_cp PoolFacts.stable_thread_start
  PoolFacts.stable_decode : stable.

Ltac traces_step :=
  lazymatch goal with
  | |- PoolProps.traces (bind _ _) => apply PoolFacts.traces_bind; [|intros ?]
  | |- PoolProps.traces (try_except _ _) => apply PoolFacts.traces_try; [|intros ?]
  | |- PoolProps.traces (call _ _) => apply PoolFacts.traces_call
  | |- PoolProps.traces (Pool.add_container_locked _ _) => apply PoolFacts.traces_add_locked
  | |- PoolProps.traces (Pool.initialize_locked _) => apply PoolFacts.traces_initialize_locked
  | |- PoolProps.traces (Pool.get_container_from_pool _) => apply PoolFacts.traces_get_container
  | |- PoolProps.traces (Pool.clean_locked _) => apply PoolFacts.traces_clean_locked
  | |- PoolProps.traces (match ?x with _ => _ end) => destruct x
  | |- PoolProps.traces _ =>
      apply PoolFacts.traces_of_stable; solve [auto with stable]
  end.

Module PoolRuns.
Import Pool PoolProps MonadFacts PoolFacts.

Lemma add_container_to_pool_traces language image :
  traces (add_container_to_pool language image).
Proof. unfold add_container_to_pool. repeat traces_step. Qed.

Lemma initialize_container_pool_traces language :
  traces (initialize_container_pool language).
Proof.
  unfold initialize_container_pool.
  repeat first [ apply traces_call, add_container_to_pool_traces | traces_step ].
Qed.

Lemma clean_expired_pools_traces : traces clean_expired_pools.
Proof. unfold clean_expired_pools. repeat traces_step. Qed.

Lemma run_in_docker_traces code language timeout warm :
  traces (Runner.run_in_docker code language timeout warm).
Proof.
  unfold Runner.run_in_docker, Runner.run_in_docker_try, Runner.run_in_docker_except,
    Runner.acquire_container, Runner.create_container, Runner.stage_code,
    Runner.execute_and_release, Runner.classify, Runner.release_container.
  repeat first [ apply traces_call, initialize_container_pool_traces | traces_step ].
Qed.

Lemma run_in_gvisor_traces code language timeout :
  traces (Gvisor.run_in_gvisor code language timeout).
Proof.
  unfold Gvisor.run_in_gvisor, Gvisor.run_in_gvisor_try, Gvisor.run_in_gvisor_except,
    Gvisor.create_container, Gvisor.stage_code, Gvisor.execute_and_stop, Gvisor.classify.
  repeat traces_step.
Qed.

Lemma save_traces name r : traces (Main.save_execution_metrics name r).
Proof. unfold Main.save_execution_metrics, Main.utcnow. repeat traces_step. Qed.

Lemma docker_loop_traces func name indices : traces (Main.docker_loop func name indices).
Proof.
  induction indices as [|i indices IH]; simpl; [repeat traces_step|].
  repeat first [ apply traces_call, run_in_docker_traces | apply save_traces
               | exact IH | traces_step ].
Qed.

Lemma gvisor_loop_traces func name indices : traces (Main.gvisor_loop func name indices).
Proof.
  induction indices as [|i indices IH]; simpl; [repeat traces_step|].
  repeat first [ apply traces_call, run_in_gvisor_traces | apply save_traces
               | exact IH | traces_step ].
Qed.

Lemma compare_runtimes_traces name n : traces (Main.compare_runtimes name n).
Proof.
  unfold Main.compare_runtimes, Main.query_function.
  repeat first [ apply docker_loop_traces | apply gvisor_loop_traces | traces_step ].
Qed.

Lemma execute_function_traces name params : traces (Main.execute_function name params).
Proof.
  unfold Main.execute_function, Main.query_function. cbv zeta.
  apply traces_bind; [repeat traces_step|intros [func|]]; [|repeat traces_step].
  apply traces_try; [|intros e; repeat traces_step].
  apply traces_bind.
  - destruct (String.eqb _ _);
      [apply traces_call, run_in_gvisor_traces | apply traces_call, run_in_docker_traces].
  - intros result. apply traces_bind; [apply save_traces|intros _; repeat traces_step].
Qed.

Lemma reachable_after {L A} (m : M L A) l w :
  traces m -> reachable w -> reachable (m l w).2.
Proof.
  intros Hm (w0 & H0 & Hs). exists w0. split; [done|].
  etrans; [exact Hs|apply Hm].
Qed.

(** a replenishment that finds its bucket full *)
Lemma add_to_full_bucket language image w b :
  container_pools w !! pool_key_of language = Some b ->
  (max_pool_size <= length (containers b))%nat ->
  container_pools (add_container_to_pool language image tt w).2 = container_pools w /\
  (answer (from_env_script w) = None -> answer (run_script w) = None ->
   log (add_container_to_pool language image tt w).2 =
     (log w ++ [EvRun image ("function-" ++ language ++ "-" ++ prefix 8 (hd "" (uuids w)))
                    None (next_container w);
                EvStop (next_container w)])%list).
Proof.
  intros Hb Hfull. apply Nat.ltb_ge in Hfull.
  unfold add_container_to_pool, add_container_locked.
  unfold bind, try_except, docker_from_env, uuid4, containers_run, gets,
    container_stop, ret.
  simpl.
  destruct (answer (from_env_script w)); simpl; [split; [done|]; intros; done|].
  destruct (answer (run_script w)); simpl; [split; [done|]; intros; done|].
  rewrite Hb, Hfull.
  simpl. destruct (answer (stop_script w)); simpl;
    (split; [done|]); intros _ _; by rewrite <- app_assoc.
Qed.

Lemma full_world_reachable : reachable full_world.
Proof.
  exists boot_world. split; [reflexivity|]. unfold full_world. cbv beta zeta.
  do 5 (etrans; [|apply add_container_to_pool_traces]).
  apply rtc_once, step_initialize.
Defined.

(** C9. In every world the process can reach, whatever the interleaving of
    the threads, every bucket holds at most max_pool_size (5) idle
    containers, and it still does after any run of the replenishment, of
    the pool initialisation, of the sweep, of either runner or of the
    comparator. A replenishment that finds its bucket full leaves the pools
    as they are and, when the engine created its container, the last two
    engine calls are that creation and the stop of that very container. *)
Theorem pool_never_exceeds_max_size w :
  reachable w ->
  pool_bounded w /\
  (forall language image,
     pool_bounded (add_container_to_pool language image tt w).2) /\
  (forall language, pool_bounded (initialize_container_pool language tt w).2) /\
  pool_bounded (clean_expired_pools tt w).2 /\
  (forall code language timeout warm l,
     pool_bounded (Runner.run_in_docker code language timeout warm l w).2) /\
  (forall code language timeout l,
     pool_bounded (Gvisor.run_in_gvisor code language timeout l w).2) /\
  (forall name n db, pool_bounded (Main.compare_runtimes name n db w).2) /\
  (forall language image b,
     container_pools w !! pool_key_of language = Some b ->
     length (containers b) = max_pool_size ->
     container_pools (add_container_to_pool language image tt w).2 = container_pools w /\
     (answer (from_env_script w) = None -> answer (run_script w) = None ->
      log (add_container_to_pool language image tt w).2 =
        (log w ++ [EvRun image ("function-" ++ language ++ "-" ++ prefix 8 (hd "" (uuids w)))
                       None (next_container w);
                   EvStop (next_container w)])%list)).
Proof.
  intros Hw. split; [by apply reachable_bounded|].
  repeat split.
  - intros. apply reachable_bounded, reachable_after; [apply add_container_to_pool_traces|done].
  - intros. apply reachable_bounded, reachable_after; [apply initialize_container_pool_traces|done].
  - apply reachable_bounded, reachable_after; [apply clean_expired_pools_traces|done].
  - intros. apply reachable_bounded, reachable_after; [apply run_in_docker_traces|done].
  - intros. apply reachable_bounded, reachable_after; [apply run_in_gvisor_traces|done].
  - intros. apply reachable_bounded, reachable_after; [apply compare_runtimes_traces|done].
  - eapply add_to_full_bucket; [done|lia].
  - eapply add_to_full_bucket; [done|lia].
Qed.

Lemma pool_never_exceeds_max_size_witness :
  reachable full_world /\
  pool_bounded full_world /\
  (exists b, container_pools full_world !! "python_pool" = Some b /\
             length (containers b) = 5%nat) /\
  container_pools (add_container_to_pool "python" "python:3.9-slim" tt full_world).2
    = container_pools full_world.
Proof.
  split; [exact full_world_reachable|].
  destruct (pool_never_exceeds_max_size full_world full_world_reachable)
    as (Hb & _ & _ & _ & _ & _ & _ & Hfull).
  split; [exact Hb|].
  destruct (container_pools full_world !! "python_pool") as [b|] eqn:E;
    [|vm_compute in E; discriminate].
  assert (Hlen : length (containers b) = 5%nat).
  { vm_compute in E. injection E as <-. reflexivity. }
  split; [exists b; split; [reflexivity | exact Hlen]|].
  exact (proj1 (Hfull "python" "python:3.9-slim" b E Hlen)).
Defined.

End PoolRuns.

(** * Further properties of the code *)

(** ** The warm pool, operation by operation *)

Module PoolOpsFacts.
Import Pool PoolProps PoolOps MonadFacts PoolFacts.

Lemma get_container_miss language w :
  (container_pools w !! pool_key_of language = None \/
   exists b, container_pools w !! pool_key_of language = Some b /\ containers b = []) ->
  get_container_from_pool language tt w = (inr None, tt, w).
Proof.
  unfold get_container_from_pool, bind, gets. simpl.
  intros [->|(b & -> & ->)]; done.
Qed.

Lemma get_container_hit language image w b cd rest :
  container_pools w !! pool_key_of language = Some b ->
  containers b = cd :: rest ->
  get_image_for_language language = inr image ->
  get_container_from_pool language tt w =
    (inr (Some (pc_container cd)), tt,
     add_event (EvSpawn language image)
       (set_pools (<[pool_key_of language :=
                      {| containers := rest; last_accessed := hd 0%Q (clock w) |}]>
                     (container_pools w))
          (set_clock (tl (clock w)) w))).
Proof.
  intros Hb Hc Hi.
  unfold get_container_from_pool, bind, gets, time_time, store_bucket, modify, lift,
    thread_start, ret. simpl.
  rewrite Hb, Hc. simpl. rewrite Hi. done.
Qed.

(** X1. A checkout returns no container exactly when the language has no
    bucket or an empty one, and then it changes nothing: no timestamp is
    touched and no replenishment is started. *)
Theorem checkout_miss_changes_nothing language w :
  (forall l' w',
     get_container_from_pool language tt w = (inr None, l', w') ->
     w' = w /\
     (container_pools w !! pool_key_of language = None \/
      exists b, container_pools w !! pool_key_of language = Some b /\ containers b = [])) /\
  ((container_pools w !! pool_key_of language = None \/
    exists b, container_pools w !! pool_key_of language = Some b /\ containers b = []) ->
   get_container_from_pool language tt w = (inr None, tt, w)).
Proof.
  split; [|apply get_container_miss].
  intros l' w' H.
  assert (Hm : container_pools w !! pool_key_of language = None \/
               exists b, container_pools w !! pool_key_of language = Some b /\
                         containers b = []).
  { revert H. unfold get_container_from_pool, bind, gets. simpl.
    destruct (container_pools w !! pool_key_of language) as [b|] eqn:Hb; [|by left].
    destruct (containers b) as [|cd rest] eqn:Hc; [right; by exists b|].
    simpl. unfold lift. destruct (get_image_for_language language); simpl; discriminate. }
  split; [|done].
  rewrite (get_container_miss _ _ Hm) in H. by inversion H.
Qed.

Lemma checkout_miss_changes_nothing_witness :
  get_container_from_pool "python" tt boot_world = (inr None, tt, boot_world).
Proof.
  apply (proj2 (checkout_miss_changes_nothing "python" boot_world)).
  left. reflexivity.
Defined.

(** X2. A checkout that finds idle containers hands out the oldest one,
    leaves the others in the bucket in their order, stamps the bucket with
    the time of the call, leaves every other bucket alone and starts one
    replenishment thread. *)
Theorem checkout_hands_out_the_oldest language image w b cd rest :
  container_pools w !! pool_key_of language = Some b ->
  containers b = cd :: rest ->
  get_image_for_language language = inr image ->
  exists w',
    get_container_from_pool language tt w = (inr (Some (pc_container cd)), tt, w') /\
    container_pools w' !! pool_key_of language =
      Some {| containers := rest; last_accessed := hd 0%Q (clock w) |} /\
    (forall k, k <> pool_key_of language ->
       container_pools w' !! k = container_pools w !! k) /\
    log w' = (log w ++ [EvSpawn language image])%list.
Proof.
  intros Hb Hc Hi. eexists. split; [by eapply get_container_hit|]. simpl.
  split; [by rewrite lookup_insert_eq|]. split; [|done].
  intros k Hk. by rewrite lookup_insert_ne.
Qed.

Lemma checkout_hands_out_the_oldest_witness :
  exists w',
    get_container_from_pool "python" tt RunnerProps.pooled_world = (inr (Some 7), tt, w') /\
    log w' = [EvSpawn "python" "python:3.9-slim"].
Proof.
  destruct (checkout_hands_out_the_oldest "python" "python:3.9-slim"
              RunnerProps.pooled_world
              {| containers := [{| pc_container := 7; pc_created_at := 0; pc_id := 7 |}];
                 last_accessed := 0 |}
              {| pc_container := 7; pc_created_at := 0; pc_id := 7 |} [])
    as (w' & E & _ & _ & Hl); [reflexivity..|].
  exists w'. split; [exact E | exact Hl].
Defined.

(** X3. The bucket is a queue: draining a bucket of a supported language by
    as many checkouts as it holds containers returns them in the order of
    the list, oldest first, and leaves the bucket empty, so that the next
    checkout finds nothing. *)
Theorem checkouts_are_first_in_first_out language image :
  get_image_for_language language = inr image ->
  forall cs w t,
    container_pools w !! pool_key_of language =
      Some {| containers := cs; last_accessed := t |} ->
    exists w' t',
      checkouts language (length cs) tt w =
        (inr (map (fun cd => Some (pc_container cd)) cs), tt, w') /\
      container_pools w' !! pool_key_of language =
        Some {| containers := []; last_accessed := t' |} /\
      get_container_from_pool language tt w' = (inr None, tt, w').
Proof.
  intros Hi cs. induction cs as [|cd cs IH]; intros w t Hb.
  - exists w, t. simpl. split; [done|]. split; [done|].
    apply get_container_miss. right. eexists. by split.
  - simpl. unfold bind.
    erewrite get_container_hit; [|exact Hb|reflexivity|exact Hi].
    match goal with |- context [checkouts language (length cs) tt ?w1] =>
      destruct (IH w1 (hd 0%Q (clock w))) as (w' & t' & E & Hp & Hn)
    end.
    { simpl. by rewrite lookup_insert_eq. }
    exists w', t'. rewrite E. simpl. done.
Qed.

Lemma checkouts_are_first_in_first_out_witness :
  exists w',
    checkouts "python" 1 tt RunnerProps.pooled_world = (inr [Some 7], tt, w') /\
    get_container_from_pool "python" tt w' = (inr None, tt, w').
Proof.
  destruct (checkouts_are_first_in_first_out "python" "python:3.9-slim" eq_refl
              [{| pc_container := 7; pc_created_at := 0; pc_id := 7 |}]
              RunnerProps.pooled_world 0%Q eq_refl)
    as (w' & t' & E & _ & Hn).
  exists w'. split; [exact E | exact Hn].
Defined.

(** *** Replenishment *)

Lemma add_unfold language image w :
  answer (from_env_script w) = None ->
  add_container_to_pool language image tt w =
  let w0 := set_uuids (tl (uuids w)) (set_from_env_script (tl (from_env_script w)) w) in
  let name := "function-" ++ language ++ "-" ++ prefix 8 (hd "" (uuids w)) in
  match answer (run_script w) with
  | Some e => (inr tt, tt, set_run_script (tl (run_script w)) w0)
  | None =>
      let c := next_container w in
      let w1 := add_event (EvRun image name None c)
                  (fresh_container (set_run_script (tl (run_script w)) w0)) in
      match add_container_locked (pool_key_of language) c tt w1 with
      | (_, _, w2) => (inr tt, tt, w2)
      end
  end.
Proof.
  intros Hf. unfold add_container_to_pool.
  unfold bind at 1. unfold docker_from_env. rewrite Hf.
  unfold try_except, bind, uuid4, containers_run. simpl.
  destruct (answer (run_script w)); simpl; [done|].
  destruct (add_container_locked _ _ _ _) as [[[e|[]] []] w2]; done.
Qed.

(** X4. Once [docker.from_env()] has returned, a replenishment never
    raises: whatever the engine does, the caller gets a normal return. When
    the engine fails to create the container, the pools and the engine log
    are left as they were. *)
Theorem replenishment_swallows_engine_failures language image w :
  answer (from_env_script w) = None ->
  (add_container_to_pool language image tt w).1.1 = inr tt /\
  (forall e, answer (run_script w) = Some e ->
     container_pools (add_container_to_pool language image tt w).2 = container_pools w /\
     log (add_container_to_pool language image tt w).2 = log w /\
     next_container (add_container_to_pool language image tt w).2 = next_container w).
Proof.
  intros Hf. rewrite add_unfold by done. cbv zeta. split.
  - destruct (answer (run_script w)); [done|].
    by destruct (add_container_locked _ _ _ _) as [[? ?] ?].
  - intros e ->. done.
Qed.

Lemma replenishment_swallows_engine_failures_witness :
  (add_container_to_pool "python" "python:3.9-slim" tt stale_world).1.1 = inr tt.
Proof.
  exact (proj1 (replenishment_swallows_engine_failures "python" "python:3.9-slim"
                  stale_world eq_refl)).
Defined.

(** X5. A replenishment whose language has no bucket (it was never
    initialised, or the sweep removed it meanwhile) still creates its
    container and then neither pools nor stops it: the creation is the only
    engine call and the pools are unchanged. *)
Theorem replenishment_without_bucket_leaks_container language image w :
  answer (from_env_script w) = None ->
  answer (run_script w) = None ->
  container_pools w !! pool_key_of language = None ->
  container_pools (add_container_to_pool language image tt w).2 = container_pools w /\
  log (add_container_to_pool language image tt w).2 =
    (log w ++ [EvRun image ("function-" ++ language ++ "-" ++ prefix 8 (hd "" (uuids w)))
                 None (next_container w)])%list /\
  next_container (add_container_to_pool language image tt w).2 = S (next_container w).
Proof.
  intros Hf Hr Hb. rewrite add_unfold by done. cbv zeta. rewrite Hr.
  unfold add_container_locked, bind, gets. simpl. rewrite Hb. done.
Qed.

Lemma replenishment_without_bucket_leaks_container_witness :
  log (add_container_to_pool "python" "python:3.9-slim" tt boot_world).2 =
    [EvRun "python:3.9-slim" "function-python-" None 0].
Proof.
  exact (proj1 (proj2 (replenishment_without_bucket_leaks_container
                         "python" "python:3.9-slim" boot_world eq_refl eq_refl eq_refl))).
Defined.

(** X6. A replenishment that finds room puts its fresh container at the end
    of the bucket's list, after the containers already idle, stamps the
    bucket, and leaves the other buckets alone; it stops nothing. *)
Theorem replenishment_appends_at_the_end language image w b :
  answer (from_env_script w) = None ->
  answer (run_script w) = None ->
  container_pools w !! pool_key_of language = Some b ->
  (length (containers b) < max_pool_size)%nat ->
  container_pools (add_container_to_pool language image tt w).2 !! pool_key_of language =
    Some {| containers := containers b ++
              [{| pc_container := next_container w;
                  pc_created_at := hd 0%Q (clock w);
                  pc_id := next_container w |}];
            last_accessed := hd 0%Q (tl (clock w)) |} /\
  (forall k, k <> pool_key_of language ->
     container_pools (add_container_to_pool language image tt w).2 !! k =
       container_pools w !! k) /\
  log (add_container_to_pool language image tt w).2 =
    (log w ++ [EvRun image ("function-" ++ language ++ "-" ++ prefix 8 (hd "" (uuids w)))
                 None (next_container w)])%list.
Proof.
  intros Hf Hr Hb Hlen. rewrite add_unfold by done. cbv zeta. rewrite Hr.
  unfold add_container_locked, bind, gets, time_time, store_bucket, modify. simpl.
  rewrite Hb. apply Nat.ltb_lt in Hlen. rewrite Hlen. simpl.
  split; [by rewrite lookup_insert_eq|]. split; [|done].
  intros k Hk. by rewrite lookup_insert_ne.
Qed.

Lemma replenishment_appends_at_the_end_witness :
  exists b,
    container_pools (add_container_to_pool "python" "python:3.9-slim" tt
                       RunnerProps.pooled_world).2 !! "python_pool" = Some b /\
    map pc_container (containers b) = [7; 8].
Proof.
  destruct (replenishment_appends_at_the_end "python" "python:3.9-slim"
              RunnerProps.pooled_world
              {| containers := [{| pc_container := 7; pc_created_at := 0; pc_id := 7 |}];
                 last_accessed := 0 |} eq_refl eq_refl eq_refl)
    as (H & _); [simpl; unfold max_pool_size; lia|].
  eexists. split; [exact H|reflexivity].
Defined.

(** what a replenishment can do to the pools, in every outcome *)
Lemma add_effect language image w :
  (forall k, k <> pool_key_of language ->
     container_pools (add_container_to_pool language image tt w).2 !! k =
       container_pools w !! k) /\
  (container_pools (add_container_to_pool language image tt w).2 !! pool_key_of language =
     container_pools w !! pool_key_of language \/
   exists b pc t,
     container_pools w !! pool_key_of language = Some b /\
     container_pools (add_container_to_pool language image tt w).2 !! pool_key_of language =
       Some {| containers := containers b ++ [pc]; last_accessed := t |}).
Proof.
  destruct (answer (from_env_script w)) as [e|] eqn:Hf.
  { unfold add_container_to_pool, bind, docker_from_env. rewrite Hf. simpl.
    split; [done|by left]. }
  rewrite add_unfold by done. cbv zeta.
  destruct (answer (run_script w)) as [e|]; [split; [done|by left]|].
  unfold add_container_locked, bind, gets. simpl.
  destruct (container_pools w !! pool_key_of language) as [b|] eqn:Hb;
    [|split; [done|by left]].
  destruct (length (containers b) <? max_pool_size)%nat.
  - simpl. split; [intros k Hk; by rewrite lookup_insert_ne|].
    right. eexists b, _, _. split; [done|]. by rewrite lookup_insert_eq.
  - unfold container_stop. simpl.
    destruct (answer (stop_script w)); simpl; (split; [done|by left]).
Qed.

(** X7. Initialising the pool of an unsupported language raises before
    anything is touched. For a supported language the bucket exists when
    the call is over, whatever the engine did; a bucket that was already
    there is not reset: its idle containers stay at the front, in order,
    and at most two are added behind them; no other bucket changes. *)
Theorem initialisation_creates_or_keeps_the_bucket language w :
  (RunnerProps.unsupported language ->
     initialize_container_pool language tt w =
       (inl ("Unsupported language: " ++ language), tt, w)) /\
  (forall image, get_image_for_language language = inr image ->
     (exists b', container_pools (initialize_container_pool language tt w).2
                   !! pool_key_of language = Some b' /\
        (forall b, container_pools w !! pool_key_of language = Some b ->
           containers b `prefix_of` containers b' /\
           (length (containers b') <= length (containers b) + 2)%nat) /\
        (container_pools w !! pool_key_of language = None ->
           (length (containers b') <= 2)%nat)) /\
     (forall k, k <> pool_key_of language ->
        container_pools (initialize_container_pool language tt w).2 !! k =
          container_pools w !! k)).
Proof.
  split.
  - intros Hu. apply RunnerFacts.pool_image_unsupported in Hu.
    unfold initialize_container_pool, bind, lift. by rewrite Hu.
  - intros image Hi.
    assert (Hrun : exists r w3,
      initialize_container_pool language tt w = (r, tt, w3) /\
      (exists b', container_pools w3 !! pool_key_of language = Some b' /\
        (forall b, container_pools w !! pool_key_of language = Some b ->
           containers b `prefix_of` containers b' /\
           (length (containers b') <= length (containers b) + 2)%nat) /\
        (container_pools w !! pool_key_of language = None ->
           (length (containers b') <= 2)%nat)) /\
      (forall k, k <> pool_key_of language ->
         container_pools w3 !! k = container_pools w !! k));
      [|destruct Hrun as (r & w3 & -> & H); exact H].
    unfold initialize_container_pool, bind, lift, call. rewrite Hi.
    (* the locked block *)
    assert (Hinit : exists w1,
      initialize_locked (pool_key_of language) tt w = (inr tt, tt, w1) /\
      (forall k, k <> pool_key_of language ->
         container_pools w1 !! k = container_pools w !! k) /\
      exists b1, container_pools w1 !! pool_key_of language = Some b1 /\
        (forall b, container_pools w !! pool_key_of language = Some b -> b1 = b) /\
        (container_pools w !! pool_key_of language = None -> containers b1 = [])).
    { unfold initialize_locked, bind, gets, time_time, store_bucket, modify. simpl.
      destruct (container_pools w !! pool_key_of language) as [b|] eqn:Hb.
      - exists w. split; [done|]. split; [done|]. exists b. split; [done|].
        split; [by intros ? [= ->]|done].
      - eexists. split; [reflexivity|]. simpl.
        split; [intros k Hk; by rewrite lookup_insert_ne|].
        eexists. split; [by rewrite lookup_insert_eq|]. done. }
    destruct Hinit as (w1 & Einit & Hother1 & b1 & Hb1 & Hsame & Hnew).
    rewrite Einit.
    pose proof (add_effect language image w1) as (Ho2 & Hk2).
    destruct (add_container_to_pool language image tt w1) as [[r2 []] w2]; simpl in *.
    assert (Hb2 : exists b2, container_pools w2 !! pool_key_of language = Some b2 /\
              containers b1 `prefix_of` containers b2 /\
              (length (containers b2) <= length (containers b1) + 1)%nat).
    { destruct Hk2 as [Hk2|(b & pc & t & Hb & Hk2)].
      - exists b1. split; [congruence|]. split; [done|lia].
      - rewrite Hb1 in Hb. injection Hb as <-.
        eexists. split; [exact Hk2|]. simpl. split; [by apply prefix_app_r|].
        rewrite length_app. simpl. lia. }
    destruct Hb2 as (b2 & Hb2 & Hp2 & Hl2).
    destruct r2 as [e|[]].
    { eexists _, _. split; [reflexivity|]. split.
      - exists b2. split; [done|]. split.
        + intros b Hb. rewrite <- (Hsame b Hb). split; [done|lia].
        + intros Hn. rewrite (Hnew Hn) in Hl2. simpl in Hl2. lia.
      - intros k Hk. rewrite Ho2 by done. by apply Hother1. }
    pose proof (add_effect language image w2) as (Ho3 & Hk3).
    destruct (add_container_to_pool language image tt w2) as [[r3 []] w3]; simpl in *.
    assert (Hb3 : exists b3, container_pools w3 !! pool_key_of language = Some b3 /\
              containers b2 `prefix_of` containers b3 /\
              (length (containers b3) <= length (containers b2) + 1)%nat).
    { destruct Hk3 as [Hk3|(b & pc & t & Hb & Hk3)].
      - exists b2. split; [congruence|]. split; [done|lia].
      - rewrite Hb2 in Hb. injection Hb as <-.
        eexists. split; [exact Hk3|]. simpl. split; [by apply prefix_app_r|].
        rewrite length_app. simpl. lia. }
    destruct Hb3 as (b3 & Hb3 & Hp3 & Hl3).
    eexists _, _. split; [reflexivity|]. split.
    + exists b3. split; [done|]. split.
      * intros b Hb. rewrite <- (Hsame b Hb). split; [by etrans|lia].
      * intros Hn. rewrite (Hnew Hn) in Hl2. simpl in Hl2. lia.
    + intros k Hk. rewrite Ho3, Ho2 by done. by apply Hother1.
Qed.

Lemma initialisation_creates_or_keeps_the_bucket_witness :
  exists b', container_pools (initialize_container_pool "python" tt
                                RunnerProps.pooled_world).2 !! "python_pool" = Some b' /\
    forall b, container_pools RunnerProps.pooled_world !! "python_pool" = Some b ->
      containers b `prefix_of` containers b'.
Proof.
  destruct (proj2 (initialisation_creates_or_keeps_the_bucket "python"
                     RunnerProps.pooled_world) "python:3.9-slim" eq_refl)
    as ((b' & Hb' & Hkeep & _) & _).
  exists b'. split; [exact Hb'|].
  intros b Hb. exact (proj1 (Hkeep b Hb)).
Defined.

(** *** The sweep *)

Lemma stop_all_spec {L} cs (l : L) w :
  exists w', stop_all cs l w = (inr tt, l, w') /\
    container_pools w' = container_pools w /\
    log w' = (log w ++ map (fun cd => EvStop (pc_container cd)) cs)%list.
Proof.
  revert w. induction cs as [|cd cs IH]; intros w; simpl.
  - exists w. by rewrite app_nil_r.
  - unfold bind, try_except, container_stop.
    destruct (answer (stop_script w)); simpl;
      match goal with |- context [stop_all cs l ?w1] =>
        destruct (IH w1) as (w' & -> & Hp & Hl)
      end; exists w'; simpl in *; (split; [done|]); (split; [done|]);
      by rewrite Hl, <- app_assoc.
Qed.

Lemma expired_pools_spec {L} t items (l : L) w :
  exists w',
    expired_pools t items l w =
      (inr (map fst (filter (fun kb => expired t kb.2 = true) items)), l, w') /\
    container_pools w' = container_pools w /\
    log w' = (log w ++ concat (map (fun kb => stops_of kb.2)
                                 (filter (fun kb => expired t kb.2 = true) items)))%list.
Proof.
  revert w. induction items as [|[k b] items IH]; intros w; simpl.
  - exists w. by rewrite app_nil_r.
  - rewrite filter_cons.
    destruct (decide (expired t (k, b).2 = true)) as [He|He]; simpl in He.
    + unfold expired in He. rewrite He. unfold bind.
      destruct (stop_all_spec (containers b) l w) as (w1 & -> & Hp1 & Hl1).
      destruct (IH w1) as (w' & -> & Hp & Hl).
      exists w'. simpl. split; [done|]. split; [congruence|].
      rewrite Hl, Hl1, <- app_assoc. done.
    + apply not_true_is_false in He. unfold expired in He. rewrite He. apply IH.
Qed.

Lemma delete_pools_lookup_cases ks (p : gmap string Bucket) k :
  delete_pools ks p !! k = if decide (k ∈ ks) then None else p !! k.
Proof.
  induction ks as [|k' ks IH].
  - destruct (decide (k ∈ [])) as [Hin|_]; [|done].
    by apply not_elem_of_nil in Hin.
  - change (delete_pools (k' :: ks) p) with (delete k' (delete_pools ks p)).
    rewrite lookup_delete, IH.
    destruct (decide (k' = k)) as [->|Hne].
    + destruct (decide (k ∈ k :: ks)) as [_|Hnin]; [done|].
      exfalso. apply Hnin, list_elem_of_here.
    + destruct (decide (k ∈ ks)) as [Hin|Hnin];
        destruct (decide (k ∈ k' :: ks)) as [Hin'|Hnin']; try done.
      * exfalso. by apply Hnin', list_elem_of_further.
      * apply elem_of_cons in Hin' as [->|Hin']; done.
Qed.

Lemma expired_keys t (p : gmap string Bucket) k :
  k ∈ map fst (filter (fun kb => expired t kb.2 = true) (map_to_list p)) <->
  exists b, p !! k = Some b /\ expired t b = true.
Proof.
  rewrite list_elem_of_fmap. split.
  - intros ([k' b] & -> & Hin). apply list_elem_of_filter in Hin as [He Hin].
    apply elem_of_map_to_list in Hin. eauto.
  - intros (b & Hb & He). exists (k, b). split; [done|].
    apply list_elem_of_filter. split; [done|]. by apply elem_of_map_to_list.
Qed.

Lemma elem_of_concat {A} (x : A) (ls : list (list A)) :
  x ∈ concat ls <-> exists l, x ∈ l /\ l ∈ ls.
Proof.
  induction ls as [|l ls IH]; simpl.
  - split; [by intros ?%not_elem_of_nil|]. by intros (l & _ & ?%not_elem_of_nil).
  - rewrite elem_of_app, IH. split.
    + intros [Hx|(l' & Hx & Hl')].
      * exists l. split; [done|apply list_elem_of_here].
      * exists l'. split; [done|by apply list_elem_of_further].
    + intros (l' & Hx & Hl'). apply elem_of_cons in Hl' as [->|Hl']; [by left|].
      right. eauto.
Qed.

(** X8. The sweep never raises and removes exactly the buckets that were
    last accessed more than 300 s before the time it read: every other
    bucket is kept as it was, with its containers and its timestamp. *)
Theorem sweep_removes_exactly_the_expired_buckets w :
  exists w',
    clean_expired_pools tt w = (inr tt, tt, w') /\
    forall k,
      container_pools w' !! k =
        match container_pools w !! k with
        | Some b => if expired (hd 0%Q (clock w)) b then None else Some b
        | None => None
        end.
Proof.
  unfold clean_expired_pools, bind, time_time, clean_locked, bind, gets, modify. simpl.
  destruct (expired_pools_spec (hd 0%Q (clock w)) (map_to_list (container_pools w)) tt
              (set_clock (tl (clock w)) w)) as (w1 & E & Hp & _).
  simpl in E. rewrite E. eexists. split; [reflexivity|]. simpl.
  intros k. rewrite Hp. simpl. rewrite delete_pools_lookup_cases.
  destruct (decide _) as [Hin|Hnin].
  - apply expired_keys in Hin as (b & -> & ->). done.
  - destruct (container_pools w !! k) as [b|] eqn:Hb; [|done].
    destruct (expired (hd 0%Q (clock w)) b) eqn:He; [|done].
    exfalso. apply Hnin. apply expired_keys. eauto.
Qed.

(** X9. The engine calls of a sweep are exactly the stops of the containers
    of the buckets it removes: each idle container of an expired bucket gets
    a stop call, also when an earlier stop failed, and nothing else is
    called; containers of the buckets that stay are not stopped. *)
Theorem sweep_stops_exactly_the_expired_containers w :
  exists evs,
    log (clean_expired_pools tt w).2 = (log w ++ evs)%list /\
    forall e, e ∈ evs <->
      exists k b, container_pools w !! k = Some b /\
        expired (hd 0%Q (clock w)) b = true /\ e ∈ stops_of b.
Proof.
  unfold clean_expired_pools, bind, time_time, clean_locked, bind, gets, modify. simpl.
  destruct (expired_pools_spec (hd 0%Q (clock w)) (map_to_list (container_pools w)) tt
              (set_clock (tl (clock w)) w)) as (w1 & E & _ & Hl).
  simpl in E. rewrite E. simpl. eexists. split; [exact Hl|].
  intros e. rewrite elem_of_concat. split.
  - intros (evs & He & Hin). apply list_elem_of_fmap in Hin as ([k b] & -> & Hin).
    apply list_elem_of_filter in Hin as [Hx Hin].
    apply elem_of_map_to_list in Hin. exists k, b. done.
  - intros (k & b & Hb & Hx & He). exists (stops_of b). split; [done|].
    apply list_elem_of_fmap. exists (k, b). split; [done|].
    apply list_elem_of_filter. split; [done|]. by apply elem_of_map_to_list.
Qed.

End PoolOpsFacts.

(** ** The runners, path by path *)

Module RunnerPathsFacts.
Import Pool MonadFacts RunnerProps RunnerFacts RunnerPaths PoolProps PoolFacts.

Lemma acquire_sets_container language warm l w c l1 w1 :
  Runner.acquire_container language warm l w = (inr c, l1, w1) ->
  f_container l1 = Some c /\ f_metrics l1 = f_metrics l.
Proof.
  unfold Runner.acquire_container, Runner.create_container.
  assert (Hcreate : forall l0 w0 c l1 w1,
    (do image <~ lift (get_image_for_language language) ;;;
     do u <~ uuid4 ;;;
     do c <~ containers_run image ("function-" ++ language ++ "-" ++ prefix 8 u) None ;;;
     assign_container (Some c) ;;; ret c) l0 w0 = (inr c, l1, w1) ->
    f_container l1 = Some c /\ f_metrics l1 = f_metrics l0).
  { intros l0 w0 c0 l2 w2 H.
    bind_step H Hi. unfold lift in Hi. injection Hi as Hi <- <-.
    bind_step H Hu. apply uuid4_inv in Hu as (_ & -> & ->).
    bind_step H Hr. apply run_inr in Hr as (_ & -> & -> & ->).
    bind_step H Ha. inversion Ha; subst; clear Ha.
    inversion H; subst. done. }
  destruct warm; [|apply Hcreate].
  intros H. bind_step H Hg.
  unfold call in Hg. destruct (get_container_from_pool language tt w) as [[rg lg] wg].
  injection Hg as -> <- <-.
  bind_step H Ha. inversion Ha; subst; clear Ha.
  match goal with x : option Container |- _ => destruct x as [c0|] end.
  - inversion H; subst. done.
  - bind_step H Hi. unfold call in Hi.
    destruct (initialize_container_pool language tt _) as [[ri li] wi].
    injection Hi as -> <- <-.
    apply Hcreate in H. simpl in H. done.
Qed.

Lemma stage_code_inr code language c l w id cmd l1 w1 :
  Runner.stage_code code language c l w = (inr (id, cmd), l1, w1) ->
  l1 = l /\ container_pools w1 = container_pools w /\ clock w1 = clock w /\
  next_container w1 = next_container w /\
  exists src dst, log w1 = (log w ++ [EvCopy c src dst])%list.
Proof.
  unfold Runner.stage_code. intros H.
  bind_step H Hu. apply uuid4_inv in Hu as (Eu & -> & ->).
  inversion Eu; subst; clear Eu.
  assert (Hfs : forall (l0 : Frame) w0 u l2 w2,
            fs_call l0 w0 = (inr u, l2, w2) ->
            l2 = l0 /\ w2 = set_fs_script (tl (fs_script w0)) w0).
  { intros l0 w0 u l2 w2. unfold fs_call. destruct (answer _); by inversion 1. }
  destruct (String.eqb (lower language) "python");
    [|destruct (String.eqb (lower language) "javascript" || String.eqb (lower language) "js");
      [|discriminate]].
  all: bind_step H H1; apply Hfs in H1 as (-> & ->);
    bind_step H H2; inversion H2; subst; clear H2;
    bind_step H H3; apply Hfs in H3 as (-> & ->);
    inversion H; subst; simpl; repeat split; eauto.
Qed.

(** the phases of a [try] body that returned *)
Lemma docker_try_phases code language timeout warm start l w r l' w' :
  Runner.run_in_docker_try code language timeout warm start l w = (inr r, l', w') ->
  exists c l1 w1 id cmd lx wx,
    Runner.acquire_container language warm l w = (inr c, l1, w1) /\
    Runner.execute_and_release c id cmd timeout warm start lx wx = (inr r, l', w') /\
    f_container lx = Some c /\
    container_pools wx = container_pools w1 /\
    next_container wx = next_container w1 /\
    clock wx = tl (clock w1) /\
    f_metrics lx =
      <["initialization_time_ms" := PyInt (elapsed_ms start (hd 0%Q (clock w1)))]>
        (f_metrics l) /\
    exists src dst, log wx = (log w1 ++ [EvCopy c src dst])%list.
Proof.
  unfold Runner.run_in_docker_try. intros H.
  bind_step H Ha. pose proof (acquire_sets_container _ _ _ _ _ _ _ Ha) as (Hc & Hm).
  bind_step H Ht. apply time_time_inv in Ht as (Et & -> & ->).
  inversion Et; subst; clear Et.
  bind_step H Hi. apply assign_metric_inv in Hi as (_ & -> & Hc2 & Hm2).
  bind_step H Hs.
  match goal with x : (string * string)%type |- _ => destruct x as [id cmd] end.
  apply stage_code_inr in Hs as (-> & Hp & Hk & Hn & src & dst & Hl).
  simpl in *.
  eexists _, _, _, id, cmd, _, _. split; [exact Ha|]. split; [exact H|].
  split; [congruence|]. split; [done|]. split; [done|]. split; [done|].
  split; [by rewrite Hm2, Hm|]. eauto.
Qed.

(** X10. What becomes of the container of a default-runtime execution that
    returns from the [try]: the two last engine calls are the exec of the
    user code and then, on that same container, either its stop or the
    removal of the staged file. The container is left running (file removed,
    no stop) exactly when the run is warm, exits 0 and took strictly less
    than the timeout; every cold run and every run that is not a success
    ends with the stop. Nothing in the execution phase touches the pools:
    the container is not put back. *)
Theorem warm_success_leaves_the_container_running
    code language timeout warm start l w r l' w' :
  Runner.run_in_docker_try code language timeout warm start l w = (inr r, l', w') ->
  exists c id cmd lx wx res,
    Runner.execute_and_release c id cmd timeout warm start lx wx = (inr r, l', w') /\
    f_container l' = Some c /\
    exec_answer_at wx = inr res /\
    container_pools w' = container_pools wx /\
    log w' = (log wx ++
      [EvExec c cmd;
       if Runner.keeps_container warm (execution_time_at wx) timeout (exit_code res)
       then EvExec c (Runner.rm_cmd id) else EvStop c])%list /\
    (Runner.keeps_container warm (execution_time_at wx) timeout (exit_code res) = true <->
       warm = true /\ exit_code res = 0%Z /\
       (execution_time_at wx < inject_Z timeout)%Q) /\
    (Runner.keeps_container warm (execution_time_at wx) timeout (exit_code res) = true ->
       status r = "success") /\
    (warm = false \/ status r <> "success" ->
       Runner.keeps_container warm (execution_time_at wx) timeout (exit_code res) = false).
Proof.
  intros H.
  apply docker_try_phases in H
    as (c & l1 & w1 & id & cmd & lx & wx & _ & H & Hc & _).
  destruct (execute_and_release_inv _ _ _ _ _ _ _ _ _ _ _ H)
    as (res & Hres & Hc' & Hp & _ & Hl & _ & _ & Hcl).
  exists c, id, cmd, lx, wx, res.
  split; [done|]. split; [congruence|]. split; [done|]. split; [done|]. split; [done|].
  assert (Hk : Runner.keeps_container warm (execution_time_at wx) timeout (exit_code res)
               = true <->
               warm = true /\ exit_code res = 0%Z /\
               (execution_time_at wx < inject_Z timeout)%Q).
  { unfold Runner.keeps_container. rewrite andb_negb_r. simpl.
    rewrite !andb_true_iff, Qltb_true, Z.eqb_eq. tauto. }
  split; [exact Hk|].
  assert (Hs : Runner.keeps_container warm (execution_time_at wx) timeout (exit_code res)
               = true -> status r = "success").
  { intros (Hw & Hz & Hlt)%Hk.
    destruct (Qgtb _ _) eqn:Hgt.
    - apply Qgtb_true in Hgt. exfalso.
      apply (Qlt_irrefl (inject_Z timeout)). by apply (Qlt_trans _ (execution_time_at wx)).
    - destruct Hcl as (_ & Hcl). apply Z.eqb_eq in Hz. rewrite Hz in Hcl. tauto. }
  split; [exact Hs|].
  intros Hor. apply not_true_is_false. intros E.
  destruct Hor as [Hw|Hn].
  - apply Hk in E as (Hw' & _). congruence.
  - by apply Hn, Hs.
Qed.

Lemma warm_success_leaves_the_container_running_witness :
  exists r l' w',
    Runner.run_in_docker_try "print('Hello, World!')" "python" 30 true 10
      empty_frame pooled_world = (inr r, l', w') /\
    f_container l' = Some 7%nat /\
    last (log w') = Some (EvExec 7 (Runner.rm_cmd "1b9d6bcd-bbfd-4b2d")).
Proof.
  destruct (Runner.run_in_docker_try "print('Hello, World!')" "python" 30 true 10
              empty_frame pooled_world) as [[[e|r] l'] w'] eqn:E;
    [vm_compute in E; discriminate|].
  exists r, l', w'. split; [reflexivity|].
  destruct (warm_success_leaves_the_container_running _ _ _ _ _ _ _ _ _ _ E)
    as (c & id & cmd & lx & wx & res & _ & Hc & _).
  vm_compute in E. injection E as <- <- <-.
  split; reflexivity.
Defined.

Lemma supported_image language :
  supported language ->
  exists image, get_image_for_language language = inr image /\
                Gvisor.get_image_for_language language = inr image.
Proof.
  unfold get_image_for_language, Gvisor.get_image_for_language.
  intros [H|[H|H]]; rewrite H; simpl; eauto.
Qed.

Lemma bind_ok {L A B} (m : M L A) (k : A -> M L B) l w a l1 w1 :
  m l w = (inr a, l1, w1) -> bind m k l w = k a l1 w1.
Proof. unfold bind. by intros ->. Qed.

Lemma bind_err {L A B} (m : M L A) (k : A -> M L B) l w e l1 w1 :
  m l w = (inl e, l1, w1) -> bind m k l w = (inl e, l1, w1).
Proof. unfold bind. by intros ->. Qed.

Lemma created_then (runtime : option string) image (name : string -> string)
    (l : Frame) w :
  answer (run_script w) = None ->
  exists l1 w1,
    (do u <~ uuid4 ;;;
     do c <~ containers_run image (name u) runtime ;;;
     assign_container (Some c) ;;; ret c) l w = (inr (next_container w), l1, w1) /\
    f_container l1 = Some (next_container w) /\
    engine_after w w1 [EvRun image (name (hd "" (uuids w))) runtime (next_container w)].
Proof.
  intros Hr. unfold bind, uuid4, containers_run, assign_container, set_locals, ret.
  simpl. rewrite Hr. eexists _, _. split; [reflexivity|]. by repeat split.
Qed.

Lemma fs_call_ok (l : Frame) w :
  answer (fs_script w) = None ->
  fs_call l w = (inr tt, l, set_fs_script (tl (fs_script w)) w).
Proof. unfold fs_call. by intros ->. Qed.

Lemma staged_then {A} (src : string) c (dst : string) (a : A) (l : Frame) w :
  answer (fs_script w) = None ->
  answer (tl (fs_script w)) = None ->
  exists w1,
    (fs_call ;;; os_system_docker_cp src c dst ;;; fs_call ;;; ret a) l w
      = (inr a, l, w1) /\
    log w1 = (log w ++ [EvCopy c src dst])%list /\
    exec_script w1 = exec_script w /\ stop_script w1 = stop_script w.
Proof.
  intros H1 H2.
  erewrite bind_ok by (by apply fs_call_ok).
  erewrite bind_ok by reflexivity.
  erewrite bind_ok by (by apply fs_call_ok).
  eexists. split; [reflexivity|]. by repeat split.
Qed.

Lemma gvisor_staged code language c (l : Frame) w :
  supported language ->
  answer (fs_script (set_uuids (tl (uuids w)) w)) = None ->
  answer (tl (fs_script (set_uuids (tl (uuids w)) w))) = None ->
  exists cmd src dst w1,
    Gvisor.stage_code code language c l w = (inr cmd, l, w1) /\
    log w1 = (log w ++ [EvCopy c src dst])%list /\
    exec_script w1 = exec_script w /\ stop_script w1 = stop_script w.
Proof.
  intros Hs H1 H2. unfold Gvisor.stage_code.
  erewrite bind_ok by reflexivity.
  destruct (String.eqb (lower language) "python") eqn:Hp.
  - edestruct (staged_then (A := string)) as (w1 & -> & Hl & He & Hst); [exact H1|exact H2|].
    eexists _, _, _, _. split; [reflexivity|]. split; [exact Hl|]. by split.
  - assert (Hj : String.eqb (lower language) "javascript"
                 || String.eqb (lower language) "js" = true).
    { destruct Hs as [Hs|[Hs|Hs]]; rewrite Hs in *; done. }
    rewrite Hj.
    edestruct (staged_then (A := string)) as (w1 & -> & Hl & He & Hst); [exact H1|exact H2|].
    eexists _, _, _, _. split; [reflexivity|]. split; [exact Hl|]. by split.
Qed.

Lemma docker_staged code language c (l : Frame) w :
  supported language ->
  answer (fs_script (set_uuids (tl (uuids w)) w)) = None ->
  answer (tl (fs_script (set_uuids (tl (uuids w)) w))) = None ->
  exists staged src dst w1,
    Runner.stage_code code language c l w = (inr staged, l, w1) /\
    log w1 = (log w ++ [EvCopy c src dst])%list /\
    exec_script w1 = exec_script w /\ stop_script w1 = stop_script w.
Proof.
  intros Hs H1 H2. unfold Runner.stage_code.
  erewrite bind_ok by reflexivity.
  destruct (String.eqb (lower language) "python") eqn:Hp.
  - edestruct (staged_then (A := string * string)) as (w1 & -> & Hl & He & Hst);
      [exact H1|exact H2|].
    eexists _, _, _, _. split; [reflexivity|]. split; [exact Hl|]. by split.
  - assert (Hj : String.eqb (lower language) "javascript"
                 || String.eqb (lower language) "js" = true).
    { destruct Hs as [Hs|[Hs|Hs]]; rewrite Hs in *; done. }
    rewrite Hj.
    edestruct (staged_then (A := string * string)) as (w1 & -> & Hl & He & Hst);
      [exact H1|exact H2|].
    eexists _, _, _, _. split; [reflexivity|]. split; [exact Hl|]. by split.
Qed.

Lemma exec_rejected {A} c cmd (k : Q -> ExecResult -> M Frame A) (l : Frame) w e :
  hd (inr {| exit_code := 0; output := None |})
     (exec_script (set_clock (tl (clock w)) w)) = inl e ->
  exists w1,
    (do t <~ time_time ;;; do r <~ container_exec_run c cmd ;;; k t r) l w
      = (inl e, l, w1) /\
    log w1 = (log w ++ [EvExec c cmd])%list /\ stop_script w1 = stop_script w /\
    clock w1 = tl (clock w).
Proof.
  intros Hx. erewrite bind_ok by reflexivity.
  erewrite bind_err; [|unfold container_exec_run; rewrite Hx; reflexivity].
  eexists. split; [reflexivity|]. by repeat split.
Qed.

(** the [try] body of the hardened runner up to the rejected exec *)
Lemma gvisor_try_exec_rejected code language timeout start l w e :
  supported language ->
  answer (run_script w) = None ->
  answer (fs_script w) = None ->
  answer (tl (fs_script w)) = None ->
  exec_answer_at w = inl e ->
  exists l1 w1 image name src dst cmd,
    Gvisor.run_in_gvisor_try code language timeout start l w = (inl e, l1, w1) /\
    log w1 = (log w ++ [EvRun image name (Some "runsc") (next_container w);
                        EvCopy (next_container w) src dst;
                        EvExec (next_container w) cmd])%list.
Proof.
  intros Hs Hr H1 H2 Hx.
  destruct (supported_image language Hs) as (image & _ & Hi).
  unfold Gvisor.run_in_gvisor_try, Gvisor.create_container.
  rewrite Hi.
  destruct (created_then (Some "runsc") image (fun u => "gvisor-function-" ++ prefix 8 u)
              l w Hr) as (l1 & w1 & Hc & _ & Hl1 & Hf1 & He1 & _).
  erewrite bind_ok; [|erewrite bind_ok by reflexivity; exact Hc].
  erewrite bind_ok by reflexivity.
  erewrite bind_ok by reflexivity.
  edestruct (gvisor_staged code language (next_container w)) as
    (cmd & src & dst & w2 & Hst & Hl2 & He2 & _); [exact Hs| | |].
  3: erewrite bind_ok by exact Hst.
  1, 2: simpl; rewrite Hf1; done.
  unfold Gvisor.execute_and_stop.
  edestruct (exec_rejected (A := Result)) as (w3 & -> & Hl3 & _).
  { simpl. rewrite He2. simpl. rewrite He1. exact Hx. }
  eexists _, _, _, _, _, _, _. split; [reflexivity|].
  rewrite Hl3, Hl2. simpl. rewrite Hl1. by rewrite <- !app_assoc.
Qed.

(** the [try] body of a cold default run up to the rejected exec *)
Lemma docker_try_exec_rejected code language timeout start l w e :
  supported language ->
  answer (run_script w) = None ->
  answer (fs_script w) = None ->
  answer (tl (fs_script w)) = None ->
  exec_answer_at w = inl e ->
  exists l1 w1 image name src dst cmd,
    Runner.run_in_docker_try code language timeout false start l w = (inl e, l1, w1) /\
    f_container l1 = Some (next_container w) /\
    log w1 = (log w ++ [EvRun image name None (next_container w);
                        EvCopy (next_container w) src dst;
                        EvExec (next_container w) cmd])%list.
Proof.
  intros Hs Hr H1 H2 Hx.
  destruct (supported_image language Hs) as (image & Hi & _).
  unfold Runner.run_in_docker_try, Runner.acquire_container, Runner.create_container.
  rewrite Hi.
  destruct (created_then None image (fun u => "function-" ++ language ++ "-" ++ prefix 8 u)
              l w Hr) as (l1 & w1 & Hc & Hk & Hl1 & Hf1 & He1 & _).
  erewrite bind_ok; [|erewrite bind_ok by reflexivity; exact Hc].
  erewrite bind_ok by reflexivity.
  erewrite bind_ok by reflexivity.
  edestruct (docker_staged code language (next_container w)) as
    (staged & src & dst & w2 & Hst & Hl2 & He2 & _); [exact Hs| | |].
  3: erewrite bind_ok by exact Hst.
  1, 2: simpl; rewrite Hf1; done.
  unfold Runner.execute_and_release.
  edestruct (exec_rejected (A := Result)) as (w3 & -> & Hl3 & _).
  { simpl. rewrite He2. simpl. rewrite He1. exact Hx. }
  eexists _, _, _, _, _, _, _. split; [reflexivity|]. split; [exact Hk|].
  rewrite Hl3, Hl2. simpl. rewrite Hl1. by rewrite <- !app_assoc.
Qed.

(** X11. When the engine rejects the exec of the user code, both runners
    return status error with the engine's message, but they differ on the
    container they had just created: the hardened runner makes no further
    engine call and leaves it running, the default runner started cold
    stops it. The [except] block of a warm default run makes no engine call
    either. *)
Theorem exec_failure_stops_only_the_cold_default_container
    code language timeout l w e :
  supported language ->
  answer (from_env_script w) = None ->
  answer (run_script w) = None ->
  answer (fs_script w) = None ->
  answer (tl (fs_script w)) = None ->
  exec_answer_at w = inl e ->
  (exists r l' w' image name src dst cmd,
     Gvisor.run_in_gvisor code language timeout l w = (inr r, l', w') /\
     status r = "error" /\ metrics r !! "error" = Some (PyStr e) /\
     log w' = (log w ++ [EvRun image name (Some "runsc") (next_container w);
                         EvCopy (next_container w) src dst;
                         EvExec (next_container w) cmd])%list) /\
  (exists r l' w' image name src dst cmd,
     Runner.run_in_docker code language timeout false l w = (inr r, l', w') /\
     status r = "error" /\ metrics r !! "error" = Some (PyStr e) /\
     log w' = (log w ++ [EvRun image name None (next_container w);
                         EvCopy (next_container w) src dst;
                         EvExec (next_container w) cmd;
                         EvStop (next_container w)])%list) /\
  (forall start e' l0 w0,
     log (Runner.run_in_docker_except true start e' l0 w0).2 = log w0).
Proof.
  intros Hs Hf Hr Hfs1 Hfs2 Hx. split; [|split].
  - rewrite run_in_gvisor_unfold, Hf. unfold try_except.
    destruct (gvisor_try_exec_rejected code language timeout (hd 0%Q (clock w))
                (gvisor_entry_frame language l w) (entry_world w) e)
      as (l1 & w1 & image & name & src & dst & cmd & -> & Hl); try done.
    destruct (gvisor_except_inv (hd 0%Q (clock w)) e l1 w1)
      as (r & l2 & w2 & -> & Hst & _ & _ & _ & Hm & Hm2 & _ & _ & Hl2).
    eexists r, _, _, image, name, src, dst, cmd. split; [reflexivity|].
    split; [exact Hst|]. split; [by rewrite Hm, Hm2, lookup_insert_eq|].
    by rewrite Hl2, Hl.
  - rewrite run_in_docker_unfold, Hf. unfold try_except.
    destruct (docker_try_exec_rejected code language timeout (hd 0%Q (clock w))
                (docker_entry_frame language false w) (entry_world w) e)
      as (l1 & w1 & image & name & src & dst & cmd & -> & Hk & Hl); try done.
    destruct (docker_except_inv false (hd 0%Q (clock w)) e l1 w1)
      as (r & l2 & w2 & -> & Hst & _ & _ & _ & Hm & Hm2 & _ & _ & Hl2).
    eexists r, _, _, image, name, src, dst, cmd. split; [reflexivity|].
    split; [exact Hst|]. split; [by rewrite Hm, Hm2, lookup_insert_eq|].
    rewrite Hl2, Hk, Hl. simpl. by rewrite <- !app_assoc.
  - intros start e' l0 w0.
    destruct (docker_except_inv true start e' l0 w0)
      as (res & l1 & w1 & -> & _ & _ & _ & _ & _ & _ & _ & _ & Hl).
    simpl. rewrite Hl. destruct (f_container l0); by rewrite app_nil_r.
Qed.

Lemma exec_failure_stops_only_the_cold_default_container_witness :
  exists r l' w',
    Gvisor.run_in_gvisor "print(1)" "python" 30 empty_frame exec_fails_world
      = (inr r, l', w') /\
    status r = "error" /\
    Forall (fun ev => ev <> EvStop 0) (log w').
Proof.
  destruct (proj1 (exec_failure_stops_only_the_cold_default_container
                     "print(1)" "python" 30%Z empty_frame exec_fails_world
                     "409 Conflict: container is not running"
                     (or_introl eq_refl) eq_refl eq_refl eq_refl eq_refl eq_refl))
    as (r & l' & w' & image & name & src & dst & cmd & E & Hs & _ & Hl).
  exists r, l', w'. split; [exact E|]. split; [exact Hs|].
  rewrite Hl. simpl. repeat constructor; discriminate.
Defined.

End RunnerPathsFacts.

(** ** What becomes of the container *)

Module ReleaseFacts.
Import Pool PoolProps MonadFacts PoolFacts RunnerProps RunnerFacts RunnerPathsFacts.









End ReleaseFacts.

(** ** The request handlers, path by path *)

Module MainPathsFacts.
Import Main MainProps MainPaths MonadFacts RunnerProps RunnerFacts RecordFacts MainFacts.

Lemma query_unknown name db w :
  unknown name db -> query_function name db w = (inr None, db, w).
Proof.
  unfold unknown, query_function, bind, get_locals, ret. intros H.
  replace (filter _ _) with (@nil Function); [done|].
  symmetry. induction H as [|f fs Hf _ IH]; [done|].
  rewrite filter_cons. destruct (decide _); [done|apply IH].
Qed.

Lemma query_inv name db w r db' w' :
  query_function name db w = (r, db', w') ->
  db' = db /\ w' = w /\
  exists o, r = inr o /\
    match o with
    | None => unknown name db
    | Some f => f ∈ functions db /\ Main.name f = name
    end.
Proof.
  unfold query_function, bind, get_locals, ret. intros [= <- <- <-].
  split; [done|]. split; [done|]. eexists. split; [reflexivity|].
  unfold unknown. induction (functions db) as [|f fs IH]; [by constructor|].
  rewrite filter_cons. destruct (decide _) as [E|E]; simpl.
  - split; [left|done].
  - destruct (head (filter _ fs)) as [g|].
    + destruct IH as [Hin Hn]. split; [by right|done].
    + by constructor.
Qed.

(** the effect of saving the metrics of a result *)
Lemma save_effect name r db w :
  Main.save_execution_metrics name r db w =
    (inr tt,
     {| functions := functions db;
        execution_metrics :=
          Metrics.save_execution_metrics (execution_metrics db)
            (Qfloor (hd 0%Q (clock w))) name r |},
     set_clock (tl (clock w)) w).
Proof. reflexivity. Qed.

Lemma saved_row_named rt lang db now name r :
  populated rt lang (Exec.metrics r) ->
  exists m, Metrics.save_execution_metrics db now name r = (db ++ [m])%list /\
    row_of name rt m /\ Metrics.status m = Exec.status r.
Proof.
  intros (Hrt & _). eexists. split; [reflexivity|]. unfold row_of. simpl.
  unfold Metrics.dict_get. rewrite Hrt. done.
Qed.

(** X12. A request for a function that is not in the table is refused with
    404 by both the execute and the compare endpoint before anything
    happens: no engine call, no clock reading, no metrics row. *)
Theorem unknown_function_is_refused_untouched name params n db w :
  unknown name db ->
  execute_function name params db w = (inl not_found, db, w) /\
  compare_runtimes name n db w = (inl not_found, db, w).
Proof.
  intros H. unfold execute_function, compare_runtimes, bind.
  rewrite (query_unknown _ _ _ H). done.
Qed.

Lemma unknown_function_is_refused_untouched_witness :
  execute_function "goodbye" None hello_db (cold_world 3 0)
    = (inl not_found, hello_db, cold_world 3 0).
Proof.
  apply (unknown_function_is_refused_untouched "goodbye" None 5 hello_db (cold_world 3 0)).
  repeat constructor. discriminate.
Defined.

(** the runner called by the execute endpoint *)
Lemma served_run (func : Function) params (db : Db) w r db1 w1 :
  (if String.eqb (runtime params) "gvisor"
   then call (Gvisor.run_in_gvisor (code func) (language func) (timeout func)) empty_frame
   else call (Runner.run_in_docker (code func) (language func) (timeout func)
                (warm_start params)) empty_frame) db w = (inr r, db1, w1) ->
  db1 = db /\
  populated (if String.eqb (runtime params) "gvisor" then "gvisor" else "docker")
    (language func) (Exec.metrics r).
Proof.
  destruct (String.eqb _ _); unfold call; intros H.
  - destruct (Gvisor.run_in_gvisor _ _ _ _ _) as [[r0 l0] w0] eqn:E.
    inversion H; subst; clear H. split; [done|].
    by apply run_in_gvisor_inr in E as (Hp & _).
  - destruct (Runner.run_in_docker _ _ _ _ _ _) as [[r0 l0] w0] eqn:E.
    inversion H; subst; clear H. split; [done|].
    by apply run_in_docker_inr in E as (Hp & _).
Qed.

Lemma served_run_inl (func : Function) params (db : Db) w e db1 w1 :
  (if String.eqb (runtime params) "gvisor"
   then call (Gvisor.run_in_gvisor (code func) (language func) (timeout func)) empty_frame
   else call (Runner.run_in_docker (code func) (language func) (timeout func)
                (warm_start params)) empty_frame) db w = (inl e, db1, w1) ->
  db1 = db.
Proof.
  destruct (String.eqb _ _); unfold call; intros H.
  - destruct (Gvisor.run_in_gvisor _ _ _ _ _) as [[r0 l0] w0] eqn:E.
    by inversion H.
  - destruct (Runner.run_in_docker _ _ _ _ _ _) as [[r0 l0] w0] eqn:E.
    by inversion H.
Qed.

(** X13. An execute request writes exactly one metrics row when it returns
    and none when it fails with 404 or 500; the table of functions is never
    changed. The row carries the function's name, the status of the
    returned result and the runtime that actually served the request: a
    runtime tag other than ["gvisor"] is served by the default runtime and
    recorded as ["docker"], while the response echoes the tag that was
    asked for. *)
Theorem execute_writes_one_row_on_return name params db w r db' w' :
  execute_function name params db w = (r, db', w') ->
  functions db' = functions db /\
  match r with
  | inr resp =>
      (exists m, execution_metrics db' = (execution_metrics db ++ [m])%list /\
         row_of name (serving_runtime params) m /\
         Metrics.status m = Exec.status (resp_result resp)) /\
      resp_function_name resp = name /\
      resp_runtime resp =
        runtime (match params with Some p => p | None => default_params end)
  | inl e =>
      db' = db /\
      (e = not_found \/ exists e', e = "500: Execution error: " ++ e')
  end.
Proof.
  unfold execute_function, serving_runtime.
  set (p := match params with Some p => p | None => default_params end).
  intros H. apply bind_inv in H as [(e & H & ->)|(o & db1 & w1 & Hq & H)].
  { apply query_inv in H as (_ & _ & o & ? & _). done. }
  apply query_inv in Hq as (-> & -> & o' & Ho & Hfound).
  inversion Ho; subst o'; clear Ho.
  destruct o as [func|].
  2: { inversion H; subst. split; [done|]. split; [done|]. by left. }
  apply try_except_inv in H as [(a & H & ->)|(e & lx & wx & Hb & H)].
  - bind_step H Hrun. apply served_run in Hrun as (-> & Hpop).
    bind_step H Hsave. rewrite save_effect in Hsave. injection Hsave as _ <- <-.
    injection H as <- <-. simpl. split; [done|].
    match goal with
    | |- context [Metrics.save_execution_metrics ?d ?t ?nm ?res] =>
        destruct (saved_row_named _ _ d t nm res Hpop) as (m & -> & Hrow & Hst)
    end.
    split; [eauto|done].
  - injection H as <- <- <-.
    assert (lx = db) as ->.
    { apply bind_inv in Hb as [(e0 & Hb & E)|(r0 & db1 & w1 & Hrun & Hb)].
      - inversion E; subst. by apply served_run_inl in Hb.
      - apply served_run in Hrun as (-> & _).
        apply bind_inv in Hb as [(e1 & Hs & _)|(u & d2 & w2 & Hs & Hb)].
        + by rewrite save_effect in Hs.
        + inversion Hb. }
    split; [done|]. split; [done|]. right. eauto.
Qed.

Lemma execute_writes_one_row_on_return_witness :
  exists resp db' w' m,
    execute_function "hello" (Some podman_params) hello_db (cold_world 3 0)
      = (inr resp, db', w') /\
    resp_runtime resp = "podman" /\
    execution_metrics db' = [m] /\ Metrics.runtime m = Some "docker".
Proof.
  destruct (execute_function "hello" (Some podman_params) hello_db (cold_world 3 0))
    as [[[e|resp] db'] w'] eqn:E; [vm_compute in E; discriminate|].
  destruct (execute_writes_one_row_on_return _ _ _ _ _ _ _ E)
    as (_ & (m & Hm & (_ & Hrt) & _) & _ & Hecho).
  exists resp, db', w', m. split; [reflexivity|]. split; [exact Hecho|].
  split; [exact Hm|exact Hrt].
Defined.

(** the rows written by the loop over the default runtime *)
Lemma docker_loop_rows func name indices :
  forall db w r db' w',
    docker_loop func name indices db w = (r, db', w') ->
    functions db' = functions db /\
    exists rows,
      execution_metrics db' = (execution_metrics db ++ rows)%list /\
      Forall (row_of name "docker") rows /\
      match r with
      | inr results => length rows = length indices /\ length results = length indices
      | inl _ => (length rows < length indices)%nat
      end.
Proof.
  induction indices as [|i indices IH]; intros db w r db' w' H.
  - injection H as <- <- <-. split; [done|]. exists []. by rewrite app_nil_r.
  - simpl in H.
    apply bind_inv in H as [(e & H & ->)|(res & db1 & w1 & Hrun & H)].
    { unfold call in H. destruct (Runner.run_in_docker _ _ _ _ _ _) as [[r0 l0] w0].
      injection H as _ <- _. split; [done|]. exists []. rewrite app_nil_r.
      split; [done|]. split; [constructor|simpl; lia]. }
    unfold call in Hrun.
    destruct (Runner.run_in_docker _ _ _ _ _ _) as [[r0 l0] w0] eqn:E.
    injection Hrun as -> <- <-.
    apply run_in_docker_inr in E as (Hpop & _).
    apply bind_inv in H as [(e & H & ->)|(u & db2 & w2 & Hsave & H)];
      [by rewrite save_effect in H|].
    rewrite save_effect in Hsave. injection Hsave as _ <- <-.
    match type of H with
    | context [Metrics.save_execution_metrics ?d ?t ?nm ?x] =>
        destruct (saved_row_named _ _ d t nm x Hpop) as (m & Em & Hrow & _)
    end.
    apply bind_inv in H as [(e & H & ->)|(rest & db3 & w3 & Hrest & H)].
    + apply IH in H as (Hf & rows & Hr & Hall & Hlen). simpl in Hf, Hr.
      split; [done|]. exists (m :: rows). rewrite Hr, Em, <- app_assoc.
      split; [done|]. split; [by constructor|simpl in *; lia].
    + apply IH in Hrest as (Hf & rows & Hr & Hall & Hl1 & Hl2). simpl in Hf, Hr.
      injection H as <- <- <-.
      split; [done|]. exists (m :: rows). rewrite Hr, Em, <- app_assoc.
      split; [done|]. split; [by constructor|simpl; lia].
Qed.

(** the rows written by the loop over the hardened runtime *)
Lemma gvisor_loop_rows func name indices :
  forall db w r db' w',
    gvisor_loop func name indices db w = (r, db', w') ->
    functions db' = functions db /\
    exists rows,
      execution_metrics db' = (execution_metrics db ++ rows)%list /\
      Forall (row_of name "gvisor") rows /\
      match r with
      | inr results => length rows = length indices /\ length results = length indices
      | inl _ => (length rows < length indices)%nat
      end.
Proof.
  induction indices as [|i indices IH]; intros db w r db' w' H.
  - injection H as <- <- <-. split; [done|]. exists []. by rewrite app_nil_r.
  - simpl in H.
    apply bind_inv in H as [(e & H & ->)|(res & db1 & w1 & Hrun & H)].
    { unfold call in H. destruct (Gvisor.run_in_gvisor _ _ _ _ _) as [[r0 l0] w0].
      injection H as _ <- _. split; [done|]. exists []. rewrite app_nil_r.
      split; [done|]. split; [constructor|simpl; lia]. }
    unfold call in Hrun.
    destruct (Gvisor.run_in_gvisor _ _ _ _ _) as [[r0 l0] w0] eqn:E.
    injection Hrun as -> <- <-.
    apply run_in_gvisor_inr in E as (Hpop & _).
    apply bind_inv in H as [(e & H & ->)|(u & db2 & w2 & Hsave & H)];
      [by rewrite save_effect in H|].
    rewrite save_effect in Hsave. injection Hsave as _ <- <-.
    match type of H with
    | context [Metrics.save_execution_metrics ?d ?t ?nm ?x] =>
        destruct (saved_row_named _ _ d t nm x Hpop) as (m & Em & Hrow & _)
    end.
    apply bind_inv in H as [(e & H & ->)|(rest & db3 & w3 & Hrest & H)].
    + apply IH in H as (Hf & rows & Hr & Hall & Hlen). simpl in Hf, Hr.
      split; [done|]. exists (m :: rows). rewrite Hr, Em, <- app_assoc.
      split; [done|]. split; [by constructor|simpl in *; lia].
    + apply IH in Hrest as (Hf & rows & Hr & Hall & Hl1 & Hl2). simpl in Hf, Hr.
      injection H as <- <- <-.
      split; [done|]. exists (m :: rows). rewrite Hr, Em, <- app_assoc.
      split; [done|]. split; [by constructor|simpl; lia].
Qed.

Lemma comparison_of_no_runs gvisor_results n :
  exists e, comparison_of [] gvisor_results n = inl e.
Proof. by eexists. Qed.

(** X14. A comparison only ever appends to the metrics table and never
    changes the table of functions. It writes the rows of the default
    runtime first and those of the hardened runtime after them, all under
    the function's name, at most [iterations] of each, and no row of the
    hardened runtime is written unless all rows of the default runtime have
    been. When it
    returns, [iterations] is at least 1 and exactly [iterations] rows of
    each runtime have been written; rows written before a failure are not
    taken back. *)
Theorem comparison_appends_rows_of_both_runtimes name n db w r db' w' :
  compare_runtimes name n db w = (r, db', w') ->
  functions db' = functions db /\
  exists docker_rows gvisor_rows,
    execution_metrics db' = (execution_metrics db ++ docker_rows ++ gvisor_rows)%list /\
    Forall (row_of name "docker") docker_rows /\
    Forall (row_of name "gvisor") gvisor_rows /\
    (length docker_rows <= n)%nat /\ (length gvisor_rows <= n)%nat /\
    ((length docker_rows < n)%nat -> gvisor_rows = []) /\
    (forall c, r = inr c ->
       (1 <= n)%nat /\ iterations c = n /\
       length docker_rows = n /\ length gvisor_rows = n).
Proof.
  unfold compare_runtimes. intros H.
  apply bind_inv in H as [(e & H & ->)|(o & db1 & w1 & Hq & H)].
  { apply query_inv in H as (_ & _ & o & ? & _). done. }
  apply query_inv in Hq as (-> & -> & o' & Ho & _).
  injection Ho as <-.
  destruct o as [func|].
  2: { injection H as <- <- <-. split; [done|]. exists [], []. rewrite app_nil_r.
       repeat split; try constructor; try (simpl; lia); done. }
  apply bind_inv in H as [(e & H & ->)|(dr & db1 & w1 & Hd & H)].
  { apply docker_loop_rows in H as (Hf & rows & Hr & Hall & Hlen).
    rewrite length_seq in Hlen.
    split; [done|]. exists rows, []. rewrite app_nil_r.
    repeat split; try constructor; try (simpl; lia); done. }
  apply docker_loop_rows in Hd as (Hf & rd & Hr & Hall & Hl1 & Hl2).
  rewrite length_seq in Hl1, Hl2.
  apply bind_inv in H as [(e & H & ->)|(gr & db2 & w2 & Hg & H)].
  { apply gvisor_loop_rows in H as (Hf' & rows & Hr' & Hall' & Hlen).
    rewrite length_seq in Hlen.
    split; [congruence|]. exists rd, rows. rewrite Hr', Hr, <- app_assoc.
    repeat split; try done; try lia. }
  apply gvisor_loop_rows in Hg as (Hf' & rg & Hr' & Hall' & Hl1' & Hl2').
  rewrite length_seq in Hl1', Hl2'.
  unfold lift in H. injection H as <- <- <-.
  split; [congruence|]. exists rd, rg. rewrite Hr', Hr, <- app_assoc.
  repeat split; try done; try lia.
  - destruct n; [|lia].
    destruct dr; [|done]. destruct (comparison_of_no_runs gr 0) as (e & He). congruence.
  - revert H. unfold comparison_of. destruct (stats_of dr n); [done|].
    unfold and_then at 1. simpl. destruct (stats_of gr n); [done|]. simpl.
    repeat (match goal with |- context [percent_difference ?a ?b] =>
              destruct (percent_difference a b); simpl; [done|] end).
    by intros [= <-].
Qed.

Lemma comparison_appends_rows_of_both_runtimes_witness :
  exists c db' w',
    compare_runtimes "hello" 2 hello_db comparison_world = (inr c, db', w') /\
    map Metrics.runtime (execution_metrics db')
      = [Some "docker"; Some "docker"; Some "gvisor"; Some "gvisor"].
Proof.
  destruct (compare_runtimes "hello" 2 hello_db comparison_world)
    as [[[e|c] db'] w'] eqn:E; [vm_compute in E; discriminate|].
  exists c, db', w'. split; [reflexivity|].
  destruct (comparison_appends_rows_of_both_runtimes _ _ _ _ _ _ _ E)
    as (_ & rd & rg & Hr & Hd & Hg & _ & _ & _ & Hret).
  destruct (Hret c eq_refl) as (_ & _ & Hld & Hlg).
  rewrite Hr. clear E Hr Hret. simpl.
  destruct rd as [|d1 [|d2 [|? ?]]]; simpl in Hld; try lia.
  destruct rg as [|g1 [|g2 [|? ?]]]; simpl in Hlg; try lia.
  apply Forall_cons in Hd as [[_ H1] Hd]. apply Forall_cons in Hd as [[_ H2] _].
  apply Forall_cons in Hg as [[_ H3] Hg]. apply Forall_cons in Hg as [[_ H4] _].
  simpl. by rewrite H1, H2, H3, H4.
Defined.

(** the results handed to the statistics by a comparison that returns *)
Lemma compare_runtimes_inr name n db w c db' w' :
  compare_runtimes name n db w = (inr c, db', w') ->
  exists docker_results gvisor_results,
    length docker_results = n /\ length gvisor_results = n /\
    comparison_of docker_results gvisor_results n = inr c.
Proof.
  unfold compare_runtimes. intros H.
  bind_step H Hq. apply query_inv in Hq as (-> & -> & o' & Ho & _).
  injection Ho as <-.
  match goal with o : option Function |- _ => destruct o as [func|]; [|done] end.
  bind_step H Hd. apply docker_loop_rows in Hd as (_ & _ & _ & _ & _ & Hd).
  bind_step H Hg. apply gvisor_loop_rows in Hg as (_ & _ & _ & _ & _ & Hg).
  rewrite length_seq in Hd, Hg. unfold lift in H. injection H as H _ _. eauto.
Qed.

Lemma comparison_of_inr docker_results gvisor_results n c :
  comparison_of docker_results gvisor_results n = inr c ->
  stats_of docker_results n = inr (docker c) /\
  stats_of gvisor_results n = inr (gvisor c).
Proof.
  unfold comparison_of. intros H.
  apply and_then_inr in H as (ds & -> & H).
  apply and_then_inr in H as (gs & -> & H).
  apply and_then_inr in H as (d1 & _ & H).
  apply and_then_inr in H as (d2 & _ & H).
  apply and_then_inr in H as (d3 & _ & H).
  by injection H as <-.
Qed.

Lemma total_between_extremes x l :
  (foldr Z.min x l * Z.of_nat (S (length l)) <= x + Metrics.Zsum l
   <= foldr Z.max x l * Z.of_nat (S (length l)))%Z.
Proof.
  induction l as [|y l IH]; simpl; [lia|].
  change (Metrics.Zsum (y :: l)) with (y + Metrics.Zsum l)%Z.
  pose proof (Z.le_min_l y (foldr Z.min x l)).
  pose proof (Z.le_min_r y (foldr Z.min x l)).
  pose proof (Z.le_max_l y (foldr Z.max x l)).
  pose proof (Z.le_max_r y (foldr Z.max x l)).
  nia.
Qed.

Lemma stats_of_bounds results s :
  stats_of results (length results) = inr s ->
  (0 <= success_rate s <= 1)%Q /\
  (inject_Z (min_total_time_ms s) <= avg_total_time_ms s
   <= inject_Z (max_total_time_ms s))%Q.
Proof.
  unfold stats_of. intros H.
  apply and_then_inr in H as (inits & _ & H).
  apply and_then_inr in H as (execs & _ & H).
  apply and_then_inr in H as (totals & _ & H).
  apply and_then_inr in H as (avg_init & _ & H).
  apply and_then_inr in H as (avg_exec & _ & H).
  apply and_then_inr in H as (avg_total & Havg & H).
  apply and_then_inr in H as (mn & Hmin & H).
  apply and_then_inr in H as (mx & Hmax & H).
  apply and_then_inr in H as (rt & Hrate & H).
  injection H as <-. simpl. split.
  - unfold py_div in Hrate. destruct (Qeq_bool _ 0) eqn:Hz; [done|].
    injection Hrate as <-.
    pose proof (MetricsFacts.count_if_le (fun r => String.eqb (status r) "success")
                  results) as Hle.
    assert (0 < inject_Z (Z.of_nat (length results)))%Q.
    { destruct results; [done|]. unfold Qlt; simpl; lia. }
    split.
    + apply Qle_shift_div_l; [done|]. rewrite Qmult_0_l. unfold Qle; simpl; lia.
    + apply Qle_shift_div_r; [done|]. rewrite Qmult_1_l. unfold Qle; simpl; lia.
  - destruct totals as [|x l]; [done|].
    injection Havg as <-. injection Hmin as <-. injection Hmax as <-.
    pose proof (total_between_extremes x l) as [Hlo Hhi].
    assert (0 < inject_Z (Z.of_nat (length (x :: l))))%Q by (unfold Qlt; simpl; lia).
    change (Metrics.Zsum (x :: l)) with (x + Metrics.Zsum l)%Z.
    split.
    + apply Qle_shift_div_l; [done|]. rewrite <- inject_Z_mult.
      rewrite <- Zle_Qle. exact Hlo.
    + apply Qle_shift_div_r; [done|]. rewrite <- inject_Z_mult.
      rewrite <- Zle_Qle. exact Hhi.
Qed.

(** X15. The statistics of a comparison that returns are consistent for
    both runtimes: the success rate lies between 0 and 1 and the mean total
    time lies between the reported minimum and maximum. *)
Theorem returned_statistics_are_consistent name n db w c db' w' :
  compare_runtimes name n db w = (inr c, db', w') ->
  Forall (fun s =>
            (0 <= success_rate s <= 1)%Q /\
            (inject_Z (min_total_time_ms s) <= avg_total_time_ms s
             <= inject_Z (max_total_time_ms s))%Q)
         [docker c; gvisor c].
Proof.
  intros H. apply compare_runtimes_inr in H as (dr & gr & Hd & Hg & H).
  apply comparison_of_inr in H as (Hds & Hgs).
  rewrite <- Hd in Hds. rewrite <- Hg in Hgs.
  apply Forall_cons. split; [exact (stats_of_bounds _ _ Hds)|].
  apply Forall_cons. split; [exact (stats_of_bounds _ _ Hgs)|constructor].
Qed.

Lemma returned_statistics_are_consistent_witness :
  exists c db' w',
    compare_runtimes "hello" 2 hello_db comparison_world = (inr c, db', w') /\
    (success_rate (docker c) <= 1)%Q /\
    (avg_total_time_ms (gvisor c) <= inject_Z (max_total_time_ms (gvisor c)))%Q.
Proof.
  destruct (compare_runtimes "hello" 2 hello_db comparison_world)
    as [[[e|c] db'] w'] eqn:E; [vm_compute in E; discriminate|].
  exists c, db', w'. split; [reflexivity|].
  pose proof (returned_statistics_are_consistent _ _ _ _ _ _ _ E) as H.
  apply Forall_cons in H as [[[_ Hd] _] H].
  apply Forall_cons in H as [[_ [_ Hg]] _].
  split; [exact Hd|exact Hg].
Defined.

(** the [try] and the [except] of the default runner write no key but
    the three timings and the error tag *)
Lemma docker_try_keeps (P : gmap string pyval -> Prop) code language timeout warm start :
  (forall k v m, k <> "warm_start" -> P m -> P (<[k := v]> m)) ->
  frame_inv (fun fr => P (f_metrics fr))
    (Runner.run_in_docker_try code language timeout warm start).
Proof.
  intros HP.
  unfold Runner.run_in_docker_try, Runner.acquire_container, Runner.create_container,
    Runner.stage_code, Runner.execute_and_release, Runner.classify,
    Runner.release_container.
  repeat frame_inv_step; intros; by apply HP.
Qed.

Lemma run_in_docker_warm_flag code language timeout warm l w r l' w' :
  Runner.run_in_docker code language timeout warm l w = (inr r, l', w') ->
  metrics r !! "warm_start" = Some (PyBool warm).
Proof.
  intros H.
  pose proof (docker_try_keeps (fun m => m !! "warm_start" = Some (PyBool warm))
                code language timeout warm (hd 0%Q (clock w))
                (fun k v m Hk Hm => eq_trans (lookup_insert_ne m k "warm_start" v Hk) Hm)
                (docker_entry_frame language warm w) (entry_world w) eq_refl) as Hkeep.
  apply run_in_docker_inr in H as (_ & [H|(_ & _ & e & lx & wx & Ht & He)]).
  - rewrite H in Hkeep. simpl in Hkeep.
    apply docker_try_inr in H as (c & id & cmd & ly & wy & H).
    apply execute_and_release_inv in H as (res & _ & _ & _ & _ & _ & Hm & _).
    by rewrite Hm.
  - rewrite Ht in Hkeep. simpl in Hkeep.
    destruct (docker_except_inv warm (hd 0%Q (clock w)) e lx wx)
      as (res & l1 & w1 & E1 & _ & _ & _ & _ & Hm & Hm' & _).
    rewrite E1 in He. injection He as <- <- <-.
    rewrite Hm, Hm'. by simplify_map_eq.
Qed.

(** X16. In a comparison the runs of the default runtime are not alike: the
    run of index 0 is asked cold and every later one warm, and the metrics
    block of each result says so under ['warm_start']. *)
Theorem only_the_first_default_run_is_cold func name indices :
  forall db w results db' w',
    docker_loop func name indices db w = (inr results, db', w') ->
    map (fun r => metrics r !! "warm_start") results =
    map (fun i => Some (PyBool (bool_decide (0 < i)%nat))) indices.
Proof.
  induction indices as [|i indices IH]; intros db w results db' w' H.
  - by injection H as <- _ _.
  - simpl in H. bind_step H Hrun. unfold call in Hrun.
    destruct (Runner.run_in_docker _ _ _ _ _ _) as [[r0 l0] w0] eqn:E.
    injection Hrun as -> <- <-.
    apply run_in_docker_warm_flag in E.
    bind_step H Hsave. bind_step H Hrest. apply IH in Hrest.
    injection H as <- _ _. simpl. rewrite E, Hrest. do 3 f_equal.
    destruct (Nat.ltb_spec 0 i); [by rewrite bool_decide_eq_true_2
                                 |by rewrite bool_decide_eq_false_2 by lia].
Qed.

Lemma only_the_first_default_run_is_cold_witness :
  exists results db' w',
    docker_loop (Build_Function "hello" "python" "print('Hello, World!')" 30)
      "hello" (seq 0 3) hello_db comparison_world = (inr results, db', w') /\
    map (fun r => metrics r !! "warm_start") results =
      [Some (PyBool false); Some (PyBool true); Some (PyBool true)].
Proof.
  destruct (docker_loop (Build_Function "hello" "python" "print('Hello, World!')" 30)
              "hello" (seq 0 3) hello_db comparison_world)
    as [[[e|results] db'] w'] eqn:E; [vm_compute in E; discriminate|].
  exists results, db', w'. split; [reflexivity|].
  exact (only_the_first_default_run_is_cold _ _ _ _ _ _ _ _ E).
Defined.

End MainPathsFacts.

(** ** Reading the metrics back *)

Module MetricsReadsFacts.
Import Metrics MetricsProps MetricsFacts MetricsReads.

Lemma sorted_strongly l : StronglySorted Z.le (sorted l).
Proof.
  apply Sorted_StronglySorted; [intros x y z; apply Z.le_trans|apply sorted_ordered].
Qed.

Lemma strongly_sorted_lookup (l : list Z) i j x y :
  StronglySorted Z.le l -> (i <= j)%nat ->
  l !! i = Some x -> l !! j = Some y -> (x <= y)%Z.
Proof.
  intros Hl. revert i j. induction Hl as [|a l Hl IH Ha]; intros i j Hij Hi Hj; [done|].
  destruct i as [|i], j as [|j]; simpl in *; try lia.
  - injection Hi as <-. injection Hj as <-. lia.
  - injection Hi as <-. rewrite Forall_forall in Ha. apply Ha.
    by eapply list_elem_of_lookup_2.
  - eapply IH; [|done..]. lia.
Qed.

Lemma elem_of_sorted x l : x ∈ sorted l <-> x ∈ l.
Proof. by rewrite (sorted_perm l). Qed.

(** the element at the last index of the sorted list is an upper bound *)
Lemma sorted_last_is_max l y :
  sorted l !! (length l - 1)%nat = Some y -> forall x, x ∈ l -> (x <= y)%Z.
Proof.
  intros Hy x Hx. apply elem_of_sorted in Hx.
  apply list_elem_of_lookup_1 in Hx as (i & Hi).
  pose proof (lookup_lt_Some _ _ _ Hi) as Hlt. rewrite sorted_length in Hlt.
  eapply strongly_sorted_lookup; [apply sorted_strongly| |done..]. lia.
Qed.

Lemma floor_index_mono n p q : (0 <= p <= q)%Z -> (floor_index n p <= floor_index n q)%nat.
Proof.
  intros Hpq. unfold floor_index. apply Z2Nat.inj_le.
  - apply Z.div_pos; nia.
  - apply Z.div_pos; nia.
  - apply Z.div_le_mono; nia.
Qed.

(** below 100/(100-pct) data points the index is the last one *)
Lemma floor_index_last n pct :
  (0 < n)%nat -> (0 <= pct < 100)%Z -> (Z.of_nat n * (100 - pct) <= 100)%Z ->
  floor_index n pct = (n - 1)%nat.
Proof.
  intros Hn Hp Hsmall.
  pose proof (floor_index_lt n pct Hn Hp) as Hlt.
  unfold floor_index in *.
  assert (Z.of_nat n - 1 <= Z.of_nat n * pct / 100)%Z by (apply Z.div_le_lower_bound; nia).
  lia.
Qed.

(** the two percentiles of an aggregate, read off the sorted data *)
Lemma aggregate_percentiles rows a ex p95 p99 :
  aggregate_rows rows = inr a ->
  extras a = Some ex ->
  p95_execution_time_ms ex = Some p95 ->
  p99_execution_time_ms ex = Some p99 ->
  (2 <= length (execution_times rows))%nat /\
  sorted (execution_times rows) !! floor_index (length (execution_times rows)) 95 = Some p95 /\
  sorted (execution_times rows) !! floor_index (length (execution_times rows)) 99 = Some p99.
Proof.
  unfold aggregate_rows, execution_times. destruct rows as [|m rows]; [by intros [= <-]|].
  set (times := omap execution_time_ms (m :: rows)).
  destruct (2 <=? length times)%nat eqn:Hn.
  2: { intros [= <-]. simpl. by intros [= <-]. }
  apply Nat.leb_le in Hn.
  rewrite !percentile_index_floor by lia. unfold index.
  destruct (sorted times !! floor_index (length times) 95) as [x|] eqn:E95; [|done].
  destruct (sorted times !! floor_index (length times) 99) as [y|] eqn:E99; [|done].
  intros [= <-]. simpl. intros [= <-]. simpl. by intros [= <-] [= <-].
Qed.

(** X17. The percentiles the aggregation reports are order statistics of
    the execution times it aggregated: each is one of the data points, the
    95th is not above the 99th, and on small samples they are simply the
    maximum, the 95th up to 20 data points and the 99th up to 100. *)
Theorem percentiles_are_order_statistics rows a ex p95 p99 :
  aggregate_rows rows = inr a ->
  extras a = Some ex ->
  p95_execution_time_ms ex = Some p95 ->
  p99_execution_time_ms ex = Some p99 ->
  p95 ∈ execution_times rows /\ p99 ∈ execution_times rows /\
  (p95 <= p99)%Z /\
  ((length (execution_times rows) <= 20)%nat ->
     forall x, x ∈ execution_times rows -> (x <= p95)%Z) /\
  ((length (execution_times rows) <= 100)%nat ->
     forall x, x ∈ execution_times rows -> (x <= p99)%Z).
Proof.
  intros Ha Hex H95 H99.
  destruct (aggregate_percentiles _ _ _ _ _ Ha Hex H95 H99) as (Hn & E95 & E99).
  split; [|split; [|split; [|split]]].
  - apply elem_of_sorted. by eapply list_elem_of_lookup_2.
  - apply elem_of_sorted. by eapply list_elem_of_lookup_2.
  - eapply strongly_sorted_lookup; [apply sorted_strongly| |done..].
    apply floor_index_mono. lia.
  - intros Hsmall. apply sorted_last_is_max.
    rewrite floor_index_last in E95 by lia. done.
  - intros Hsmall. apply sorted_last_is_max.
    rewrite floor_index_last in E99 by lia. done.
Qed.

Lemma percentiles_are_order_statistics_witness :
  exists a ex,
    aggregate_rows history = inr a /\ extras a = Some ex /\
    p95_execution_time_ms ex = Some 14%Z /\ p99_execution_time_ms ex = Some 14%Z /\
    (14 <= 14)%Z.
Proof.
  destruct (aggregate_rows history) as [e|a] eqn:Ea; [vm_compute in Ea; discriminate|].
  destruct (extras a) as [ex|] eqn:Eex;
    [|vm_compute in Ea; injection Ea as <-; discriminate].
  assert (H95 : p95_execution_time_ms ex = Some 14%Z).
  { vm_compute in Ea. injection Ea as <-. by injection Eex as <-. }
  assert (H99 : p99_execution_time_ms ex = Some 14%Z).
  { vm_compute in Ea. injection Ea as <-. by injection Eex as <-. }
  exists a, ex. split; [reflexivity|]. split; [exact Eex|].
  split; [exact H95|]. split; [exact H99|].
  exact (proj1 (proj2 (proj2 (percentiles_are_order_statistics _ _ _ _ _ Ea Eex H95 H99)))).
Defined.

Lemma filter_weaken {A} (P Q : A -> Prop) `{!forall x, Decision (P x)}
    `{!forall x, Decision (Q x)} (l : list A) :
  (forall x, P x -> Q x) -> filter P l `sublist_of` filter Q l.
Proof.
  intros HPQ. induction l as [|x l IH]; [done|].
  rewrite !filter_cons. destruct (decide (P x)) as [HP|HP].
  - rewrite decide_True by auto. by constructor.
  - destruct (decide (Q x)); [by constructor|done].
Qed.

Lemma query_window db now fn tr s :
  window_seconds tr = Some s ->
  query db now fn tr =
    filter (fun m => (now - s <= timestamp m)%Z) (query db now fn "").
Proof. unfold query. by intros ->. Qed.

Lemma query_no_window db now fn tr :
  window_seconds tr = None -> query db now fn tr = query db now fn "".
Proof. unfold query. by intros ->. Qed.

Lemma aggregate_count rows a : aggregate_rows rows = inr a -> count a = length rows.
Proof.
  unfold aggregate_rows. destruct rows as [|m rows]; [by intros [= <-]|].
  destruct (2 <=? _)%nat.
  - destruct (index _ _); [done|]. destruct (index _ _); [done|]. by intros [= <-].
  - by intros [= <-].
Qed.

(** X18. Widening the time range of the aggregation never loses rows: the
    rows of the last hour are among those of the last day, these among
    those of the last week, these among those of the last 30 days, and the
    counts grow accordingly. A range string that is none of the four is no
    filter at all: it selects at least the rows of the last 30 days,
    whatever the time of the query. *)
Theorem widening_the_window_never_loses_rows db now fn tr :
  window_seconds tr = None ->
  query db now fn "1h" `sublist_of` query db now fn "24h" /\
  query db now fn "24h" `sublist_of` query db now fn "7d" /\
  query db now fn "7d" `sublist_of` query db now fn "30d" /\
  query db now fn "30d" `sublist_of` query db now fn tr /\
  (forall now', query db now' fn tr = query db now fn tr) /\
  exists a1 a24 a7 a30 a,
    get_aggregated_metrics db now fn "1h" = inr a1 /\
    get_aggregated_metrics db now fn "24h" = inr a24 /\
    get_aggregated_metrics db now fn "7d" = inr a7 /\
    get_aggregated_metrics db now fn "30d" = inr a30 /\
    get_aggregated_metrics db now fn tr = inr a /\
    (count a1 <= count a24 <= count a7)%nat /\ (count a7 <= count a30 <= count a)%nat.
Proof.
  intros Htr.
  assert (H1 : query db now fn "1h" `sublist_of` query db now fn "24h").
  { rewrite (query_window _ _ _ "1h" 3600), (query_window _ _ _ "24h" 86400) by done.
    apply filter_weaken. intros m. lia. }
  assert (H2 : query db now fn "24h" `sublist_of` query db now fn "7d").
  { rewrite (query_window _ _ _ "24h" 86400), (query_window _ _ _ "7d" 604800) by done.
    apply filter_weaken. intros m. lia. }
  assert (H3 : query db now fn "7d" `sublist_of` query db now fn "30d").
  { rewrite (query_window _ _ _ "7d" 604800), (query_window _ _ _ "30d" 2592000) by done.
    apply filter_weaken. intros m. lia. }
  assert (H4 : query db now fn "30d" `sublist_of` query db now fn tr).
  { rewrite (query_window _ _ _ "30d" 2592000), (query_no_window _ _ _ tr) by done.
    apply sublist_filter. }
  split; [done|]. split; [done|]. split; [done|]. split; [done|]. split.
  { intros now'. rewrite !(query_no_window _ _ _ tr) by done. unfold query.
    by destruct fn as [[|]|]. }
  unfold get_aggregated_metrics.
  destruct (aggregate_rows_total (query db now fn "1h")) as (a1 & E1).
  destruct (aggregate_rows_total (query db now fn "24h")) as (a24 & E24).
  destruct (aggregate_rows_total (query db now fn "7d")) as (a7 & E7).
  destruct (aggregate_rows_total (query db now fn "30d")) as (a30 & E30).
  destruct (aggregate_rows_total (query db now fn tr)) as (a & E).
  exists a1, a24, a7, a30, a. rewrite E1, E24, E7, E30, E.
  do 5 (split; [done|]).
  rewrite (aggregate_count _ _ E1), (aggregate_count _ _ E24), (aggregate_count _ _ E7),
    (aggregate_count _ _ E30), (aggregate_count _ _ E).
  apply sublist_length in H1, H2, H3, H4. lia.
Qed.

Lemma widening_the_window_never_loses_rows_witness :
  query history 3605 (Some "f") "1h" `sublist_of` query history 3605 (Some "f") "24h" /\
  length (query history 3605 (Some "f") "1h") = 1%nat /\
  length (query history 3605 (Some "f") "24h") = 5%nat.
Proof.
  split; [|split; reflexivity].
  exact (proj1 (widening_the_window_never_loses_rows history 3605 (Some "f") "all"
                  eq_refl)).
Defined.

Lemma insert_desc_perm m l : Permutation (insert_desc m l) (m :: l).
Proof.
  induction l as [|x l IH]; simpl; [done|].
  destruct (_ <? _)%Z; [done|]. rewrite IH. apply perm_swap.
Qed.

Lemma order_by_perm l : Permutation (order_by_timestamp_desc l) l.
Proof.
  induction l as [|x l IH]; simpl; [done|].
  rewrite insert_desc_perm. by constructor.
Qed.

Lemma insert_desc_sorted m l :
  StronglySorted (fun a b => (timestamp b <= timestamp a)%Z) l ->
  StronglySorted (fun a b => (timestamp b <= timestamp a)%Z) (insert_desc m l).
Proof.
  induction 1 as [|x l Hl IH Hx]; simpl; [by repeat constructor|].
  destruct (Z.ltb_spec (timestamp x) (timestamp m)).
  - constructor; [by constructor|]. constructor; [lia|].
    eapply Forall_impl; [exact Hx|]. intros y Hy. simpl in Hy. lia.
  - constructor; [done|]. rewrite insert_desc_perm. by constructor.
Qed.

Lemma order_by_sorted l :
  StronglySorted (fun a b => (timestamp b <= timestamp a)%Z) (order_by_timestamp_desc l).
Proof.
  induction l as [|x l IH]; simpl; [constructor|]. by apply insert_desc_sorted.
Qed.

Lemma desc_lookup (l : list ExecutionMetric) i j x y :
  StronglySorted (fun a b => (timestamp b <= timestamp a)%Z) l -> (i <= j)%nat ->
  l !! i = Some x -> l !! j = Some y -> (timestamp y <= timestamp x)%Z.
Proof.
  intros Hl. revert i j. induction Hl as [|a l Hl IH Ha]; intros i j Hij Hi Hj; [done|].
  destruct i as [|i], j as [|j]; simpl in *; try lia.
  - injection Hi as <-. injection Hj as <-. lia.
  - injection Hi as <-. rewrite Forall_forall in Ha. apply Ha.
    by eapply list_elem_of_lookup_2.
  - eapply IH; [|done..]. lia.
Qed.

Lemma strongly_sorted_take {A} (R : A -> A -> Prop) n (l : list A) :
  StronglySorted R l -> StronglySorted R (take n l).
Proof.
  intros Hl. revert n. induction Hl as [|x l Hl IH Hx]; intros [|n]; simpl;
    try constructor; [apply IH|].
  rewrite Forall_forall in Hx |- *. intros y Hy. apply Hx.
  apply elem_of_take in Hy as (i & Hi & _). by eapply list_elem_of_lookup_2.
Qed.

(** X19. The history of a function: the rows returned are rows of the
    table that carry the function's name, as many as there are up to
    [limit], newest first, and no row of the function that was left out is
    newer than a row that was returned. *)
Theorem history_is_the_newest_rows_of_the_function db name limit :
  let rows := get_metrics_for_function db name limit in
  let all := filter (fun m => function_name m = name) db in
  length rows = Nat.min limit (length all) /\
  (forall m, m ∈ rows -> m ∈ db /\ function_name m = name) /\
  StronglySorted (fun a b => (timestamp b <= timestamp a)%Z) rows /\
  (forall m r, m ∈ all -> m ∉ rows -> r ∈ rows -> (timestamp m <= timestamp r)%Z).
Proof.
  unfold get_metrics_for_function. cbv zeta.
  set (all := filter _ db). set (s := order_by_timestamp_desc all).
  pose proof (order_by_perm all) as Hperm. pose proof (order_by_sorted all) as Hs.
  fold s in Hperm, Hs.
  split; [|split; [|split]].
  - rewrite length_take. by rewrite (Permutation_length Hperm).
  - intros m Hm. apply elem_of_take in Hm as (i & Hi & _).
    apply list_elem_of_lookup_2 in Hi. rewrite Hperm in Hi.
    by apply list_elem_of_filter in Hi as [? ?].
  - by apply strongly_sorted_take.
  - intros m r Hm Hout Hr.
    rewrite <- Hperm in Hm. apply list_elem_of_lookup_1 in Hm as (j & Hj).
    apply elem_of_take in Hr as (i & Hi & Hlt).
    assert (limit <= j)%nat.
    { destruct (decide (j < limit)%nat); [|lia].
      exfalso. apply Hout. apply elem_of_take. eauto. }
    eapply desc_lookup; [exact Hs| |done..]. lia.
Qed.

Lemma history_is_the_newest_rows_of_the_function_witness :
  length (get_metrics_for_function history "f" 3) = 3%nat /\
  map timestamp (get_metrics_for_function history "f" 3) = [5; 4; 3]%Z.
Proof.
  split; [|reflexivity].
  exact (proj1 (history_is_the_newest_rows_of_the_function history "f" 3)).
Defined.

End MetricsReadsFacts.

(** ** The handlers of the function table *)

Module HandlersFacts.
Import Main MainPaths Handlers MonadFacts RunnerProps.

Lemma query_stored name db w :
  query_function name db w = (inr (stored name (functions db)), db, w).
Proof. reflexivity. Qed.

Lemma stored_cons n f fs :
  stored n (f :: fs) = if decide (Main.name f = n) then Some f else stored n fs.
Proof. unfold stored. rewrite filter_cons. by destruct (decide _). Qed.

Lemma stored_none n fs : stored n fs = None <-> n ∉ map Main.name fs.
Proof.
  induction fs as [|f fs IH]; [split; [intros _; apply not_elem_of_nil|done]|].
  rewrite stored_cons. simpl. rewrite not_elem_of_cons.
  destruct (decide _) as [E|E].
  - split; [done|]. intros [Hn _]. congruence.
  - rewrite IH. split; [intros H; split; [congruence|done]|by intros [_ H]].
Qed.

Lemma stored_some n fs f : stored n fs = Some f -> f ∈ fs /\ Main.name f = n.
Proof.
  induction fs as [|g fs IH]; [done|]. rewrite stored_cons.
  destruct (decide _) as [E|E].
  - intros [= <-]. split; [left|done].
  - intros H. destruct (IH H). split; [by right|done].
Qed.

Lemma stored_app_new f fs :
  Main.name f ∉ map Main.name fs -> stored (Main.name f) (fs ++ [f]) = Some f.
Proof.
  induction fs as [|g fs IH]; simpl; intros H.
  - rewrite stored_cons. by rewrite decide_True.
  - apply not_elem_of_cons in H as [Hg H]. rewrite stored_cons.
    rewrite decide_False by done. by apply IH.
Qed.

Lemma stored_app_other n f fs :
  n <> Main.name f -> stored n (fs ++ [f]) = stored n fs.
Proof.
  intros Hn. induction fs as [|g fs IH]; simpl.
  - rewrite stored_cons. by rewrite decide_False.
  - rewrite !stored_cons. by destruct (decide _).
Qed.

Lemma names_remove n fs : map Main.name (remove_first n fs) `sublist_of` map Main.name fs.
Proof.
  induction fs as [|f fs IH]; simpl; [done|].
  destruct (decide _); simpl; by constructor.
Qed.

Lemma names_remove_elem n m fs :
  m ∈ map Main.name (remove_first n fs) -> m ∈ map Main.name fs.
Proof.
  induction fs as [|f fs IH]; simpl; [done|].
  destruct (decide _); simpl; rewrite ?elem_of_cons; [by right|].
  intros [->|H]; [by left|right; by apply IH].
Qed.

Lemma stored_remove_same n fs :
  NoDup (map Main.name fs) -> stored n (remove_first n fs) = None.
Proof.
  induction fs as [|f fs IH]; simpl; [done|]. intros [Hf Hfs]%NoDup_cons.
  destruct (decide _) as [E|E].
  - apply stored_none. by rewrite <- E.
  - rewrite stored_cons, decide_False by done. by apply IH.
Qed.

Lemma stored_remove_other n m fs : m <> n -> stored m (remove_first n fs) = stored m fs.
Proof.
  intros Hm. induction fs as [|f fs IH]; simpl; [done|].
  destruct (decide (Main.name f = n)) as [E|E].
  - rewrite stored_cons, decide_False by congruence. done.
  - rewrite !stored_cons. by destruct (decide _).
Qed.

Lemma names_remove_other n m fs :
  m <> n -> m ∈ map Main.name fs -> m ∈ map Main.name (remove_first n fs).
Proof.
  intros Hm Hin. destruct (decide (m ∈ map Main.name (remove_first n fs))) as [|Hout]; [done|].
  apply stored_none in Hout. rewrite stored_remove_other in Hout by done.
  by apply stored_none in Hout.
Qed.

Lemma stored_replace_new n u fs :
  n ∈ map Main.name fs ->
  Main.name u ∉ map Main.name (remove_first n fs) ->
  stored (Main.name u) (replace_first n u fs) = Some u.
Proof.
  induction fs as [|f fs IH]; simpl; [by intros ?%elem_of_nil|].
  intros Hin Hout. destruct (decide (Main.name f = n)) as [E|E].
  - by rewrite stored_cons, decide_True.
  - simpl in Hout. apply not_elem_of_cons in Hout as [Hf Hout].
    apply elem_of_cons in Hin as [Hin|Hin]; [done|].
    rewrite stored_cons, decide_False by done. by apply IH.
Qed.

Lemma stored_replace_other n m u fs :
  m <> n -> m <> Main.name u -> stored m (replace_first n u fs) = stored m fs.
Proof.
  intros Hn Hu. induction fs as [|f fs IH]; simpl; [done|].
  destruct (decide (Main.name f = n)) as [E|E].
  - rewrite !stored_cons, !decide_False by congruence. done.
  - rewrite !stored_cons. by destruct (decide _).
Qed.

Lemma stored_replace_old n u fs :
  NoDup (map Main.name fs) -> Main.name u <> n ->
  stored n (replace_first n u fs) = None.
Proof.
  intros Hnd Hu. induction fs as [|f fs IH]; simpl; [done|].
  apply NoDup_cons in Hnd as [Hf Hfs].
  destruct (decide (Main.name f = n)) as [E|E].
  - rewrite stored_cons, decide_False by done. apply stored_none. by rewrite <- E.
  - rewrite stored_cons, decide_False by done. by apply IH.
Qed.

Lemma names_replace n u fs :
  n ∈ map Main.name fs ->
  map Main.name (replace_first n u fs) ≡ₚ Main.name u :: map Main.name (remove_first n fs).
Proof.
  induction fs as [|f fs IH]; simpl; [by intros ?%elem_of_nil|].
  intros Hin. destruct (decide (Main.name f = n)) as [E|E]; [done|].
  apply elem_of_cons in Hin as [Hin|Hin]; [done|].
  simpl. rewrite (IH Hin). apply perm_swap.
Qed.

Lemma replace_absent n u fs : n ∉ map Main.name fs -> replace_first n u fs = fs.
Proof.
  induction fs as [|f fs IH]; simpl; [done|]. intros [Hf Hfs]%not_elem_of_cons.
  rewrite decide_False by done. by rewrite IH.
Qed.

Lemma length_replace n u fs : length (replace_first n u fs) = length fs.
Proof.
  induction fs as [|f fs IH]; simpl; [done|]. destruct (decide _); simpl; by f_equal.
Qed.

(** what each of the three writing handlers does to the table *)
Lemma create_effect func db w :
  create_function func db w =
    if bool_decide (Main.name func ∈ map Main.name (functions db))
    then (inl ("500: Database error: " ++ integrity_error), db, w)
    else (inr "Function saved",
          {| functions := functions db ++ [func];
             execution_metrics := execution_metrics db |}, w).
Proof.
  unfold create_function, try_except, add_and_commit, bind, get_locals.
  by destruct (bool_decide _).
Qed.

Lemma update_effect name updated db w :
  update_function name updated db w =
    match stored name (functions db) with
    | None => (inl not_found, db, w)
    | Some _ =>
        if bool_decide (Main.name updated
                          ∈ map Main.name (remove_first name (functions db)))
        then (inl integrity_error, db, w)
        else (inr "Function updated",
              {| functions := replace_first name updated (functions db);
                 execution_metrics := execution_metrics db |}, w)
    end.
Proof.
  unfold update_function, bind. rewrite query_stored.
  destruct (stored _ _); [|done].
  unfold set_fields_and_commit, bind, get_locals. by destruct (bool_decide _).
Qed.

Lemma delete_effect name db w :
  delete_function name db w =
    match stored name (functions db) with
    | None => (inl not_found, db, w)
    | Some _ =>
        (inr "Function deleted",
         {| functions := remove_first name (functions db);
            execution_metrics := execution_metrics db |}, w)
    end.
Proof.
  unfold delete_function, bind. rewrite query_stored. by destruct (stored _ _).
Qed.

Lemma get_effect name db w :
  get_function name db w =
    match stored name (functions db) with
    | None => (inl not_found, db, w)
    | Some f => (inr f, db, w)
    end.
Proof. unfold get_function, bind. rewrite query_stored. by destruct (stored _ _). Qed.

(** X20. The three handlers that write to the table of functions keep its
    names unique, whatever their arguments and whether they return or
    raise; none of them touches the metrics rows or the engine. *)
Theorem writing_handlers_keep_names_unique db w :
  unique_names db ->
  (forall func,
     unique_names (create_function func db w).1.2 /\
     execution_metrics (create_function func db w).1.2 = execution_metrics db /\
     (create_function func db w).2 = w) /\
  (forall name updated,
     unique_names (update_function name updated db w).1.2 /\
     execution_metrics (update_function name updated db w).1.2 = execution_metrics db /\
     (update_function name updated db w).2 = w) /\
  (forall name,
     unique_names (delete_function name db w).1.2 /\
     execution_metrics (delete_function name db w).1.2 = execution_metrics db /\
     (delete_function name db w).2 = w).
Proof.
  unfold unique_names. intros Hnd. split; [|split].
  - intros func. rewrite create_effect.
    destruct (bool_decide _) eqn:E; simpl; [done|].
    apply bool_decide_eq_false in E. split; [|done].
    rewrite map_app. simpl. apply NoDup_app. split; [done|]. split.
    + intros x Hx ->%list_elem_of_singleton. done.
    + apply NoDup_singleton.
  - intros name updated. rewrite update_effect.
    destruct (stored _ _) as [old|] eqn:Es; simpl; [|done].
    destruct (bool_decide _) eqn:E; simpl; [done|].
    apply bool_decide_eq_false in E. split; [|done].
    apply stored_some in Es as [Hin Hn].
    rewrite names_replace.
    + apply NoDup_cons. split; [done|].
      eapply sublist_NoDup; [exact Hnd|apply names_remove].
    + rewrite <- Hn. apply list_elem_of_fmap. eauto.
  - intros name. rewrite delete_effect.
    destruct (stored _ _); simpl; [|done]. split; [|done].
    eapply sublist_NoDup; [exact Hnd|apply names_remove].
Qed.

Lemma two_functions_unique : unique_names two_functions.
Proof.
  unfold unique_names. simpl.
  apply NoDup_cons. split; [|apply NoDup_singleton].
  intros H%list_elem_of_singleton. discriminate.
Qed.

Lemma writing_handlers_keep_names_unique_witness :
  unique_names two_functions /\
  unique_names (update_function "f" hello_updated two_functions (cold_world 3 0)).1.2.
Proof.
  split; [exact two_functions_unique|].
  apply (writing_handlers_keep_names_unique two_functions (cold_world 3 0)
           two_functions_unique).
Defined.

(** X21. Creating a function under a free name stores it at the end of the
    table: a lookup by that name then returns exactly what was sent and the
    lookups of the other names are as before. Creating under a name that is
    taken fails with 500 and leaves the table as it was: the stored
    function is not overwritten. *)
Theorem create_stores_or_refuses func db w :
  (Main.name func ∉ map Main.name (functions db) ->
     exists db',
       create_function func db w = (inr "Function saved", db', w) /\
       list_functions db' w = (inr (functions db ++ [func])%list, db', w) /\
       get_function (Main.name func) db' w = (inr func, db', w) /\
       forall n, n <> Main.name func ->
         (get_function n db' w).1.1 = (get_function n db w).1.1) /\
  (Main.name func ∈ map Main.name (functions db) ->
     create_function func db w
       = (inl ("500: Database error: " ++ integrity_error), db, w) /\
     exists old, get_function (Main.name func) db w = (inr old, db, w)).
Proof.
  split; intros H.
  - eexists. rewrite create_effect, bool_decide_eq_false_2 by done.
    split; [reflexivity|]. split; [reflexivity|]. rewrite get_effect. simpl.
    rewrite stored_app_new by done. split; [done|].
    intros n Hn. rewrite !get_effect. simpl. rewrite stored_app_other by done.
    by destruct (stored _ _).
  - rewrite create_effect, bool_decide_eq_true_2 by done. split; [done|].
    rewrite get_effect. destruct (stored _ _) as [old|] eqn:E; [eauto|].
    by apply stored_none in E.
Qed.

Lemma create_stores_or_refuses_witness :
  exists db',
    create_function hello_updated hello_db (cold_world 3 0)
      = (inl ("500: Database error: " ++ integrity_error), db', cold_world 3 0) /\
    db' = hello_db.
Proof.
  exists hello_db. split; [|reflexivity].
  apply (create_stores_or_refuses hello_updated hello_db (cold_world 3 0)).
  simpl. apply list_elem_of_singleton. reflexivity.
Defined.

(** X22. Updating a stored function overwrites its four fields, the name
    included. When the new name is the old one or is free, the update
    returns, a lookup by the new name returns exactly what was sent, the
    old name is gone if the function was renamed, the other functions are
    as before, and the metrics rows are not touched, so that the rows
    written under the old name stay under the old name. When the new name
    belongs to another function, the update raises and nothing changes. *)
Theorem update_overwrites_or_refuses name updated db w old :
  unique_names db ->
  stored name (functions db) = Some old ->
  (Main.name updated = name \/ Main.name updated ∉ map Main.name (functions db) ->
     exists db',
       update_function name updated db w = (inr "Function updated", db', w) /\
       get_function (Main.name updated) db' w = (inr updated, db', w) /\
       (Main.name updated <> name -> get_function name db' w = (inl not_found, db', w)) /\
       (forall n, n <> name -> n <> Main.name updated ->
          (get_function n db' w).1.1 = (get_function n db w).1.1) /\
       length (functions db') = length (functions db) /\
       execution_metrics db' = execution_metrics db) /\
  (Main.name updated <> name -> Main.name updated ∈ map Main.name (functions db) ->
     update_function name updated db w = (inl integrity_error, db, w)).
Proof.
  unfold unique_names. intros Hnd Hold.
  pose proof (stored_some _ _ _ Hold) as [Hin Hname].
  assert (Hnin : name ∈ map Main.name (functions db)).
  { rewrite <- Hname. apply list_elem_of_fmap. eauto. }
  assert (Hrest : name ∉ map Main.name (remove_first name (functions db))).
  { apply stored_none. by apply stored_remove_same. }
  split.
  - intros Hfree.
    assert (Hout : Main.name updated ∉ map Main.name (remove_first name (functions db))).
    { destruct Hfree as [->|Hfree]; [done|].
      intros Hx. apply Hfree. by eapply names_remove_elem. }
    eexists. rewrite update_effect, Hold, bool_decide_eq_false_2 by done.
    split; [reflexivity|]. rewrite !get_effect. simpl.
    rewrite stored_replace_new by done. split; [done|]. split; [|split; [|split]].
    + intros Hne. by rewrite stored_replace_old.
    + intros n Hn Hu. rewrite !get_effect. simpl.
      rewrite stored_replace_other by done. by destruct (stored n (functions db)).
    + apply length_replace.
    + done.
  - intros Hne Htaken. rewrite update_effect, Hold.
    rewrite bool_decide_eq_true_2; [done|].
    by apply names_remove_other.
Qed.

Lemma update_overwrites_or_refuses_witness :
  exists db',
    update_function "hello" hello_updated two_functions (cold_world 3 0)
      = (inr "Function updated", db', cold_world 3 0) /\
    get_function "hello" db' (cold_world 3 0) = (inr hello_updated, db', cold_world 3 0).
Proof.
  pose proof two_functions_unique as Hnd.
  destruct (proj1 (update_overwrites_or_refuses "hello" hello_updated two_functions
                     (cold_world 3 0) _ Hnd eq_refl) (or_introl eq_refl))
    as (db' & Hu & Hg & _).
  exists db'. split; [exact Hu | exact Hg].
Defined.

Lemma metrics_effect name limit db w :
  get_function_metrics name limit db w =
    match stored name (functions db) with
    | None => (inl not_found, db, w)
    | Some _ =>
        (inr (MetricsReads.get_metrics_for_function (execution_metrics db) name limit),
         db, w)
    end.
Proof.
  unfold get_function_metrics, bind. rewrite query_stored. by destruct (stored _ _).
Qed.

(** X23. Deleting a stored function removes its row and nothing else: a
    lookup by its name then fails with 404, the other functions are as
    before, and the metrics rows written under its name stay in the table.
    They can no longer be read through the history endpoint, which now
    answers 404 for that name whatever rows there are. *)
Theorem delete_removes_the_function_but_not_its_metrics name db w old :
  unique_names db ->
  stored name (functions db) = Some old ->
  exists db',
    delete_function name db w = (inr "Function deleted", db', w) /\
    get_function name db' w = (inl not_found, db', w) /\
    (forall n, n <> name -> (get_function n db' w).1.1 = (get_function n db w).1.1) /\
    execution_metrics db' = execution_metrics db /\
    (forall limit,
       get_function_metrics name limit db w =
         (inr (MetricsReads.get_metrics_for_function (execution_metrics db) name limit),
          db, w) /\
       get_function_metrics name limit db' w = (inl not_found, db', w)).
Proof.
  unfold unique_names. intros Hnd Hold.
  eexists. rewrite delete_effect, Hold. split; [reflexivity|].
  rewrite get_effect. simpl. rewrite stored_remove_same by done.
  split; [done|]. split; [|split; [done|]].
  - intros n Hn. rewrite !get_effect. simpl. rewrite stored_remove_other by done.
    by destruct (stored n (functions db)).
  - intros limit. rewrite !metrics_effect, Hold. simpl.
    by rewrite stored_remove_same.
Qed.

Lemma delete_removes_the_function_but_not_its_metrics_witness :
  exists db',
    delete_function "f" two_functions (cold_world 3 0)
      = (inr "Function deleted", db', cold_world 3 0) /\
    length (execution_metrics db') = 6%nat /\
    get_function_metrics "f" 100 db' (cold_world 3 0)
      = (inl not_found, db', cold_world 3 0).
Proof.
  pose proof two_functions_unique as Hnd.
  destruct (delete_removes_the_function_but_not_its_metrics "f" two_functions
              (cold_world 3 0) _ Hnd eq_refl) as (db' & Hd & _ & _ & Hm & Hh).
  exists db'. split; [exact Hd|]. split; [by rewrite Hm|].
  exact (proj2 (Hh 100%nat)).
Defined.

End HandlersFacts.
